(* ===== verification/_CoqProject ===== *)
-Q . S2P
Prelude.v
JsString.v
Registry.v
Reader.v
Dom.v
Host.v
MapStore.v
Resolver.v
SortKey.v
Contrast.v
Writer.v
Popup.v
Prompt.v
Hooks.v
Async.v
