(* ===== verification/Prelude.v ===== *)
(** * Verification of zotero-semantic-coloring

    The program is a Zotero reader plugin (TypeScript).  While a PDF is
    open in the reader, the user selects text, the reader fires a
    [renderTextSelectionPopup] event, the plugin captures the selection
    into a cache and adds one button per semantic category to the
    popup, and a click on a button writes a coloured highlight
    annotation for the selection.

    ** The program's parts and the files that model them

    The sources are [src/modules/semanticColoring.ts] and
    [src/hooks.ts].  In the order of the dependencies:

    - [Prelude] (this file): JavaScript truthiness, [||], the scope
      and notations, the tactics and the hint databases.
    - [JsString]: the built-ins on numbers and strings that the code
      calls: [String] of an integer or [NaN], [padStart], [substring],
      [trim], and the comparison of strings.
    - [Registry]: [SEMANTIC_COLORS] and the [SemanticColor] interface,
      as an association list in the order of the declaration.
    - [Reader]: the host objects the plugin reads (reader, internal
      reader, state, primary view, selection ranges, selection,
      position), one record per object, one field per property.
    - [Dom]: the property bags the plugin gives to
      [ztoolkit.UI.createElement], the closures of its listeners as the
      variables they capture, and the calls into the user interface.
    - [Host]: the item store as the class [Host] with its laws, the
      record [World] (store, log, progress lines, focus requests, the
      cache [addon.data.semanticColors], user interface calls), and the
      monad [M] of state and exceptions with [try_catch].
    - [MapStore]: an item store on finite maps that satisfies the laws
      of [Host]; the examples run on it.
    - [Resolver]: lines 160-241 of [applySemanticColor], the three
      sources of a position probed in order ([tier1], [tier2], [tier3],
      [resolvePosition]).
    - [SortKey]: lines 243-249, the sort index [PPPPP|YYYYYY|XXXXX].
    - [Contrast]: [getContrastColor] with [parseInt] of radix 16 and
      the arithmetic of doubles, on Rocq's primitive floats.
    - [Writer]: [applySemanticColor] as a whole: the two guards, the
      resolver, the annotation item, [saveTx], the logs, [focus] and
      the [catch].
    - [Popup]: [buildSemanticColoringPopup] (the capture rules, the
      buttons, [append]) and [runListener], what the click listener of
      a button does.
    - [Prompt]: [registerSemanticColoringPrompt]: the registration,
      the [when] test and the [callback] with its buttons.
    - [Hooks]: the listener that [onMainWindowLoad] registers,
      [onReaderPopupShow], [onNotify], the lifecycle hooks with the
      calls they make into the host and the toolkit ([HostCall]), and
      the plugin as a transition system ([step], [steps], and the
      function [exec]).
    - [Async]: [applySemanticColor] and the click listeners split
      where they suspend ([applyStart] and [applyResume] around
      [await annotationItem.saveTx()], [clickStart] and [clickEnd]
      around [await applySemanticColor(...)]), and the event loop
      [astep] that runs the halves among the actions of the host.

    ** How the code is modelled

    JavaScript values are modelled by the types the code uses them at.
    A property that may be missing is an [option]; [undefined] is
    [None].  A page index is a [Z]; a rectangle is a list of rationals
    ([Q]), so that [Math.floor] is [Qfloor]; a number that the code
    turns into a string is a [jsnum] (an integer or [NaN]), so that
    [String(undefined + 1)] is ["NaN"] as in the code; the numbers of
    [getContrastColor] are doubles.  Truthiness ([if (x)], [x || d],
    [!x]) is the class [Truthy] of this file, with one instance per
    type: a string is truthy when it is not empty, a number when it is
    not zero, an array or an object always, a missing property never.
    Optional chaining [a?.b] is the bind of [option].

    Effects are explicit.  A function with effects is a computation of
    [Host.M]: it takes a world and returns a value or an exception
    together with the new world.  The log, the progress lines, the
    focus requests and the user interface calls are lists to which a
    call appends.  Every function has an equation that gives its result
    and the world it leaves on every input ([Resolver.resolvePosition_run],
    [Popup.build_run], [Hooks.listener_run]) or, for
    [applySemanticColor], the relation [Writer.apply_spec] between the
    outcome of the call and the world, with [Writer.apply_run]; the
    theorems are consequences of these.  The rewriting database [m_rw]
    and the tactic [m_simpl] run a computation one operation at a
    time.

    An asynchronous function is modelled twice.  In the files
    [Writer], [Popup] and [Hooks] a call runs as one step, from its
    first line to its last.  In the file [Async] it is the two halves
    around its [await], and the state of the event loop ([Async.Loop])
    holds the listeners that are suspended ([Async.Task]: at the save,
    or waiting for the call they made), which the loop resumes in any
    order among the actions of the host.  [Async.runListener_split]
    shows that the halves run one after the other are the one-step
    function, so the runs of [Hooks.step] are the runs of the loop in
    which every listener is resumed at once.  The save of a suspended
    call runs on the store as it is when the call is resumed.

    A closure is kept as the variables it captures ([Dom.Listener]),
    and [Popup.runListener] is its body.  The popup's listener captures
    the reader, the key, the category and the popup element, and reads
    the cached text when it runs; the prompt's captures the text.

    ** What the theorems show

    - [JsString]: lemmas on the model of the built-ins, which the
      theorems on keys use: the decimal printer does not depend on
      its fuel and round-trips with a reader of digits; padded numbers
      compare as strings the way the numbers compare.
    - [Registry]: keys are distinct and lookup finds the declared
      entries; colours have the form [#rrggbb].
    - [Resolver]: the resolver computes the first of three sources
      ([source1], [source2], [source3]) that offers a position; tier 1
      wins over the others and returns the rectangles of all ranges in
      order; the resolver never throws and only writes output; every
      position it returns has a rectangle unless the cache holds one
      with none, which tier 3 lets through.
    - [SortKey]: inside the bounds a key has three fields of five,
      six and five characters, keys order as (page, y, x), are
      injective and read back as the three numbers; outside the
      bounds and for negative or missing coordinates the order is
      lost, with the counterexamples.
    - [Contrast]: on every colour [#rrggbb] the test on doubles
      answers as the exact luminance does, but for the one colour
      where rounding decides ([#da3af8]); a colour that does not
      parse gets white text.
    - [Writer]: the annotation a successful call saves, field by
      field, and that it is well formed ([Writer.wf_annotation]) on
      every input; one annotation at most per call and none on a
      failure; no exception escapes; which failures show a line to the
      user and which do not; the annotation that is saved and then
      reported as an error.
    - [Popup]: what an event captures, what a click does, the path
      from an event to a saved annotation, and that a click applies
      the newest capture.
    - [Prompt]: every button of the container that [callback] builds
      applies the text [callback] read when the prompt was opened,
      whatever the cache holds at the click.
    - [Hooks]: the listener is [onReaderPopupShow] (its [trim] is
      overwritten); one container per window; in every reachable state
      the annotations the plugin added are highlights of categories of
      the registry, at most one per click, with distinct identifiers;
      the calls of a start, window by window; [run] computes the runs
      of [step].
    - [Async]: the annotation a click saves is fixed when the button
      is clicked, whatever runs before the save completes; the
      invariants of [Hooks] hold in every state of the event loop,
      with the saves in flight counted; the cache stays well formed
      ([Popup.wf_capture]) and no annotation gets an empty text;
      every run of [Hooks.step] is a run of the loop; the suspended
      listeners all finish, in whatever order the host completes
      them, and then every clicked popup is hidden; and a listener
      hides its popup after its [await] only, so that a second click
      while the save is in flight saves the same highlight twice.

    ** Bounds and fuel

    The only loop that is not structural is the digit loop
    [JsString.digits_go]; its fuel is one more than the binary
    logarithm of the number, and [JsString.digits_go_fuel] shows that
    any larger fuel gives the same string.  Integers are unbounded
    ([Z]): the code keeps JavaScript numbers, which are exact for
    integers below 2^53, and [String] of a number switches to exponent
    notation from 10^21; the theorems on keys assume the bounds of the
    format (page < 10^5, y < 10^6, x < 10^5), far below both.  The
    channels of a colour are below 256 in absolute value, where the
    conversion to a double is exact; the comparison of the two
    luminance tests evaluates them on all 2^24 triples of channels
    ([Contrast.all_agree], a few seconds).  The host delivers an event to
    the listeners in the order of registration ([Hooks.dispatch]), and
    is assumed to drop them when the plugin shuts down
    ([Hooks.unregistered]).  The event loop needs no fuel: a
    suspended call needs two turns and a suspended listener one
    ([Async.turns]), every turn takes one away
    ([Async.resumeTask_progress]), and [Async.listeners_finish] is by
    induction on their sum.

    ** Not modelled

    The DOM and the CSS behind the elements, and the host's rendering
    and storage engine.  What [initLocale], [createZToolkit],
    [insertFTLIfNeeded], the promises [onStartup] awaits and
    [ztoolkit.Prompt.register] do inside the host: they are not part
    of the sources, and appear as calls in a trace.  [JSON.stringify]
    of a position is kept abstract, a logged or stored position being
    the position value: the positions of the second and third source
    are objects of the host, which may carry properties the plugin
    never reads, and the text of a coordinate is the shortest decimal
    that reads back as the same double, which the rational coordinates
    of the model do not determine.  The [extraData] of a notification
    is passed to the log unread.  The text of the [TypeError] that
    the engine throws for [undefined.substring] is the model's; what
    is thrown is an [Error] object, so that [error.message] is
    defined.  [trim] strips ASCII white space.  Rectangle coordinates
    are finite numbers ([NaN] and infinities do not occur as inputs;
    [NaN] does occur as the result of reading a missing coordinate).
    A click is enabled for every button ever appended to a popup
    ([Hooks.step]): hiding or disposing of a popup and shutting the
    plugin down do not disable it, so the transition systems have
    more runs than the host, and their invariants hold of the
    host's.  Changes of the store by the user or by other plugins between two
    actions are not part of the transition systems; the theorems on a
    resumed call ([Async.resume_saves_click_time]) hold for any world
    it is resumed in.  The event loop resumes a suspended listener at
    any later turn, which includes every order the host's promises
    can settle in. *)

From Stdlib Require Import ZArith Lia.
From stdpp Require Import base tactics option list strings.

Declare Scope js_scope.
Delimit Scope js_scope with js.

(** ** Truthiness *)

(** [truthy v] is JavaScript's ToBoolean at the type of [v]. *)
Class Truthy (A : Type) := truthy : A → bool.
#[global] Hint Mode Truthy ! : typeclass_instances.
Arguments truthy {_ _} !_ / : assert.

#[export] Instance truthy_bool : Truthy bool := λ b, b.
#[export] Instance truthy_string : Truthy string :=
  λ s, match s with EmptyString => false | String _ _ => true end.
#[export] Instance truthy_Z : Truthy Z := λ z, negb (z =? 0)%Z.
#[export] Instance truthy_nat : Truthy nat := λ n, negb (n =? 0)%nat.
(** An array is an object: truthy even when empty. *)
#[export] Instance truthy_list {A} : Truthy (list A) := λ _, true.
#[export] Instance truthy_option {A} `{Truthy A} : Truthy (option A) :=
  λ o, match o with Some a => truthy a | None => false end.

(** [v || d] where [v] may be missing and [d] is a value. *)
Definition js_or {A} `{Truthy A} (v : option A) (d : A) : A :=
  match v with
  | Some a => if truthy a then a else d
  | None => d
  end.

(** [v || w] where both may be missing. *)
Definition js_or_opt {A} `{Truthy A} (v w : option A) : option A :=
  if truthy v then v else w.

Notation "v ||: d" := (js_or v d) (at level 50, left associativity) : js_scope.
Notation "v ||? w" := (js_or_opt v w) (at level 50, left associativity) : js_scope.

(** [a.length] of an array that may be missing: [undefined] compares
    false with every number. *)
Definition length_is {A} (l : option (list A)) (n : nat) : bool :=
  match l with Some l => (length l =? n)%nat | None => false end.
Definition length_gt {A} (l : option (list A)) (n : nat) : bool :=
  match l with Some l => (n <? length l)%nat | None => false end.

(** ** Tactics and hint databases *)

Create HintDb js discriminated.
Create Rewrite HintDb js_rw.
Create Rewrite HintDb m_rw.

(** Case analysis on every [match] and [if] of the goal, then cleanup. *)
Ltac js_cases :=
  repeat (case_match; simplify_eq/=); try done.

(** Unfold truthiness at the instances of this file. *)
Ltac js_truthy :=
  cbv [js_or js_or_opt length_is length_gt truthy truthy_option
       truthy_string truthy_Z truthy_nat truthy_list truthy_bool] in *.

(** ** Shared lemmas *)

Section truthy.
Context {A : Type} `{Truthy A}.

Lemma truthy_Some_inv (o : option A) :
  truthy o = true → ∃ a, o = Some a ∧ truthy a = true.
Proof. destruct o; naive_solver. Qed.

Lemma truthy_None : truthy (@None A) = false.
Proof. done. Qed.

Lemma js_or_truthy (v : option A) (d : A) :
  truthy v = true → ∃ a, v = Some a ∧ js_or v d = a.
Proof. destruct v as [a|]; simpl; [|done]. intros ->. eauto. Qed.

Lemma js_or_falsy (v : option A) (d : A) :
  truthy v = false → js_or v d = d.
Proof. destruct v as [a|]; simpl; [|done]. by intros ->. Qed.
End truthy.

(** [v || d] for a default that is not empty is not empty. *)
Lemma js_or_string_nonempty (v : option string) (d : string) :
  d ≠ "" → js_or v d ≠ "".
Proof. by destruct v as [[|c s]|]. Qed.

Lemma truthy_list_option {A} (o : option (list A)) :
  truthy o = true ↔ is_Some o.
Proof. destruct o; js_truthy; split; try done; eauto. Qed.

Lemma js_or_Z_zero (v : option Z) : js_or v 0%Z = default 0%Z v.
Proof. destruct v as [z|]; js_truthy; [|done]. by destruct (Z.eqb_spec z 0). Qed.

Lemma length_gt_0 {A} (o : option (list A)) :
  length_gt o 0 = true ↔ ∃ x l, o = Some (x :: l).
Proof.
  destruct o as [[|x l]|]; simpl; split; try done; eauto;
    by intros (? & ? & ?).
Qed.

Lemma length_is_0 {A} (o : option (list A)) :
  length_is o 0 = true ↔ o = Some [].
Proof. destruct o as [[|x l]|]; simpl; split; congruence. Qed.

(** Strings: append is [simpl never] under stdpp, so its equations are
    lemmas. *)
Lemma string_app_cons (c : Ascii.ascii) (s1 s2 : string) :
  String c s1 +:+ s2 = String c (s1 +:+ s2).
Proof. done. Qed.

Lemma string_app_nil_l (s : string) : "" +:+ s = s.
Proof. done. Qed.

Lemma string_app_assoc (s1 s2 s3 : string) :
  (s1 +:+ s2) +:+ s3 = s1 +:+ (s2 +:+ s3).
Proof.
  induction s1 as [|c s1 IH]; [done|]. by rewrite !string_app_cons, IH.
Qed.

Lemma string_app_nil_r (s : string) : s +:+ "" = s.
Proof.
  induction s as [|c s IH]; [done|]. by rewrite string_app_cons, IH.
Qed.

Lemma string_length_app (s1 s2 : string) :
  String.length (s1 +:+ s2) = String.length s1 + String.length s2.
Proof.
  induction s1 as [|c s1 IH]; [done|].
  rewrite string_app_cons. simpl. by rewrite IH.
Qed.

#[export] Hint Rewrite @js_or_Z_zero : js_rw.
#[export] Hint Rewrite string_app_nil_r string_app_nil_l string_length_app
  string_app_cons : js_rw.
#[export] Hint Resolve truthy_None : js.

(** An element of a list, with what is before and after it. *)
Lemma lookup_middle {A} (l : list A) (i : nat) (x : A) :
  l !! i = Some x →
  ∃ l1 l2, l = l1 ++ x :: l2 ∧ delete i l = l1 ++ l2
           ∧ ∀ y, <[i:=y]> l = l1 ++ y :: l2.
Proof.
  intros Hi. exists (take i l), (drop (S i) l). split_and!.
  - by rewrite take_drop_middle.
  - by rewrite delete_take_drop.
  - intros y. apply insert_take_drop. by eapply lookup_lt_Some.
Qed.
