(* ===== verification/JsString.v ===== *)
(** * JavaScript built-ins on numbers and strings

    The built-ins the plugin calls on numbers and strings, as executable
    definitions: [String(n)] for an integer or [NaN] ([js_String]),
    [padStart] with a one-character filler, [substring], [trim], and
    the comparison of strings by code unit ([String.compare] of the
    Standard Library, on ASCII); [split_on] and [read_Z] read a padded
    number back.  The lemmas relate the digit loop to its unfolding
    equation and to a reader of digits, give the width of padded
    numbers, and show that padded numbers compare as strings the way
    they compare as numbers. *)

From Stdlib Require Import ZArith Lia Ascii.
From stdpp Require Import base tactics option list strings.
From S2P Require Import Prelude.

#[local] Open Scope Z_scope.

(** ** Numbers that are turned into strings *)

(** The result of integer arithmetic on a value that may be
    [undefined]: an integer, or [NaN]. *)
Inductive jsnum : Type :=
  | Int (z : Z)
  | NaN.

#[export] Instance jsnum_eq_dec : EqDecision jsnum.
Proof. solve_decision. Defined.

(** [v + 1] for a value that may be [undefined]. *)
Definition add1 (v : option Z) : jsnum :=
  match v with Some z => Int (z + 1) | None => NaN end.

(** ** Decimal printing

    [String(n)] is a built-in: the source has no digit loop.  The loop
    below is the model's rendering of the decimal digits of an
    integer, with the fuel Rocq needs for a recursion on a quotient;
    [digits_go_fuel] shows that the fuel does not matter and
    [js_String_roundtrip] that the digits are those of the number.
    From 10^21 on [String] prints an exponent, and integers are exact
    up to 2^53 only: the theorems that use the printer stay inside
    the bounds of the sort index. *)

Definition digit_char (d : Z) : ascii :=
  match d with
  | 0 => "0" | 1 => "1" | 2 => "2" | 3 => "3" | 4 => "4"
  | 5 => "5" | 6 => "6" | 7 => "7" | 8 => "8" | _ => "9"
  end%char.

(** The digit loop: the last digit is put in front of the accumulator
    until the quotient is zero. *)
Fixpoint digits_go (fuel : nat) (n : Z) (acc : string) : string :=
  match fuel with
  | O => acc
  | S fuel' =>
      let acc' := String (digit_char (n mod 10)) acc in
      if n / 10 =? 0 then acc' else digits_go fuel' (n / 10) acc'
  end.

(** The decimal digits of [n >= 0].  A number below [2 ^ fuel] has at
    most [fuel] decimal digits. *)
Definition digits (n : Z) : string :=
  digits_go (S (Z.to_nat (Z.log2 n))) n "".

(** [String(n)] for an integer. *)
Definition String_of_Z (z : Z) : string :=
  if z <? 0 then String "-" (digits (- z)) else digits z.

(** [String(n)]. *)
Definition js_String (n : jsnum) : string :=
  match n with
  | Int z => String_of_Z z
  | NaN => "NaN"
  end.

(** ** [padStart], [substring], [trim] *)

Fixpoint replicate_char (n : nat) (c : ascii) : string :=
  match n with
  | O => ""
  | S n' => String c (replicate_char n' c)
  end.

(** [s.padStart(width, c)] for a filler of one character: the string
    is returned as it is when it is already [width] long or longer. *)
Definition padStart (width : nat) (c : ascii) (s : string) : string :=
  replicate_char (width - String.length s) c +:+ s.

(** [s.substring(from, to)] with [from <= to]; both are clamped to the
    length of the string. *)
Definition substring (from to : nat) (s : string) : string :=
  String.substring from (to - from) s.

Fixpoint trimStart (s : string) : string :=
  match s with
  | String c s' => if Ascii.is_space c then trimStart s' else s
  | EmptyString => EmptyString
  end.

(** [s.trim()] on ASCII white space; the white space of Unicode that
    [trim] also strips is outside the strings of the model. *)
Definition trim (s : string) : string :=
  String.rev (trimStart (String.rev (trimStart s))).

(** ** Reference definitions *)

(** The value of a digit character. *)
Definition digit_val (c : ascii) : option Z :=
  Z.of_nat <$> Ascii.is_nat c.

(** A reader of decimal digits, most significant first. *)
Fixpoint read_digits (acc : Z) (s : string) : option Z :=
  match s with
  | EmptyString => Some acc
  | String c s' =>
      match digit_val c with
      | Some d => read_digits (10 * acc + d) s'
      | None => None
      end
  end.

(** A reader of integers: an optional minus sign, then digits. *)
Definition read_Z (s : string) : option Z :=
  match s with
  | String "-" s' => Z.opp <$> read_digits 0 s'
  | _ => read_digits 0 s
  end.

(** The [w] decimal digits of [n mod 10^w], least significant last. *)
Fixpoint fixed (w : nat) (n : Z) : string :=
  match w with
  | O => ""
  | S w' => fixed w' (n / 10) +:+ String (digit_char (n mod 10)) ""
  end.

(** The fields of [s] between the occurrences of the separator [c]. *)
Fixpoint split_on (c : ascii) (s : string) : list string :=
  match s with
  | EmptyString => [EmptyString]
  | String a s' =>
      if Ascii.eqb a c then EmptyString :: split_on c s'
      else match split_on c s' with
           | f :: fs => String a f :: fs
           | [] => [String a EmptyString]
           end
  end.

(** [c] does not occur in [s]. *)
Fixpoint lacks (c : ascii) (s : string) : bool :=
  match s with
  | EmptyString => true
  | String a s' => negb (Ascii.eqb a c) && lacks c s'
  end.

(** Lexicographic combination of two comparisons. *)
Definition lexico_cmp (c1 c2 : comparison) : comparison :=
  match c1 with Eq => c2 | _ => c1 end.

(** Case analysis on a decimal digit. *)
Ltac digit_cases d :=
  let H := fresh in
  assert (d = 0 ∨ d = 1 ∨ d = 2 ∨ d = 3 ∨ d = 4 ∨ d = 5 ∨ d = 6 ∨ d = 7
          ∨ d = 8 ∨ d = 9) as H by lia;
  destruct_or!; subst d.

(** ** The digit loop *)

Lemma digits_go_acc fuel n acc :
  digits_go fuel n acc = digits_go fuel n "" +:+ acc.
Proof.
  revert n acc. induction fuel as [|fuel IH]; intros n acc; [done|].
  simpl. case_match; [done|].
  rewrite IH, (IH _ (String _ "")). by rewrite string_app_assoc.
Qed.

(** Fuel beyond the binary size of the number is never used. *)
Lemma digits_go_fuel fuel k n acc :
  0 ≤ n < 2 ^ Z.of_nat (S fuel) →
  digits_go (S fuel + k) n acc = digits_go (S fuel) n acc.
Proof.
  revert n acc. induction fuel as [|fuel IH]; intros n acc Hn.
  - assert (n / 10 = 0) as Hq by (apply Z.div_small; lia).
    simpl. by rewrite Hq.
  - change (digits_go (S (S fuel) + k) n acc) with
      (let acc' := String (digit_char (n mod 10)) acc in
       if n / 10 =? 0 then acc' else digits_go (S fuel + k) (n / 10) acc').
    change (digits_go (S (S fuel)) n acc) with
      (let acc' := String (digit_char (n mod 10)) acc in
       if n / 10 =? 0 then acc' else digits_go (S fuel) (n / 10) acc').
    cbv zeta. case_match; [done|]. apply IH.
    rewrite Nat2Z.inj_succ, Z.pow_succ_r in Hn by lia.
    split; [apply Z.div_pos; lia|].
    apply Z.div_lt_upper_bound; lia.
Qed.

Lemma digits_small n : 0 ≤ n < 10 → digits n = String (digit_char n) "".
Proof.
  intros Hn. unfold digits. simpl.
  by rewrite (Z.div_small n 10), (Z.mod_small n 10) by lia.
Qed.

Lemma log2_div10 n : 10 ≤ n → Z.log2 (n / 10) < Z.log2 n.
Proof.
  intros Hn. assert (0 < n / 10) by (apply Z.div_str_pos; lia).
  apply Z.log2_lt_pow2; [done|].
  pose proof (Z.log2_spec n ltac:(lia)) as [_ Hlt].
  rewrite Z.pow_succ_r in Hlt by apply Z.log2_nonneg.
  apply Z.div_lt_upper_bound; lia.
Qed.

Lemma digits_large n :
  10 ≤ n → digits n = digits (n / 10) +:+ String (digit_char (n mod 10)) "".
Proof.
  intros Hn. unfold digits at 1. simpl.
  assert (0 < n / 10) as Hq by (apply Z.div_str_pos; lia).
  destruct (Z.eqb_spec (n / 10) 0) as [?|_]; [lia|].
  rewrite digits_go_acc. f_equal. unfold digits.
  pose proof (log2_div10 n Hn) as Hlog.
  pose proof (Z.log2_nonneg (n / 10)) as Hnn.
  replace (Z.to_nat (Z.log2 n))
    with (S (Z.to_nat (Z.log2 (n / 10)))
          + (Z.to_nat (Z.log2 n) - S (Z.to_nat (Z.log2 (n / 10)))))%nat
    by lia.
  apply digits_go_fuel. split; [lia|].
  rewrite Nat2Z.inj_succ, Z2Nat.id by done.
  by apply Z.log2_spec.
Qed.

(** Induction along the digit loop. *)
Lemma digits_ind (P : Z → Prop) :
  (∀ n, 0 ≤ n < 10 → P n) →
  (∀ n, 10 ≤ n → P (n / 10) → P n) →
  ∀ n, 0 ≤ n → P n.
Proof.
  intros Hsmall Hlarge n. induction (Z.lt_wf 0 n) as [n _ IH]. intros Hn.
  destruct (Z_lt_le_dec n 10); [apply Hsmall; lia|].
  assert (0 ≤ n / 10 < n) by (split; [apply Z.div_pos|apply Z.div_lt]; lia).
  apply Hlarge; [done|]. apply IH; lia.
Qed.

(** ** Reading back *)

Lemma digit_val_char d : 0 ≤ d < 10 → digit_val (digit_char d) = Some d.
Proof. intros Hd. digit_cases d; done. Qed.

Lemma digit_char_not_minus d : digit_char d ≠ "-"%char.
Proof. unfold digit_char. by repeat case_match. Qed.

Lemma read_digits_app acc s1 s2 :
  read_digits acc (s1 +:+ s2) = read_digits acc s1 ≫= λ a, read_digits a s2.
Proof.
  revert acc. induction s1 as [|c s1 IH]; intros acc; [done|].
  rewrite string_app_cons. simpl. case_match; [apply IH|done].
Qed.

Lemma read_digits_digits n : 0 ≤ n → read_digits 0 (digits n) = Some n.
Proof.
  revert n. apply digits_ind.
  - intros n Hn. rewrite digits_small by done. simpl.
    rewrite digit_val_char by done. f_equal; lia.
  - intros n Hn IH. rewrite digits_large, read_digits_app, IH by done. simpl.
    rewrite digit_val_char by (apply Z.mod_pos_bound; lia).
    f_equal. by rewrite (Z.div_mod n 10) at 3 by lia.
Qed.

(** The first character of a printed number is a digit. *)
Lemma digits_head n :
  0 ≤ n → ∃ d s, digits n = String (digit_char d) s.
Proof.
  revert n. apply digits_ind.
  - intros n Hn. rewrite digits_small by done. eauto.
  - intros n Hn (d & s & Hd). rewrite digits_large, Hd by done.
    rewrite string_app_cons. eauto.
Qed.

Lemma String_of_Z_nonneg z : 0 ≤ z → String_of_Z z = digits z.
Proof. intros Hz. unfold String_of_Z. by destruct (Z.ltb_spec z 0); [lia|]. Qed.

Lemma String_of_Z_neg z : z < 0 → String_of_Z z = String "-" (digits (- z)).
Proof. intros Hz. unfold String_of_Z. by destruct (Z.ltb_spec z 0); [|lia]. Qed.

Lemma read_Z_not_minus c s :
  c ≠ "-"%char → read_Z (String c s) = read_digits 0 (String c s).
Proof.
  intros Hc. unfold read_Z.
  destruct c as [[] [] [] [] [] [] [] []]; done.
Qed.

Lemma read_Z_String_of_Z z : read_Z (String_of_Z z) = Some z.
Proof.
  destruct (Z_lt_le_dec z 0) as [Hz|Hz].
  - rewrite String_of_Z_neg by done. simpl.
    rewrite read_digits_digits by lia. simpl. f_equal; lia.
  - rewrite String_of_Z_nonneg by done.
    destruct (digits_head z Hz) as (d & s & Hd).
    rewrite <-(read_digits_digits z Hz), Hd.
    apply read_Z_not_minus, digit_char_not_minus.
Qed.

(** ** Padding *)

Lemma replicate_char_length n c : String.length (replicate_char n c) = n.
Proof. induction n; simpl; congruence. Qed.

Lemma replicate_char_snoc n c :
  replicate_char (S n) c = replicate_char n c +:+ String c "".
Proof.
  induction n as [|n IH]; [done|].
  change (replicate_char (S (S n)) c) with (String c (replicate_char (S n) c)).
  by rewrite IH at 1.
Qed.

Lemma padStart_length w c s :
  String.length (padStart w c s) = (w `max` String.length s)%nat.
Proof.
  unfold padStart. rewrite string_length_app, replicate_char_length. lia.
Qed.

Lemma padStart_long w c s :
  (w ≤ String.length s)%nat → padStart w c s = s.
Proof.
  intros H. unfold padStart.
  by replace (w - String.length s)%nat with 0%nat by lia.
Qed.

Lemma padStart_snoc w c s d :
  padStart (S w) c (s +:+ String d "") = padStart w c s +:+ String d "".
Proof.
  unfold padStart. rewrite string_length_app, string_app_assoc. simpl.
  by replace (S w - (String.length s + 1))%nat
    with (w - String.length s)%nat by lia.
Qed.

Lemma fixed_length w n : String.length (fixed w n) = w.
Proof.
  revert n. induction w as [|w IH]; intros n; [done|].
  simpl. rewrite string_length_app, IH. simpl. lia.
Qed.

Lemma fixed_0 w : fixed w 0 = replicate_char w "0".
Proof.
  induction w as [|w IH]; [done|]. by rewrite replicate_char_snoc, <-IH.
Qed.

(** Padding the digits of a number that fits in the width gives its
    fixed-width representation. *)
Lemma padStart_digits w n :
  0 ≤ n < 10 ^ Z.of_nat (S w) → padStart (S w) "0" (digits n) = fixed (S w) n.
Proof.
  revert n. induction w as [|w IH]; intros n Hn.
  - change (10 ^ Z.of_nat 1) with 10 in Hn.
    rewrite digits_small by lia. simpl. by rewrite Z.mod_small by lia.
  - rewrite Nat2Z.inj_succ, Z.pow_succ_r in Hn by lia.
    destruct (Z_lt_le_dec n 10).
    + rewrite digits_small by lia.
      change (fixed (S (S w)) n)
        with (fixed (S w) (n / 10) +:+ String (digit_char (n mod 10)) "").
      by rewrite Z.div_small, Z.mod_small, fixed_0 by lia.
    + assert (0 ≤ n / 10 < 10 ^ Z.of_nat (S w)).
      { split; [apply Z.div_pos; lia|]. apply Z.div_lt_upper_bound; lia. }
      by rewrite digits_large, padStart_snoc, IH by done.
Qed.

Lemma padStart_Int w n :
  0 ≤ n < 10 ^ Z.of_nat (S w) →
  padStart (S w) "0" (js_String (Int n)) = fixed (S w) n.
Proof.
  intros Hn. simpl. rewrite String_of_Z_nonneg by lia. by apply padStart_digits.
Qed.

(** ** Fields *)

Lemma lacks_app c s1 s2 : lacks c (s1 +:+ s2) = lacks c s1 && lacks c s2.
Proof.
  induction s1 as [|a s1 IH]; [done|].
  rewrite string_app_cons. simpl. by rewrite IH, andb_assoc.
Qed.

Lemma split_on_lacks c s : lacks c s = true → split_on c s = [s].
Proof.
  induction s as [|a s IH]; [done|]. simpl.
  intros [Ha Hs]%andb_prop. apply negb_true_iff in Ha. rewrite Ha.
  by rewrite IH.
Qed.

(** Splitting after a first field that lacks the separator. *)
Lemma split_on_app c s1 s2 :
  lacks c s1 = true →
  split_on c (s1 +:+ String c s2) = s1 :: split_on c s2.
Proof.
  induction s1 as [|a s1 IH].
  - intros _. rewrite string_app_nil_l. simpl. by rewrite Ascii.eqb_refl.
  - cbn [lacks]. intros [Ha Hs]%andb_prop. apply negb_true_iff in Ha.
    rewrite string_app_cons. cbn [split_on]. by rewrite Ha, IH.
Qed.

Lemma digit_char_not_bar d : Ascii.eqb (digit_char d) "|" = false.
Proof. unfold digit_char. by repeat case_match. Qed.

Lemma fixed_lacks_bar w n : lacks "|" (fixed w n) = true.
Proof.
  revert n. induction w as [|w IH]; intros n; [done|].
  simpl. rewrite lacks_app, IH. simpl. by rewrite digit_char_not_bar.
Qed.

Lemma digits_lacks_bar n : 0 ≤ n → lacks "|" (digits n) = true.
Proof.
  revert n. apply digits_ind.
  - intros n Hn. rewrite digits_small by done. simpl.
    by rewrite digit_char_not_bar.
  - intros n Hn IH. rewrite digits_large, lacks_app, IH by done. simpl.
    by rewrite digit_char_not_bar.
Qed.

(** A printed number has no bar. *)
Lemma js_String_lacks_bar n : lacks "|" (js_String n) = true.
Proof.
  destruct n as [z|]; [|done]. simpl.
  destruct (Z_lt_le_dec z 0).
  - rewrite String_of_Z_neg by done. simpl. apply digits_lacks_bar. lia.
  - rewrite String_of_Z_nonneg by done. by apply digits_lacks_bar.
Qed.

Lemma replicate_char_lacks n c d :
  Ascii.eqb c d = false → lacks d (replicate_char n c) = true.
Proof. intros Hc. induction n as [|n IH]; [done|]. simpl. by rewrite Hc. Qed.

Lemma padStart_lacks w c d s :
  Ascii.eqb c d = false → lacks d s = true → lacks d (padStart w c s) = true.
Proof.
  intros Hc Hs. unfold padStart. by rewrite lacks_app, replicate_char_lacks, Hs.
Qed.

(** Reading a fixed-width number gives the number back. *)
Lemma read_digits_fixed w n :
  0 ≤ n < 10 ^ Z.of_nat w → read_digits 0 (fixed w n) = Some n.
Proof.
  revert n. induction w as [|w IH]; intros n Hn.
  - simpl in *. f_equal. lia.
  - rewrite Nat2Z.inj_succ, Z.pow_succ_r in Hn by lia. simpl.
    rewrite read_digits_app, IH; simpl.
    + rewrite digit_val_char by (apply Z.mod_pos_bound; lia).
      f_equal. by rewrite (Z.div_mod n 10) at 3 by lia.
    + split; [apply Z.div_pos; lia|]. apply Z.div_lt_upper_bound; lia.
Qed.

(** ** Order *)

Lemma compare_app (p1 p2 r1 r2 : string) :
  String.length p1 = String.length p2 →
  String.compare (p1 +:+ r1) (p2 +:+ r2)
  = lexico_cmp (String.compare p1 p2) (String.compare r1 r2).
Proof.
  revert p2. induction p1 as [|c1 p1 IH]; intros [|c2 p2] Hlen;
    simplify_eq/=; [done|].
  rewrite ?string_app_cons. simpl.
  destruct (Ascii.compare c1 c2); [by apply IH|done..].
Qed.

Lemma compare_refl (s : string) : String.compare s s = Eq.
Proof.
  induction s as [|c s IH]; [done|]. simpl.
  unfold Ascii.compare. by rewrite N.compare_refl.
Qed.

Lemma digit_char_compare a b :
  0 ≤ a < 10 → 0 ≤ b < 10 →
  Ascii.compare (digit_char a) (digit_char b) = (a ?= b).
Proof. intros Ha Hb. digit_cases a; digit_cases b; done. Qed.

Lemma Z_compare_div_mod a b :
  0 ≤ a → 0 ≤ b →
  lexico_cmp (a / 10 ?= b / 10) (a mod 10 ?= b mod 10) = (a ?= b).
Proof.
  intros Ha Hb.
  pose proof (Z.div_mod a 10 ltac:(lia)).
  pose proof (Z.div_mod b 10 ltac:(lia)).
  pose proof (Z.mod_pos_bound a 10 ltac:(lia)).
  pose proof (Z.mod_pos_bound b 10 ltac:(lia)).
  destruct (Z.compare_spec (a / 10) (b / 10)); simpl;
    [destruct (Z.compare_spec (a mod 10) (b mod 10))|..];
    symmetry;
    first [apply Z.compare_eq_iff|apply Z.compare_lt_iff|apply Z.compare_gt_iff];
    lia.
Qed.

(** Fixed-width numbers compare as strings the way they compare as
    numbers. *)
Lemma compare_fixed w a b :
  0 ≤ a < 10 ^ Z.of_nat w → 0 ≤ b < 10 ^ Z.of_nat w →
  String.compare (fixed w a) (fixed w b) = (a ?= b).
Proof.
  revert a b. induction w as [|w IH]; intros a b Ha Hb.
  - change (10 ^ Z.of_nat 0) with 1 in *.
    by replace a with 0 by lia; replace b with 0 by lia.
  - rewrite Nat2Z.inj_succ, Z.pow_succ_r in Ha, Hb by lia.
    simpl. rewrite compare_app by (by rewrite !fixed_length).
    rewrite IH by (split; [apply Z.div_pos|apply Z.div_lt_upper_bound]; lia).
    simpl. rewrite <-(Z_compare_div_mod a b) by lia.
    f_equal. rewrite digit_char_compare by (apply Z.mod_pos_bound; lia).
    by destruct (_ ?= _).
Qed.

Lemma compare_cons c s1 s2 :
  String.compare (String c s1) (String c s2) = String.compare s1 s2.
Proof. simpl. unfold Ascii.compare. by rewrite N.compare_refl. Qed.

(** The first character of a fixed-width number is its leading digit. *)
Lemma fixed_head w n :
  fixed (S w) n
  = String (digit_char ((n / 10 ^ Z.of_nat w) mod 10)) (fixed w n).
Proof.
  revert n. induction w as [|w IH]; intros n.
  - simpl. by rewrite Z.div_1_r.
  - change (fixed (S (S w)) n)
      with (fixed (S w) (n / 10) +:+ String (digit_char (n mod 10)) "").
    rewrite IH, string_app_cons. f_equal.
    by rewrite Nat2Z.inj_succ, Z.pow_succ_r, Z.div_div by lia.
Qed.

Lemma read_Z_fixed w n :
  0 ≤ n < 10 ^ Z.of_nat w → read_Z (fixed w n) = Some n.
Proof.
  intros Hn. rewrite <- (read_digits_fixed w n Hn).
  destruct w as [|w]; [done|].
  rewrite fixed_head. apply read_Z_not_minus, digit_char_not_minus.
Qed.

#[export] Hint Rewrite padStart_length fixed_length replicate_char_length
  : js_rw.

(** ** Properties *)

(** Round trip of [String(n)].  Printing an integer with
    [js_String] and reading the string back as an optional sign
    followed by decimal digits gives the integer, for every integer,
    negative ones included. *)
Theorem js_String_roundtrip (z : Z) : read_Z (js_String (Int z)) = Some z.
Proof. apply read_Z_String_of_Z. Qed.
