(* ===== verification/Registry.v ===== *)
(** * The category registry

    [SEMANTIC_COLORS] of [src/modules/semanticColoring.ts]: a fixed
    table from a category key to a display name, a colour and a
    description.  The code only iterates it with [Object.entries], in
    declaration order, so the table is an association list; [lookup] is
    the registry's contract in the specification.  The theorems: keys
    are unique, lookup finds exactly the declared entries, every colour
    is a [#rrggbb] colour. *)

From Stdlib Require Import ZArith Lia Ascii.
From stdpp Require Import base tactics option list strings.
From S2P Require Import Prelude.

(** [interface SemanticColor]. *)
Record SemanticColor : Type := {
  name : string;
  color : string;
  description : string;
}.

#[export] Instance SemanticColor_eq_dec : EqDecision SemanticColor.
Proof. solve_decision. Defined.

(** An object is truthy. *)
#[export] Instance truthy_SemanticColor : Truthy SemanticColor := λ _, true.

(** [SEMANTIC_COLORS], in declaration order. *)
Definition SEMANTIC_COLORS : list (string * SemanticColor) :=
  [ ("challenge",
      {| name := "Challenge"; color := "#3498db";
         description := "Identify challenges or problems in the text" |});
    ("insight",
      {| name := "Insight"; color := "#2ecc71";
         description := "Mark key insights or findings" |});
    ("method",
      {| name := "Method"; color := "#f1c40f";
         description := "Highlight methodologies or approaches" |});
    ("conclusion",
      {| name := "Conclusion"; color := "#9b59b6";
         description := "Mark conclusions or key takeaways" |});
    ("question",
      {| name := "Question"; color := "#e74c3c";
         description := "Indicate questions or areas for further investigation" |});
    ("quote",
      {| name := "Quote"; color := "#1abc9c";
         description := "Mark important quotes or citations" |}) ].

(** [Object.entries(SEMANTIC_COLORS)]: the entries in insertion order
    (no key is an array index). *)
Definition entries : list (string * SemanticColor) := SEMANTIC_COLORS.

(** [Object.keys(SEMANTIC_COLORS)]. *)
Definition keys : list string := entries.*1.

(** [SEMANTIC_COLORS[key]]: the first entry with this key. *)
Fixpoint assoc {A} (key : string) (l : list (string * A)) : option A :=
  match l with
  | [] => None
  | (k, v) :: l' => if decide (k = key) then Some v else assoc key l'
  end.

Definition lookup (key : string) : option SemanticColor :=
  assoc key SEMANTIC_COLORS.

(** A hexadecimal digit, in either case. *)
Definition is_hex_digit (c : ascii) : bool :=
  match c with
  | "0" | "1" | "2" | "3" | "4" | "5" | "6" | "7" | "8" | "9"
  | "a" | "b" | "c" | "d" | "e" | "f"
  | "A" | "B" | "C" | "D" | "E" | "F" => true
  | _ => false
  end%char.

(** [#rrggbb]. *)
Definition is_hex_color (s : string) : bool :=
  match s with
  | String "#" (String r1 (String r2 (String g1 (String g2
      (String b1 (String b2 EmptyString)))))) =>
      forallb is_hex_digit [r1; r2; g1; g2; b1; b2]
  | _ => false
  end.

(** ** Lemmas *)

Section assoc.
Context {A : Type}.
Implicit Types (l : list (string * A)) (k : string) (v : A).

Lemma assoc_Some_elem l k v : assoc k l = Some v → (k, v) ∈ l.
Proof.
  induction l as [|[k' v'] l IH]; simpl; [done|].
  case_decide; [intros [= <-]; subst; left|right; auto].
Qed.

Lemma assoc_None l k : assoc k l = None ↔ k ∉ l.*1.
Proof.
  induction l as [|[k' v'] l IH]; simpl.
  - split; [intros _; apply not_elem_of_nil|done].
  - rewrite not_elem_of_cons. case_decide; subst; [|rewrite IH].
    + split; [done|]. by intros [? _].
    + intuition congruence.
Qed.

Lemma assoc_elem_NoDup l k v :
  NoDup l.*1 → (k, v) ∈ l → assoc k l = Some v.
Proof.
  induction l as [|[k' v'] l IH]; simpl; [by rewrite elem_of_nil|].
  rewrite NoDup_cons, elem_of_cons. intros [Hk Hl] [[= -> ->]|Hin].
  - by rewrite decide_True.
  - rewrite decide_False; [by apply IH|].
    intros ->. apply Hk. apply list_elem_of_fmap. by exists (k, v).
Qed.
End assoc.

Lemma keys_NoDup : NoDup keys.
Proof. apply (bool_decide_unpack _). by vm_compute. Qed.

Lemma lookup_entries key c : lookup key = Some c ↔ (key, c) ∈ entries.
Proof.
  split; [apply assoc_Some_elem|apply assoc_elem_NoDup, keys_NoDup].
Qed.

Lemma entries_hex_color_Forall :
  Forall (λ kc, is_hex_color (color kc.2) = true) entries.
Proof. repeat constructor. Qed.

Lemma entries_hex_color key c :
  (key, c) ∈ entries → is_hex_color (color c) = true.
Proof.
  intros Hin. by apply (proj1 (Forall_forall _ _) entries_hex_color_Forall (key, c)).
Qed.

(** ** Properties *)

(** Lookup in the registry.  The keys of the table are pairwise
    distinct, and looking a key up gives a category exactly when the
    table declares that category under that key; a key that is not
    declared gives nothing. *)
Theorem registry_lookup (key : string) (c : SemanticColor) :
  NoDup keys
  ∧ (lookup key = Some c ↔ (key, c) ∈ SEMANTIC_COLORS)
  ∧ (lookup key = None ↔ key ∉ keys).
Proof.
  split_and!; [apply keys_NoDup|apply lookup_entries|apply assoc_None].
Qed.

(** Colours of the registry.  Every category of the table has a
    colour of the form [#rrggbb] with six hexadecimal digits, and a
    name that is not empty. *)
Theorem registry_colors (key : string) (c : SemanticColor) :
  lookup key = Some c → is_hex_color (color c) = true ∧ name c ≠ "".
Proof.
  intros Hin%lookup_entries. split; [by eapply entries_hex_color|].
  revert Hin. unfold entries, SEMANTIC_COLORS.
  rewrite !elem_of_cons, elem_of_nil. intros Hin.
  destruct_or!; by simplify_eq.
Qed.

Lemma registry_colors_witness :
  is_hex_color "#2ecc71" = true ∧ "Insight" ≠ "".
Proof.
  apply (registry_colors "insight"
           {| name := "Insight"; color := "#2ecc71";
              description := "Mark key insights or findings" |}).
  reflexivity.
Defined.
