(* ===== verification/Reader.v ===== *)
(** * The host's reader objects

    The objects of the host that [applySemanticColor] and
    [buildSemanticColoringPopup] read, as records with one field per
    property the code touches.  A property the code guards with a
    truthiness test, [?.] or [!== undefined] is an [option].  One
    Module per object type, so that fields keep the names they have in
    the code ([Position.pageIndex] and [Selection.pageIndex] are
    different properties).  Coordinates are rationals; [rect_equiv] and
    [Position.equiv] identify coordinates that are equal as numbers. *)

From Stdlib Require Import ZArith QArith Qround Lia.
From stdpp Require Import base tactics option list strings.
From S2P Require Import Prelude.

#[local] Close Scope Q_scope.

(** A rectangle [[x0, y0, x1, y1]]: an array of numbers (the code reads
    indices 0 and 1, and does not check the length). *)
Definition Rect : Type := list Q.

(** [position]: [{ pageIndex, rects }]. *)
Module Position.
Record t : Type := mk {
  pageIndex : option Z;
  rects : option (list Rect);
}.
End Position.

(** An element of [_selectionRanges]. *)
Module Range.
Record t : Type := mk {
  position : option Position.t;
}.
End Range.

(** [_currentSelection], the event's [params.annotation], and what the
    plugin stores as [pendingAnnotation]: [{ text, position, pageIndex }].
    A [pageIndex] of [None] is the property [undefined], which is what
    line 205 compares with; a [null] page index is not modelled. *)
Module Selection.
Record t : Type := mk {
  text : option string;
  position : option Position.t;
  pageIndex : option Z;
}.
End Selection.

(** [_internalReader._state]. *)
Module State.
Record t : Type := mk {
  selectedAnnotationIDs : option (list string);
}.
End State.

(** [_internalReader._primaryView]. *)
Module PrimaryView.
Record t : Type := mk {
  _selectionRanges : option (list Range.t);
}.
End PrimaryView.

(** [reader._internalReader]. *)
Module InternalReader.
Record t : Type := mk {
  _state : option State.t;
  _primaryView : option PrimaryView.t;
  _currentSelection : option Selection.t;
  selectedText : option string;
}.
End InternalReader.

(** [_ZoteroTypes.ReaderInstance]. *)
Module Reader.
Record t : Type := mk {
  itemID : option Z;
  _internalReader : option InternalReader.t;
  _instanceID : string;
}.
End Reader.

(** Objects are truthy. *)
#[export] Instance truthy_Position : Truthy Position.t := λ _, true.
#[export] Instance truthy_Range : Truthy Range.t := λ _, true.
#[export] Instance truthy_Selection : Truthy Selection.t := λ _, true.
#[export] Instance truthy_State : Truthy State.t := λ _, true.
#[export] Instance truthy_PrimaryView : Truthy PrimaryView.t := λ _, true.
#[export] Instance truthy_InternalReader : Truthy InternalReader.t := λ _, true.
#[export] Instance truthy_Reader : Truthy Reader.t := λ _, true.

#[export] Instance Q_eq_dec : EqDecision Q.
Proof. solve_decision. Defined.
#[export] Instance Position_eq_dec : EqDecision Position.t.
Proof. solve_decision. Defined.
#[export] Instance Selection_eq_dec : EqDecision Selection.t.
Proof. solve_decision. Defined.
#[export] Instance Range_eq_dec : EqDecision Range.t.
Proof. solve_decision. Defined.
#[export] Instance State_eq_dec : EqDecision State.t.
Proof. solve_decision. Defined.
#[export] Instance PrimaryView_eq_dec : EqDecision PrimaryView.t.
Proof. solve_decision. Defined.
#[export] Instance InternalReader_eq_dec : EqDecision InternalReader.t.
Proof. solve_decision. Defined.
#[export] Instance Reader_eq_dec : EqDecision Reader.t.
Proof. solve_decision. Defined.

(** ** Equality of coordinates as numbers *)

Definition rect_equiv : relation Rect := Forall2 Qeq.
Definition rects_equiv : relation (list Rect) := Forall2 rect_equiv.

Module PositionEquiv.
Definition equiv (p q : Position.t) : Prop :=
  Position.pageIndex p = Position.pageIndex q
  ∧ option_Forall2 rects_equiv (Position.rects p) (Position.rects q).
End PositionEquiv.

#[export] Instance rect_equivalence : Equivalence rect_equiv.
Proof. unfold rect_equiv. apply _. Qed.
#[export] Instance rects_equivalence : Equivalence rects_equiv.
Proof. unfold rects_equiv. apply _. Qed.
#[export] Instance position_equivalence : Equivalence PositionEquiv.equiv.
Proof.
  unfold PositionEquiv.equiv. split.
  - by intros p.
  - by intros p q [-> ?].
  - intros p q r [-> ?] [-> ?]. split; [done|]. by etrans.
Qed.
