(* ===== verification/Dom.v ===== *)
(** * The elements the plugin builds

    What [ztoolkit.UI.createElement] is given and what the plugin asks
    of the popup and of the prompt, as data.  An element is the bag of
    properties the code writes ([tag], [id], [classList], [styles],
    [properties], [listeners]), in the order of the code.  A listener is
    a closure of the code: it is kept as the variables it captures
    ([Listener]), and the files [Popup] and [Prompt] say what each
    does when it runs.  [UiCall] lists the calls into the host's user
    interface, which the world records in order. *)

From Stdlib Require Import ZArith.
From stdpp Require Import base tactics option list strings.
From S2P Require Import Prelude Registry Reader.

(** The closures the plugin installs on its buttons. *)
Inductive Listener : Type :=
  (** The click listener of a popup button, which captures [reader],
      [key], [semanticColor] and [popup]. *)
  | PopupClick (reader : Reader.t) (key : string)
      (semanticColor : SemanticColor) (popup : option Z)
  (** [onclick] of a prompt button, which captures [reader],
      [selectedText], [key] and [semanticColor]. *)
  | PromptClick (reader : option Reader.t) (selectedText : string)
      (key : string) (semanticColor : SemanticColor)
  (** [onclick] of the prompt's cancel button. *)
  | PromptCancel.

(** The value of a property of an element. *)
Inductive PropValue : Type :=
  | PStr (s : string)
  | PFun (f : Listener).

(** An element without children. *)
Module Element.
Record t : Type := mk {
  tag : string;
  namespace : option string;
  id : string;
  classList : list string;
  styles : list (string * string);
  properties : list (string * PropValue);
  listeners : list (string * Listener);
}.
End Element.

(** A container and the elements appended to it. *)
Module Container.
Record t : Type := mk {
  tag : string;
  id : option string;
  classList : list string;
  styles : list (string * string);
  children : list Element.t;
}.
End Container.

(** The calls into the user interface. *)
Inductive UiCall : Type :=
  (** [append(node)] of a [renderTextSelectionPopup] event. *)
  | Append (node : Container.t)
  (** [ev.stopPropagation()]. *)
  | StopPropagation
  (** [popup.style.display = "none"] on the popup element [popup]. *)
  | HidePopup (popup : Z)
  (** [prompt.inputNode.placeholder = text]. *)
  | Placeholder (text : string)
  (** The commands container of the prompt, once filled. *)
  | Commands (node : Container.t)
  (** [prompt.confirm()]. *)
  | Confirm
  (** [ztoolkit.Prompt.register([{ name, label, when, callback }])]. *)
  | RegisterPrompt (name label : string).

#[export] Instance truthy_Container : Truthy Container.t := λ _, true.

#[export] Instance Listener_eq_dec : EqDecision Listener.
Proof. solve_decision. Defined.
#[export] Instance PropValue_eq_dec : EqDecision PropValue.
Proof. solve_decision. Defined.
#[export] Instance Element_eq_dec : EqDecision Element.t.
Proof. solve_decision. Defined.
#[export] Instance Container_eq_dec : EqDecision Container.t.
Proof. solve_decision. Defined.
#[export] Instance UiCall_eq_dec : EqDecision UiCall.
Proof. solve_decision. Defined.
