(* ===== verification/Host.v ===== *)
(** * The host interface and the effect monad

    What the plugin asks of the host: the item store ([Zotero.Items.get],
    [new Zotero.Item('annotation')] with [saveTx]), the log
    ([ztoolkit.log]), error notifications ([ztoolkit.ProgressWindow]),
    and [reader.focus()].  The store is the class [Host]: the plugin's
    theorems are proved against its laws, and [MapStore] is an
    implementation on finite maps that satisfies them.  The rest of the
    world is the record [World]; code with effects is a computation of
    the monad [M], state over [World] with exceptions, with [try_catch]
    for [try]/[catch]. *)

From Stdlib Require Import ZArith Lia.
From stdpp Require Import base tactics option list strings gmap.
From S2P Require Import Prelude Reader Dom.

(** ** Host objects *)

(** A library item, as far as the plugin looks at it:
    [item.id], [item.libraryID], [item.isPDFAttachment()]. *)
Module Item.
Record t : Type := mk {
  id : Z;
  libraryID : Z;
  isPDFAttachment : bool;
}.
End Item.

#[export] Instance truthy_Item : Truthy Item.t := λ _, true.

(** The fields [applySemanticColor] sets on the new annotation item.
    [annotationPosition] is the position whose JSON text the code
    stores. *)
Module AnnotationItem.
Record t : Type := mk {
  libraryID : Z;
  parentID : Z;
  annotationType : string;
  annotationText : option string;
  annotationComment : string;
  annotationColor : string;
  annotationPosition : Position.t;
  annotationPageLabel : string;
  annotationSortIndex : string;
}.
End AnnotationItem.

(** [addon.data.semanticColors]: the selection capture. *)
Module Capture.
Record t : Type := mk {
  selectedText : option string;
  pendingAnnotation : option Selection.t;
}.
Definition empty : t := mk None None.
End Capture.

(** A JavaScript exception. *)
Inductive Error : Type :=
  | TypeError (message : string)
  | HostError (message : string).

(** [error.message]. *)
Definition message (e : Error) : string :=
  match e with TypeError m | HostError m => m end.

(** [String(error)]. *)
Definition Error_toString (e : Error) : string :=
  match e with
  | TypeError m => "TypeError: " +:+ m
  | HostError m => "Error: " +:+ m
  end.

(** An argument of [ztoolkit.log]: a string, the JSON text of a
    position, an item identifier, an exception, the array of
    identifiers of a notification, or the [extraData] object of a
    notification (which the plugin passes on without reading it). *)
Inductive LogArg : Type :=
  | LStr (s : string)
  | LJson (p : Position.t)
  | LId (id : Z)
  | LErr (e : Error)
  | LIds (ids : list (string + Z))
  | LExtra.

(** A line shown in a progress window: [{ text, type }]. *)
Record ProgressLine : Type := {
  text : string;
  type : string;
}.

(** ** The item store *)

Class Host (store : Type) : Type := {
  (** [Zotero.Items.get(id)]; [None] for [false]. *)
  Items_get : store → Z → option Item.t;
  (** The annotations the store holds, oldest first. *)
  annotations : store → list (Z * AnnotationItem.t);
  (** [annotationItem.saveTx()]: the new identifier and store, or the
      exception it throws. *)
  saveTx : AnnotationItem.t → store → Error + Z * store;
  saveTx_annotations a s id s' :
    saveTx a s = inr (id, s') → annotations s' = annotations s ++ [(id, a)];
  saveTx_fresh a s id s' :
    saveTx a s = inr (id, s') →
    (id ∉ (fst <$> annotations s)) ∧ Items_get s id = None;
  saveTx_items a s id s' i :
    saveTx a s = inr (id, s') → i ≠ id → Items_get s' i = Items_get s i;
}.

(** ** The world and the monad *)

Section monad.
Context {store : Type}.

Record World : Type := mkWorld {
  host : store;
  logs : list (list LogArg);
  progress : list ProgressLine;
  focused : list string;
  semanticColors : Capture.t;
  ui : list UiCall;
}.

Definition set_host (s : store) (w : World) : World :=
  mkWorld s (logs w) (progress w) (focused w) (semanticColors w) (ui w).
Definition add_log (l : list LogArg) (w : World) : World :=
  mkWorld (host w) (logs w ++ [l]) (progress w) (focused w)
    (semanticColors w) (ui w).
Definition add_progress (p : ProgressLine) (w : World) : World :=
  mkWorld (host w) (logs w) (progress w ++ [p]) (focused w)
    (semanticColors w) (ui w).
Definition add_focus (r : string) (w : World) : World :=
  mkWorld (host w) (logs w) (progress w) (focused w ++ [r])
    (semanticColors w) (ui w).
Definition set_semanticColors (c : Capture.t) (w : World) : World :=
  mkWorld (host w) (logs w) (progress w) (focused w) c (ui w).
Definition add_ui (c : UiCall) (w : World) : World :=
  mkWorld (host w) (logs w) (progress w) (focused w) (semanticColors w)
    (ui w ++ [c]).

Inductive Result (A : Type) : Type :=
  | Ok (a : A)
  | Throw (e : Error).
#[global] Arguments Ok {_} _.
#[global] Arguments Throw {_} _.

Definition M (A : Type) : Type := World → Result A * World.

Definition ret {A} (a : A) : M A := λ w, (Ok a, w).
Definition bind {A B} (f : A → M B) (c : M A) : M B :=
  λ w, match c w with
       | (Ok a, w') => f a w'
       | (Throw e, w') => (Throw e, w')
       end.
Definition throw {A} (e : Error) : M A := λ w, (Throw e, w).

(** [try { c } catch (e) { h e }]. *)
Definition try_catch {A} (c : M A) (h : Error → M A) : M A :=
  λ w, match c w with
       | (Ok a, w') => (Ok a, w')
       | (Throw e, w') => h e w'
       end.

Definition get : M World := λ w, (Ok w, w).
Definition modify (f : World → World) : M unit := λ w, (Ok tt, f w).
End monad.

Arguments World : clear implicits.
Arguments M : clear implicits.

#[export] Instance M_ret {store} : MRet (M store) := @ret store.
#[export] Instance M_bind {store} : MBind (M store) := @bind store.
#[export] Instance M_throw {store} : MThrow Error (M store) := @throw store.

Section effects.
Context {store : Type}.

(** [ztoolkit.log(...)]. *)
Definition log (args : list LogArg) : M store unit := modify (add_log args).

(** [new ztoolkit.ProgressWindow(config.addonName)
      .createLine({ text, type: "error" }).show()]. *)
Definition showError (text : string) : M store unit :=
  modify (add_progress {| text := text; type := "error" |}).

(** [reader.focus()]. *)
Definition focus (r : Reader.t) : M store unit :=
  modify (add_focus (Reader._instanceID r)).

(** The value of [addon.data.semanticColors]. *)
Definition getCapture : M store Capture.t :=
  w ← get; mret (semanticColors w).

(** [addon.data.semanticColors.selectedText = text]. *)
Definition setSelectedText (text : string) : M store unit :=
  modify (λ w, set_semanticColors
    (Capture.mk (Some text) (Capture.pendingAnnotation (semanticColors w))) w).

(** [addon.data.semanticColors.pendingAnnotation = annotation]. *)
Definition setPendingAnnotation (annotation : Selection.t) : M store unit :=
  modify (λ w, set_semanticColors
    (Capture.mk (Capture.selectedText (semanticColors w)) (Some annotation)) w).

(** A call into the user interface. *)
Definition uiCall (c : UiCall) : M store unit := modify (add_ui c).
End effects.

Section specs.
Context {store : Type}.

(** Computations are compared on every world. *)
#[export] Instance M_equiv {A} : Equiv (M store A) := λ c d, ∀ w, c w = d w.

(** [w'] is [w] with more output: the store and the capture are the
    same, the log, the progress lines and the focus requests of [w]
    are a prefix of those of [w']. *)
Record extends (w w' : World store) : Prop := mkExtends {
  extends_host : host w' = host w;
  extends_capture : semanticColors w' = semanticColors w;
  extends_logs : logs w `prefix_of` logs w';
  extends_progress : progress w `prefix_of` progress w';
  extends_focused : focused w `prefix_of` focused w';
  extends_ui : ui w' = ui w;
}.

(** [w] with more log entries and progress lines. *)
Definition output (ls : list (list LogArg)) (ps : list ProgressLine)
    (w : World store) : World store :=
  mkWorld (host w) (logs w ++ ls) (progress w ++ ps) (focused w)
    (semanticColors w) (ui w).

(** A computation that only produces output. *)
Definition output_only {A} (c : M store A) : Prop :=
  ∀ w, extends w (c w).2.

(** A computation that never throws. *)
Definition no_throw {A} (c : M store A) : Prop :=
  ∀ w, ∃ a, (c w).1 = Ok a.

End specs.

(** ** Reasoning about computations *)

(** Unfold the monad's operations, to run a computation on a world. *)
Ltac m_unfold :=
  unfold mbind, mret, mthrow, M_bind, M_ret, M_throw, bind, ret, throw,
    try_catch, log, showError, focus, getCapture, setSelectedText,
    setPendingAnnotation, uiCall, get, modify in *.

(** Run a computation by case analysis on everything it branches on. *)
Ltac m_run :=
  m_unfold; simpl in *; repeat (case_match; simplify_eq/=); try done.

(** The equations of the operations on a world. *)
Section run.
Context {store : Type}.
Implicit Types (w : World store).

Lemma run_ret {A} (a : A) w : (mret a : M store A) w = (Ok a, w).
Proof. done. Qed.

Lemma run_throw {A} (e : Error) w : (mthrow e : M store A) w = (Throw e, w).
Proof. done. Qed.

Lemma run_bind {A B} (c : M store A) (f : A → M store B) w :
  (c ≫= f) w
  = match c w with
    | (Ok a, w') => f a w'
    | (Throw e, w') => (Throw e, w')
    end.
Proof. done. Qed.

Lemma run_try_catch {A} (c : M store A) (h : Error → M store A) w :
  try_catch c h w
  = match c w with
    | (Ok a, w') => (Ok a, w')
    | (Throw e, w') => h e w'
    end.
Proof. done. Qed.

Lemma add_log_output args w : add_log args w = output [args] [] w.
Proof. unfold add_log, output. by rewrite app_nil_r. Qed.

Lemma add_progress_output p w : add_progress p w = output [] [p] w.
Proof. unfold add_progress, output. by rewrite app_nil_r. Qed.

Lemma run_log args w : log args w = (Ok tt, output [args] [] w).
Proof. unfold log, modify. by rewrite add_log_output. Qed.

Lemma run_showError t w :
  showError t w = (Ok tt, output [] [{| text := t; type := "error" |}] w).
Proof. unfold showError, modify. by rewrite add_progress_output. Qed.

Lemma run_focus r w : focus r w = (Ok tt, add_focus (Reader._instanceID r) w).
Proof. done. Qed.

Lemma run_getCapture w : getCapture w = (Ok (semanticColors w), w).
Proof. done. Qed.

Lemma run_setSelectedText t w :
  setSelectedText t w
  = (Ok tt, set_semanticColors
      (Capture.mk (Some t) (Capture.pendingAnnotation (semanticColors w))) w).
Proof. done. Qed.

Lemma run_setPendingAnnotation a w :
  setPendingAnnotation a w
  = (Ok tt, set_semanticColors
      (Capture.mk (Capture.selectedText (semanticColors w)) (Some a)) w).
Proof. done. Qed.

Lemma run_uiCall c w : uiCall c w = (Ok tt, add_ui c w).
Proof. done. Qed.

Lemma output_nil w : output [] [] w = w.
Proof. destruct w. unfold output. simpl. by rewrite !app_nil_r. Qed.

Lemma output_output ls1 ps1 ls2 ps2 w :
  output ls2 ps2 (output ls1 ps1 w) = output (ls1 ++ ls2) (ps1 ++ ps2) w.
Proof. unfold output. simpl. by rewrite !app_assoc. Qed.

Lemma set_host_output s ls ps w :
  set_host s (output ls ps w) = output ls ps (set_host s w).
Proof. done. Qed.

Lemma set_semanticColors_output c ls ps w :
  set_semanticColors c (output ls ps w) = output ls ps (set_semanticColors c w).
Proof. done. Qed.

Lemma set_semanticColors_twice c1 c2 w :
  set_semanticColors c2 (set_semanticColors c1 w) = set_semanticColors c2 w.
Proof. done. Qed.

Lemma set_semanticColors_same w : set_semanticColors (semanticColors w) w = w.
Proof. by destruct w. Qed.

Lemma set_semanticColors_eta w :
  set_semanticColors
    (Capture.mk (Capture.selectedText (semanticColors w))
       (Capture.pendingAnnotation (semanticColors w))) w = w.
Proof. by destruct w as [? ? ? ? [] ?]. Qed.

Lemma output_add_ui c ls ps w :
  output ls ps (add_ui c w) = add_ui c (output ls ps w).
Proof. done. Qed.

Lemma output_extends ls ps w : extends w (output ls ps w).
Proof. split; simpl; try done; by apply prefix_app_r. Qed.
End run.

#[export] Hint Rewrite @run_ret @run_throw @run_bind @run_try_catch @run_log
  @run_showError @run_focus @run_getCapture @run_setSelectedText
  @run_setPendingAnnotation @run_uiCall @add_log_output
  @add_progress_output @output_nil @output_output @set_host_output
  @set_semanticColors_output @set_semanticColors_twice
  @set_semanticColors_eta @output_add_ui
  : m_rw.

(** Run a computation one operation at a time. *)
Ltac m_simpl :=
  repeat (progress (autorewrite with m_rw; simpl)).

Section laws.
Context {store : Type}.
Implicit Types (w : World store).

#[export] Instance M_equivalence {A} : Equivalence (≡@{M store A}).
Proof.
  split; [by intros c w|by intros c d H w|].
  intros c d e H1 H2 w. by rewrite H1.
Qed.

#[export] Instance bind_proper {A B} :
  Proper (pointwise_relation A (≡) ==> (≡) ==> (≡@{M store B})) mbind.
Proof.
  intros f g Hfg c d Hcd w. m_unfold. rewrite Hcd.
  destruct (d w) as [[a|e] w']; [apply Hfg|done].
Qed.

#[export] Instance try_catch_proper {A} :
  Proper ((≡) ==> pointwise_relation Error (≡) ==> (≡@{M store A})) try_catch.
Proof.
  intros c d Hcd h k Hhk w. unfold try_catch. rewrite Hcd.
  destruct (d w) as [[a|e] w']; [done|apply Hhk].
Qed.

Lemma bind_ret_l {A B} (a : A) (f : A → M store B) : mret a ≫= f ≡ f a.
Proof. done. Qed.

Lemma bind_ret_r {A} (c : M store A) : c ≫= mret ≡ c.
Proof. intros w. m_unfold. by destruct (c w) as [[a|e] w']. Qed.

Lemma bind_assoc {A B C} (c : M store A) (f : A → M store B)
    (g : B → M store C) :
  (c ≫= f) ≫= g ≡ c ≫= (λ a, f a ≫= g).
Proof. intros w. m_unfold. by destruct (c w) as [[a|e] w']. Qed.

Lemma bind_throw {A B} (e : Error) (f : A → M store B) :
  mthrow e ≫= f ≡ mthrow e.
Proof. done. Qed.

Lemma try_catch_ret {A} (a : A) (h : Error → M store A) :
  try_catch (mret a) h ≡ mret a.
Proof. done. Qed.

Lemma try_catch_throw {A} (e : Error) (h : Error → M store A) :
  try_catch (mthrow e) h ≡ h e.
Proof. done. Qed.

#[export] Instance extends_preorder : PreOrder (@extends store).
Proof.
  split.
  - by intros w.
  - intros w1 w2 w3 [] []. split; try congruence; by etrans.
Qed.

Lemma output_only_ret {A} (a : A) : output_only (mret a : M store A).
Proof. by intros w. Qed.

Lemma output_only_throw {A} (e : Error) : output_only (mthrow e : M store A).
Proof. by intros w. Qed.

Lemma output_only_bind {A B} (c : M store A) (f : A → M store B) :
  output_only c → (∀ a, output_only (f a)) → output_only (c ≫= f).
Proof.
  intros Hc Hf w. specialize (Hc w). m_unfold.
  destruct (c w) as [[a|e] w']; [|done]. etrans; [done|apply Hf].
Qed.

Lemma output_only_try_catch {A} (c : M store A) (h : Error → M store A) :
  output_only c → (∀ e, output_only (h e)) → output_only (try_catch c h).
Proof.
  intros Hc Hh w. specialize (Hc w). unfold try_catch.
  destruct (c w) as [[a|e] w']; [done|]. etrans; [done|apply Hh].
Qed.

Lemma output_only_log args : output_only (log args : M store unit).
Proof. intros w. split; simpl; try done. by apply prefix_app_r. Qed.

Lemma output_only_showError t : output_only (showError t : M store unit).
Proof. intros w. split; simpl; try done. by apply prefix_app_r. Qed.

Lemma output_only_focus r : output_only (focus r : M store unit).
Proof. intros w. split; simpl; try done. by apply prefix_app_r. Qed.

Lemma output_only_getCapture : output_only (getCapture : M store Capture.t).
Proof. by intros w. Qed.

Lemma no_throw_ret {A} (a : A) : no_throw (mret a : M store A).
Proof. intros w. by exists a. Qed.

Lemma no_throw_bind {A B} (c : M store A) (f : A → M store B) :
  no_throw c → (∀ a, no_throw (f a)) → no_throw (c ≫= f).
Proof.
  intros Hc Hf w. destruct (Hc w) as [a Ha]. m_unfold.
  destruct (c w) as [[a'|e] w']; simplify_eq/=. apply Hf.
Qed.

Lemma no_throw_try_catch {A} (c : M store A) (h : Error → M store A) :
  (∀ e, no_throw (h e)) → no_throw (try_catch c h).
Proof.
  intros Hh w. unfold try_catch.
  destruct (c w) as [[a|e] w']; [by exists a|apply Hh].
Qed.

Lemma no_throw_modify f : no_throw (modify f : M store unit).
Proof. intros w. by exists tt. Qed.

Lemma no_throw_getCapture : no_throw (getCapture : M store Capture.t).
Proof. intros w. by eexists. Qed.
End laws.

#[export] Hint Resolve output_only_ret output_only_throw output_only_bind
  output_only_try_catch output_only_log output_only_showError
  output_only_focus output_only_getCapture : js.
#[export] Hint Resolve no_throw_ret no_throw_bind no_throw_try_catch
  no_throw_modify no_throw_getCapture : js.
#[export] Hint Extern 1 (no_throw (log _)) => apply no_throw_modify : js.
#[export] Hint Extern 1 (no_throw (showError _)) => apply no_throw_modify : js.
#[export] Hint Extern 1 (no_throw (focus _)) => apply no_throw_modify : js.
#[export] Hint Extern 1 (no_throw (setSelectedText _)) =>
  apply no_throw_modify : js.
#[export] Hint Extern 1 (no_throw (setPendingAnnotation _)) =>
  apply no_throw_modify : js.
#[export] Hint Extern 1 (no_throw (uiCall _)) => apply no_throw_modify : js.
