(* ===== verification/MapStore.v ===== *)
(** * An item store on finite maps

    An implementation of the class [Host]: library items in a finite
    map, annotations in a list in order of creation, and a flag that
    says whether the library can be written.  [saveTx] refuses to save
    when the library is read-only or when the parent is not an item of
    the store; otherwise it gives the annotation the identifier after
    the largest one in use.  The instance shows that the laws of [Host]
    can be met, and gives the examples a store to run on. *)

From Stdlib Require Import ZArith Lia.
From stdpp Require Import base tactics option list strings gmap.
From S2P Require Import Prelude Reader Host.

#[local] Open Scope Z_scope.

Record MapStore : Type := mkStore {
  items : gmap Z Item.t;
  annots : list (Z * AnnotationItem.t);
  editable : bool;
}.

(** The identifiers in use. *)
Definition ids (s : MapStore) : list Z :=
  (map_to_list (items s)).*1 ++ (annots s).*1.

(** The largest identifier in use; identifiers start at 1. *)
Definition max_id (s : MapStore) : Z := foldr Z.max 0 (ids s).

(** [Zotero.Items.get]: a library item, or a saved annotation seen as
    an item that is not a PDF attachment. *)
Definition store_get (s : MapStore) (id : Z) : option Item.t :=
  match items s !! id with
  | Some it => Some it
  | None =>
      (λ a, Item.mk id (AnnotationItem.libraryID a) false)
        <$> (list_to_map (annots s) : gmap Z AnnotationItem.t) !! id
  end.

Definition store_saveTx (a : AnnotationItem.t) (s : MapStore)
    : Error + Z * MapStore :=
  if negb (editable s) then inl (HostError "Cannot edit item in read-only library")
  else if decide (is_Some (items s !! AnnotationItem.parentID a)) then
    inr (max_id s + 1,
         mkStore (items s) (annots s ++ [(max_id s + 1, a)]) (editable s))
  else inl (HostError "Parent item not found").

(** ** Lemmas *)

Lemma foldr_max_ge (l : list Z) (x : Z) : x ∈ l → x ≤ foldr Z.max 0 l.
Proof.
  induction l as [|y l IH]; simpl; [by rewrite elem_of_nil|].
  rewrite elem_of_cons. intros [->|Hin]; [lia|]. specialize (IH Hin). lia.
Qed.

Lemma max_id_items s id it : items s !! id = Some it → id ≤ max_id s.
Proof.
  intros Hit. apply foldr_max_ge. unfold ids. apply elem_of_app. left.
  apply list_elem_of_fmap. exists (id, it). split; [done|].
  by apply elem_of_map_to_list.
Qed.

Lemma max_id_annots s id : id ∈ (annots s).*1 → id ≤ max_id s.
Proof.
  intros Hin. apply foldr_max_ge. unfold ids. apply elem_of_app. by right.
Qed.

Lemma store_get_fresh s : store_get s (max_id s + 1) = None.
Proof.
  unfold store_get.
  destruct (items s !! (max_id s + 1)) as [it|] eqn:Hit.
  { apply max_id_items in Hit. lia. }
  destruct (list_to_map (annots s) !! (max_id s + 1)) as [a|] eqn:Ha; [|done].
  apply elem_of_list_to_map_2 in Ha.
  assert (max_id s + 1 ≤ max_id s); [|lia].
  apply max_id_annots, list_elem_of_fmap. by exists (max_id s + 1, a).
Qed.

#[export] Program Instance MapStore_Host : Host MapStore := {|
  Items_get := store_get;
  annotations := annots;
  saveTx := store_saveTx;
|}.
Next Obligation.
  intros a s id s'. unfold store_saveTx.
  repeat case_match; intros; by simplify_eq.
Qed.
Next Obligation.
  intros a s id s'. unfold store_saveTx.
  repeat case_match; intros; simplify_eq. split; [|apply store_get_fresh].
  intros Hin%max_id_annots. lia.
Qed.
Next Obligation.
  intros a s id s' i. unfold store_saveTx.
  repeat case_match; intros; simplify_eq. unfold store_get. simpl.
  destruct (items s !! i); [done|]. f_equal.
  rewrite list_to_map_app, lookup_union_l; [done|].
  simpl. by rewrite lookup_insert_ne.
Qed.
