(* ===== verification/Resolver.v ===== *)
(** * The position resolver

    Lines 160-241 of [applySemanticColor]: the locals [position] and
    [pageLabel] are filled from three sources in turn.  [tier1] reads
    the selection ranges of the primary view, [tier2] the reader's
    current selection, [tier3] the cached pending annotation; [tier3]
    is also where the function gives up, with an error line for the
    user.  [resolvePosition] is their composition.  The locals are the
    record [Locals]; tiers 2 and 3 log, so they are computations of the
    monad [M]. *)

From Stdlib Require Import ZArith QArith Lia.
From stdpp Require Import base tactics option list strings.
From S2P Require Import Prelude JsString Reader Host.

#[local] Close Scope Q_scope.

(** The locals [position] and [pageLabel]; both start as [null]. *)
Record Locals : Type := mkLocals {
  position : option Position.t;
  pageLabel : option string;
}.

Definition init : Locals := mkLocals None None.

(** The body of the loop over the selection ranges, on the loop's
    variables [pageIndex] and [rects]. *)
Definition range_step (acc : option Z * list Rect) (range : Range.t)
    : option Z * list Rect :=
  match Range.position range with
  | Some pos =>
      (Position.pageIndex pos,
       match Position.rects pos with
       | Some rs => acc.2 ++ rs
       | None => acc.2
       end)
  | None => acc
  end.

(** The loop: [pageIndex] starts at 0 and [rects] empty. *)
Definition collectRanges (selectionRanges : list Range.t)
    : option Z * list Rect :=
  foldl range_step (Some 0%Z, []) selectionRanges.

(** Tier 1: the selection ranges of the primary view, when no annotation
    is selected. *)
Definition tier1 (internalReader : option InternalReader.t) (st : Locals)
    : Locals :=
  match internalReader with
  | Some ir =>
      if length_is (InternalReader._state ir ≫= State.selectedAnnotationIDs) 0
      then
        match InternalReader._primaryView ir with
        | Some primaryView =>
            if length_gt (PrimaryView._selectionRanges primaryView) 0 then
              let selectionRanges :=
                default [] (PrimaryView._selectionRanges primaryView) in
              let '(pageIndex, rects) := collectRanges selectionRanges in
              if (0 <? length rects)%nat then
                mkLocals (Some (Position.mk pageIndex (Some rects)))
                         (Some (js_String (add1 pageIndex)))
              else st
            else st
        | None => st
        end
      else st
  | None => st
  end.

(** [!position.rects || position.rects.length === 0]. *)
Definition missing_rects (p : Position.t) : bool :=
  negb (truthy (Position.rects p)) || length_is (Position.rects p) 0.

(** [!position || !position.rects || position.rects.length === 0]. *)
Definition no_valid_position (position : option Position.t) : bool :=
  match position with
  | Some p => missing_rects p
  | None => true
  end.

Section resolver.
Context {store : Type}.

(** Tier 2: the reader's current selection. *)
Definition tier2 (internalReader : option InternalReader.t) (st : Locals)
    : M store Locals :=
  match internalReader ≫= InternalReader._currentSelection with
  | Some selection =>
      if negb (truthy (position st)) then
        st1 ← match Selection.position selection with
              | Some p =>
                  if missing_rects p then
                    log [LStr "Selection position missing rects, cannot create highlight annotation"];;
                    mret (mkLocals None (pageLabel st))
                  else mret (mkLocals (Some p) (pageLabel st))
              | None => mret st
              end;
        match Selection.pageIndex selection with
        | Some pageIndex =>
            mret (mkLocals (position st1)
                    (Some (js_String (add1 (Some pageIndex)))))
        | None => mret st1
        end
      else mret st
  | None => mret st
  end.

(** Tier 3: the cached pending annotation, or the error line.  [None]
    is the function's early [return]. *)
Definition tier3 (st : Locals) : M store (option Locals) :=
  if no_valid_position (position st) then
    log [LStr "No valid position with rects found, trying native annotation creation..."];;
    try_catch
      (capture ← getCapture;
       match Capture.pendingAnnotation capture ≫= Selection.position with
       | Some p =>
           if truthy (Position.rects p) then
             mret (Some (mkLocals (Some p)
               (Some (js_String (Int (js_or (Position.pageIndex p) 0 + 1)%Z)))))
           else
             showError "Please select text in the PDF first";; mret None
       | None =>
           showError "Please select text in the PDF first";; mret None
       end)
      (λ e,
         log [LStr "Native annotation creation failed:"; LErr e];;
         showError "Could not get selection position. Please try selecting text again.";;
         mret None)
  else mret (Some st).

(** Lines 160-241: the three tiers in order. *)
Definition resolvePosition (internalReader : option InternalReader.t)
    : M store (option Locals) :=
  st2 ← tier2 internalReader (tier1 internalReader init);
  tier3 st2.
End resolver.


(** ** Reference definitions: the three sources *)

(** The rectangles of all ranges, in range order. *)
Definition all_rects (ranges : list Range.t) : list Rect :=
  concat (omap (λ r, Range.position r ≫= Position.rects) ranges).

(** The page index of the last range that has a position; 0 when no
    range has one. *)
Definition last_pageIndex (ranges : list Range.t) : option Z :=
  match last (omap Range.position ranges) with
  | Some pos => Position.pageIndex pos
  | None => Some 0%Z
  end.

(** The ranges tier 1 looks at: those of the primary view, when the
    reader's state has an empty list of selected annotations. *)
Definition selection_ranges (ir : option InternalReader.t)
    : option (list Range.t) :=
  ir ← ir;
  if length_is (InternalReader._state ir ≫= State.selectedAnnotationIDs) 0
  then InternalReader._primaryView ir ≫= PrimaryView._selectionRanges
  else None.

(** A position with at least one rectangle. *)
Definition has_rects (p : Position.t) : bool :=
  length_gt (Position.rects p) 0.

(** What each tier offers, as a function of what it reads. *)
Definition source1 (ir : option InternalReader.t) : option Locals :=
  ranges ← selection_ranges ir;
  match all_rects ranges with
  | [] => None
  | rects =>
      Some (mkLocals
              (Some (Position.mk (last_pageIndex ranges) (Some rects)))
              (Some (js_String (add1 (last_pageIndex ranges)))))
  end.

Definition source2 (ir : option InternalReader.t) : option Locals :=
  selection ← ir ≫= InternalReader._currentSelection;
  p ← Selection.position selection;
  if has_rects p then
    Some (mkLocals (Some p)
            (js_String ∘ add1 ∘ Some <$> Selection.pageIndex selection))
  else None.

Definition source3 (capture : Capture.t) : option Locals :=
  p ← Capture.pendingAnnotation capture ≫= Selection.position;
  if truthy (Position.rects p) then
    Some (mkLocals (Some p)
            (Some (js_String (Int (js_or (Position.pageIndex p) 0 + 1)%Z))))
  else None.

(** The first source that offers a position. *)
Definition first_source (ir : option InternalReader.t) (capture : Capture.t)
    : option Locals :=
  match source1 ir with
  | Some st => Some st
  | None =>
      match source2 ir with
      | Some st => Some st
      | None => source3 capture
      end
  end.

(** The log of tier 2, and of the resolver. *)
Definition tier2_logs (ir : option InternalReader.t) : list (list LogArg) :=
  match (ir ≫= InternalReader._currentSelection) ≫= Selection.position with
  | Some p =>
      if missing_rects p
      then [[LStr "Selection position missing rects, cannot create highlight annotation"]]
      else []
  | None => []
  end.

Definition resolve_logs (ir : option InternalReader.t) : list (list LogArg) :=
  match source1 ir with
  | Some _ => []
  | None =>
      tier2_logs ir ++
      match source2 ir with
      | Some _ => []
      | None => [[LStr "No valid position with rects found, trying native annotation creation..."]]
      end
  end.

(** The error line of the resolver. *)
Definition no_position_line : ProgressLine :=
  {| text := "Please select text in the PDF first"; type := "error" |}.

Definition resolve_progress (ir : option InternalReader.t) (c : Capture.t)
    : list ProgressLine :=
  match first_source ir c with
  | Some _ => []
  | None => [no_position_line]
  end.

(** The cached pending annotation never carries a position whose list
    of rectangles is empty. *)
Definition capture_ok (c : Capture.t) : Prop :=
  ∀ p, Capture.pendingAnnotation c ≫= Selection.position = Some p →
       Position.rects p ≠ Some [].

(** The locals hold a position only if it has a rectangle. *)
Definition locals_ok (st : Locals) : Prop :=
  ∀ p, position st = Some p → has_rects p = true.

(** ** The loop *)

Lemma foldl_range_step acc ranges :
  foldl range_step acc ranges
  = (match last (omap Range.position ranges) with
     | Some pos => Position.pageIndex pos
     | None => acc.1
     end,
     acc.2 ++ all_rects ranges).
Proof.
  revert acc. induction ranges as [|[[[pi rs]|]] ranges IH]; intros [pi0 rs0].
  - simpl. by rewrite app_nil_r.
  - simpl. rewrite IH. unfold range_step, all_rects. simpl. f_equal.
    + change (list_omap _ _ Range.position ranges)
        with (omap Range.position ranges).
      destruct (omap Range.position ranges) as [|pos l]; [done|].
      rewrite last_cons_cons.
      destruct (last (pos :: l)) eqn:El; [done|]. by apply last_None in El.
    + destruct rs; simpl; by rewrite <-?app_assoc.
  - simpl. apply IH.
Qed.

Lemma collectRanges_run ranges :
  collectRanges ranges = (last_pageIndex ranges, all_rects ranges).
Proof. unfold collectRanges. by rewrite foldl_range_step. Qed.

(** ** The tiers *)

Lemma missing_rects_has_rects p : missing_rects p = negb (has_rects p).
Proof. by destruct p as [pi [[|r rs]|]]. Qed.

Lemma has_rects_cons p : has_rects p = true ↔ ∃ r rs, Position.rects p = Some (r :: rs).
Proof. apply length_gt_0. Qed.

Lemma tier1_run ir : tier1 ir init = default init (source1 ir).
Proof.
  unfold tier1, source1, selection_ranges.
  destruct ir as [[st pv cs t]|]; simpl; [|done].
  destruct (length_is _ 0); simpl; [|done].
  destruct pv as [[[ranges|]]|]; simpl; try done.
  rewrite collectRanges_run.
  destruct ranges as [|r ranges]; simpl; [done|].
  by destruct (all_rects (r :: ranges)).
Qed.

Lemma source1_ok ir st : source1 ir = Some st → locals_ok st.
Proof.
  unfold source1. destruct (selection_ranges ir) as [ranges|]; simpl; [|done].
  destruct (all_rects ranges) as [|r rs]; [done|].
  by intros [= <-] p [= <-].
Qed.

Lemma source2_ok ir st : source2 ir = Some st → locals_ok st.
Proof.
  unfold source2. destruct (ir ≫= _) as [[t [p|] pi]|]; simpl; try done.
  destruct (has_rects p) eqn:Hp; [|done]. by intros [= <-] p' [= <-].
Qed.

Lemma source1_position ir st : source1 ir = Some st → is_Some (position st).
Proof.
  unfold source1. destruct (selection_ranges ir) as [ranges|]; simpl; [|done].
  destruct (all_rects ranges); [done|]. intros [= <-]. by eexists.
Qed.

Lemma source2_position ir st : source2 ir = Some st → is_Some (position st).
Proof.
  unfold source2. destruct (ir ≫= _) as [[t [p|] pi]|]; simpl; try done.
  destruct (has_rects p); [|done]. intros [= <-]. by eexists.
Qed.

Section tiers.
Context {store : Type}.
Implicit Types (w : World store).

Lemma tier2_init ir w :
  tier2 ir init w
  = (Ok (default
           (mkLocals None
              ((ir ≫= InternalReader._currentSelection)
                 ≫= λ sel, js_String ∘ add1 ∘ Some <$> Selection.pageIndex sel))
           (source2 ir)),
     output (tier2_logs ir) [] w).
Proof.
  unfold tier2, source2, tier2_logs.
  destruct ir as [[st pv [[t [p|] pi]|] txt]|]; simpl; m_simpl; try done.
  - rewrite missing_rects_has_rects.
    destruct (has_rects p), pi; simpl; by m_simpl.
  - destruct pi; by m_simpl.
Qed.

Lemma tier2_Some ir st w :
  is_Some (position st) → tier2 ir st w = (Ok st, w).
Proof. intros [p Hp]. unfold tier2. rewrite Hp. simpl. by destruct (ir ≫= _). Qed.

Lemma tier3_valid st w :
  is_Some (position st) → locals_ok st → tier3 st w = (Ok (Some st), w).
Proof.
  intros [p Hp] Hok. unfold tier3, no_valid_position.
  by rewrite Hp, missing_rects_has_rects, (Hok p Hp).
Qed.

Lemma tier3_None l w :
  tier3 (mkLocals None l) w
  = (Ok (source3 (semanticColors w)),
     output [[LStr "No valid position with rects found, trying native annotation creation..."]]
       (match source3 (semanticColors w) with
        | Some _ => []
        | None => [no_position_line]
        end) w).
Proof.
  unfold tier3, source3. simpl. m_simpl.
  destruct (Capture.pendingAnnotation (semanticColors w) ≫= Selection.position)
    as [p|]; simpl; [|by m_simpl].
  destruct (truthy (Position.rects p)); simpl; by m_simpl.
Qed.

(** The resolver as a function: its value is the first source that
    offers a position, and its effect is output. *)
Lemma resolvePosition_run ir w :
  resolvePosition ir w
  = (Ok (first_source ir (semanticColors w)),
     output (resolve_logs ir) (resolve_progress ir (semanticColors w)) w).
Proof.
  unfold resolvePosition, resolve_logs, resolve_progress, first_source.
  rewrite tier1_run, run_bind.
  destruct (source1 ir) as [st1|] eqn:E1; simpl.
  - rewrite tier2_Some, tier3_valid, output_nil;
      eauto using source1_ok, source1_position.
  - rewrite tier2_init.
    destruct (source2 ir) as [st2|] eqn:E2; simpl.
    + rewrite tier3_valid, app_nil_r; eauto using source2_ok, source2_position.
    + rewrite tier3_None, output_output. by destruct (source3 _).
Qed.
End tiers.

Lemma source3_ok c st : capture_ok c → source3 c = Some st → locals_ok st.
Proof.
  unfold source3, capture_ok. intros Hc.
  destruct (Capture.pendingAnnotation c ≫= Selection.position) as [p|];
    simpl; [|done].
  specialize (Hc p eq_refl).
  destruct p as [pi [[|r rs]|]]; simpl in *; try done.
  by intros [= <-] p' [= <-].
Qed.

Lemma first_source_ok ir c st :
  capture_ok c → first_source ir c = Some st → locals_ok st.
Proof.
  unfold first_source. intros Hc.
  destruct (source1 ir) eqn:E1; [intros [= <-]; by eapply source1_ok|].
  destruct (source2 ir) eqn:E2; [intros [= <-]; by eapply source2_ok|].
  by apply source3_ok.
Qed.

Lemma locals_ok_rects st :
  is_Some (position st) → locals_ok st →
  ∃ p r rs, position st = Some p ∧ Position.rects p = Some (r :: rs).
Proof.
  intros [p Hp] Hok. destruct (proj1 (has_rects_cons p) (Hok p Hp)) as (r & rs & Hr).
  eauto.
Qed.

Lemma source3_position c st :
  source3 c = Some st →
  ∃ p rs, position st = Some p ∧ Position.rects p = Some rs.
Proof.
  unfold source3.
  destruct (Capture.pendingAnnotation c ≫= Selection.position) as [p|];
    simpl; [|done].
  destruct p as [pi [rs|]]; simpl; [|done]. intros [= <-]. simpl. eauto.
Qed.

(** Whatever the resolver returns has a position with a list of
    rectangles, which may be empty. *)
Lemma first_source_rects ir c st :
  first_source ir c = Some st →
  ∃ p rs, position st = Some p ∧ Position.rects p = Some rs.
Proof.
  unfold first_source.
  destruct (source1 ir) eqn:E1.
  { intros [= <-].
    destruct (locals_ok_rects _ (source1_position _ _ E1) (source1_ok _ _ E1))
      as (p & r & rs & ? & ?). eauto. }
  destruct (source2 ir) eqn:E2; [|apply source3_position].
  intros [= <-].
  destruct (locals_ok_rects _ (source2_position _ _ E2) (source2_ok _ _ E2))
    as (p & r & rs & ? & ?). eauto.
Qed.

(** ** Examples *)

(** The scenario of the specification: no annotation selected, two
    selection ranges on page index 2; the current selection and the
    cache hold other positions. *)
Definition rect_a : Rect := [1; 2; 3; 4]%Q.
Definition rect_b : Rect := [5; 6; 7; 8]%Q.
Definition range_on (pageIndex : Z) (rects : list Rect) : Range.t :=
  Range.mk (Some (Position.mk (Some pageIndex) (Some rects))).
Definition other_selection : Selection.t :=
  Selection.mk (Some "other") (Some (Position.mk (Some 7%Z) (Some [rect_b])))
    (Some 7%Z).
Definition two_ranges : option InternalReader.t :=
  Some (InternalReader.mk (Some (State.mk (Some [])))
          (Some (PrimaryView.mk (Some [range_on 2 [rect_a]; range_on 2 [rect_b]])))
          (Some other_selection) None).
Definition world_with (pending : option Selection.t) : World unit :=
  mkWorld tt [] [] [] (Capture.mk (Some "cached text") pending) [].

(** No ranges, and a current selection whose position has an empty list
    of rectangles. *)
Definition empty_selection : option InternalReader.t :=
  Some (InternalReader.mk (Some (State.mk (Some []))) None
          (Some (Selection.mk None (Some (Position.mk (Some 0%Z) (Some []))) None))
          None).

(** A current selection on page index 5 that has no [pageIndex] of its
    own. *)
Definition unlabelled_selection : option InternalReader.t :=
  Some (InternalReader.mk None None
          (Some (Selection.mk (Some "text")
                   (Some (Position.mk (Some 5%Z) (Some [rect_a]))) None))
          None).

(** A cached annotation whose position has an empty list of rectangles. *)
Definition empty_pending : Selection.t :=
  Selection.mk (Some "text") (Some (Position.mk (Some 4%Z) (Some []))) None.

(** ** Properties *)

(** C3 (the resolver refines the priority list of sources).  For every
    reader state and every world, [resolvePosition] returns normally,
    and its value is the first of the three sources that offers a
    position: the selection ranges of the primary view, then the
    current selection, then the cached pending annotation; no result
    mixes two sources. *)
Theorem resolve_refines_sources {store} ir (w : World store) :
  (resolvePosition ir w).1 = Ok (first_source ir (semanticColors w)).
Proof. by rewrite resolvePosition_run. Qed.

(** C4 (tier priority).  When the reader has selection ranges with at
    least one rectangle, the resolver returns the concatenation of
    their rectangles with the page index of the last range, labelled
    with that page index plus one, and leaves the world as it was,
    whatever the current selection and the cache hold. *)
Theorem resolve_tier1_priority {store} ir (w : World store) ranges r rs :
  selection_ranges ir = Some ranges → all_rects ranges = r :: rs →
  resolvePosition ir w
  = (Ok (Some (mkLocals
                 (Some (Position.mk (last_pageIndex ranges) (Some (r :: rs))))
                 (Some (js_String (add1 (last_pageIndex ranges)))))),
     w).
Proof.
  intros Hranges Hrects. rewrite resolvePosition_run.
  unfold first_source, resolve_logs, resolve_progress, first_source, source1.
  rewrite Hranges. simpl. rewrite Hrects. by rewrite output_nil.
Qed.

Lemma resolve_tier1_priority_witness :
  resolvePosition two_ranges (world_with (Some other_selection))
  = (Ok (Some (mkLocals
                 (Some (Position.mk (Some 2%Z) (Some [rect_a; rect_b])))
                 (Some "3"))),
     world_with (Some other_selection)).
Proof.
  apply (resolve_tier1_priority two_ranges (world_with (Some other_selection))
           [range_on 2 [rect_a]; range_on 2 [rect_b]] rect_a [rect_b]);
    reflexivity.
Defined.

(** C17 (no empty geometry, when the cache is sound).  If the cached
    pending annotation does not carry a position with an empty list of
    rectangles, every position the resolver returns has at least one
    rectangle. *)
Theorem resolve_rects_nonempty {store} ir (w : World store) st :
  capture_ok (semanticColors w) →
  (resolvePosition ir w).1 = Ok (Some st) →
  ∃ p r rs, position st = Some p ∧ Position.rects p = Some (r :: rs).
Proof.
  rewrite resolvePosition_run. simpl. intros Hc [= Hsrc].
  destruct (first_source_rects _ _ _ Hsrc) as (p & rs & Hp & _).
  apply locals_ok_rects; [by eexists|]. by eapply first_source_ok.
Qed.

Lemma resolve_rects_nonempty_witness :
  ∃ p r rs,
    position (mkLocals (Some (Position.mk (Some 2%Z) (Some [rect_a; rect_b])))
                (Some "3")) = Some p
    ∧ Position.rects p = Some (r :: rs).
Proof.
  apply (resolve_rects_nonempty two_ranges (world_with None)).
  - by intros p.
  - reflexivity.
Defined.

(** C18 (tier 3 accepts an empty list of rectangles).  When neither the
    ranges nor the current selection offer a position and the cached
    pending annotation has a position whose list of rectangles is
    empty, the resolver returns that position: the test of tier 3 is
    the truthiness of the array, and an empty array is truthy. *)
Theorem resolve_tier3_empty_rects {store} ir (w : World store) sel p :
  source1 ir = None → source2 ir = None →
  Capture.pendingAnnotation (semanticColors w) = Some sel →
  Selection.position sel = Some p → Position.rects p = Some [] →
  (resolvePosition ir w).1
  = Ok (Some (mkLocals (Some p)
                (Some (js_String (Int (js_or (Position.pageIndex p) 0 + 1)%Z))))).
Proof.
  intros H1 H2 Hsel Hp Hr. rewrite resolvePosition_run. simpl.
  unfold first_source, source3. rewrite H1, H2, Hsel. simpl.
  rewrite Hp. simpl. by rewrite Hr.
Qed.

Lemma resolve_tier3_empty_rects_witness :
  (resolvePosition empty_selection (world_with (Some empty_pending))).1
  = Ok (Some (mkLocals (Some (Position.mk (Some 4%Z) (Some []))) (Some "5"))).
Proof.
  apply (resolve_tier3_empty_rects empty_selection
           (world_with (Some empty_pending)) empty_pending
           (Position.mk (Some 4%Z) (Some []))); reflexivity.
Defined.

(** C30 (the loop over the ranges).  The loop of tier 1 computes the
    concatenation of the rectangles of all ranges, in range order, and
    the page index of the last range that has a position (0 when none
    has). *)
Theorem collectRanges_equiv (ranges : list Range.t) :
  collectRanges ranges = (last_pageIndex ranges, all_rects ranges).
Proof. apply collectRanges_run. Qed.

(** C31 (failure of the resolver).  When none of the three sources
    offers a position, the resolver returns no position, adds exactly
    the line "Please select text in the PDF first" for the user, and
    leaves the store and the cache as they were. *)
Theorem resolve_failure {store} ir (w : World store) :
  first_source ir (semanticColors w) = None →
  let r := resolvePosition ir w in
  r.1 = Ok None
  ∧ progress r.2 = progress w ++ [no_position_line]
  ∧ host r.2 = host w ∧ semanticColors r.2 = semanticColors w.
Proof.
  intros Hsrc. simpl. rewrite resolvePosition_run. simpl.
  unfold resolve_progress. by rewrite Hsrc.
Qed.

Lemma resolve_failure_witness :
  let r := resolvePosition empty_selection (world_with None) in
  r.1 = Ok None
  ∧ progress r.2 = progress (world_with None) ++ [no_position_line]
  ∧ host r.2 = host (world_with None)
  ∧ semanticColors r.2 = semanticColors (world_with None).
Proof. apply (resolve_failure empty_selection (world_with None)). reflexivity. Defined.

(** C32 (the page label of tier 2).  When the current selection wins,
    the page label is made from the selection's own [pageIndex], not
    from the page index of its position: a selection without
    [pageIndex] leaves the label unset (the writer then uses "1"),
    whatever page the position is on. *)
Theorem resolve_tier2_label {store} ir (w : World store) sel p :
  source1 ir = None → ir ≫= InternalReader._currentSelection = Some sel →
  Selection.position sel = Some p → has_rects p = true →
  (resolvePosition ir w).1
  = Ok (Some (mkLocals (Some p)
                (js_String ∘ add1 ∘ Some <$> Selection.pageIndex sel))).
Proof.
  intros H1 Hsel Hp Hr. rewrite resolvePosition_run. simpl.
  unfold first_source, source2. rewrite H1, Hsel. simpl.
  rewrite Hp. simpl. by rewrite Hr.
Qed.

Lemma resolve_tier2_label_witness :
  (resolvePosition unlabelled_selection (world_with None)).1
  = Ok (Some (mkLocals (Some (Position.mk (Some 5%Z) (Some [rect_a]))) None)).
Proof.
  apply (resolve_tier2_label unlabelled_selection (world_with None)
           (Selection.mk (Some "text")
              (Some (Position.mk (Some 5%Z) (Some [rect_a]))) None)
           (Position.mk (Some 5%Z) (Some [rect_a]))); reflexivity.
Defined.

(** C33 (the resolver only produces output).  The resolver never
    throws, and it changes neither the store nor the cache: the log and
    the progress lines of the world before are prefixes of those
    after. *)
Theorem resolve_safe {store} ir :
  no_throw (resolvePosition ir : M store _)
  ∧ output_only (resolvePosition ir : M store _).
Proof.
  split; intros w; rewrite resolvePosition_run; simpl;
    [by eexists|apply output_extends].
Qed.
