(* ===== verification/SortKey.v ===== *)
(** * The sort index

    Lines 243-249 of [applySemanticColor]: the key
    [PPPPP|YYYYYY|XXXXX] made of the page index and of the floor of the
    first rectangle's y and x, each padded with zeros.  The theorems:
    the format of a key (three fields of five, six and five
    characters), that keys compare as strings the way (page, y, x)
    compare as numbers inside the documented bounds, that a key read
    back at its bars ([read_key]) gives the three numbers, and what
    happens outside the bounds: a negative coordinate is padded
    around its sign, a page index beyond the width breaks the order,
    a rectangle with fewer than two coordinates yields [NaN] in the
    key. *)

From Stdlib Require Import ZArith QArith Qround Lia Ascii.
From stdpp Require Import base tactics option list strings.
From S2P Require Import Prelude JsString Reader.

#[local] Close Scope Q_scope.
#[local] Open Scope Z_scope.

(** [Math.floor(v)] for a coordinate that may be missing:
    [Math.floor(undefined)] is [NaN]. *)
Definition Math_floor (v : option Q) : jsnum :=
  match v with
  | Some q => Int (Qfloor q)
  | None => NaN
  end.

(** [firstRect ? Math.floor(firstRect[i]) : 0]. *)
Definition coordinate (firstRect : option Rect) (i : nat) : jsnum :=
  match firstRect with
  | Some r => Math_floor (r !! i)
  | None => Int 0
  end.

(** The sort index of a position with page index [pageIndex] and
    rectangles [rects]. *)
Definition sortIndex (pageIndex : option Z) (rects : list Rect) : string :=
  let pageIndex := js_or pageIndex 0 in
  let firstRect := rects !! 0%nat in
  let yPos := coordinate firstRect 1 in
  let xPos := coordinate firstRect 0 in
  padStart 5 "0" (js_String (Int pageIndex)) +:+ "|"
  +:+ padStart 6 "0" (js_String yPos) +:+ "|"
  +:+ padStart 5 "0" (js_String xPos).

(** ** Reference definitions *)

(** A field of the key. *)
Definition field (width : nat) (n : jsnum) : string :=
  padStart width "0" (js_String n).

(** The triple the key encodes. *)
Record Key : Type := mkKey { page : Z; ypos : Z; xpos : Z }.

(** Order of triples: page first, then y, then x. *)
Definition Key_compare (a b : Key) : comparison :=
  lexico_cmp (page a ?= page b)
    (lexico_cmp (ypos a ?= ypos b) (xpos a ?= xpos b)).

(** The bounds of the documented guarantee. *)
Definition in_bounds (k : Key) : Prop :=
  0 ≤ page k < 10 ^ 5 ∧ 0 ≤ ypos k < 10 ^ 6 ∧ 0 ≤ xpos k < 10 ^ 5.

(** The key as a string of fixed-width fields. *)
Definition Key_string (k : Key) : string :=
  fixed 5 (page k) +:+ "|" +:+ fixed 6 (ypos k) +:+ "|" +:+ fixed 5 (xpos k).

(** The triple of a position whose first rectangle has two coordinates. *)
Definition key_of (pageIndex : option Z) (rects : list Rect) : option Key :=
  r ← rects !! 0%nat;
  x ← r !! 0%nat;
  y ← r !! 1%nat;
  Some (mkKey (default 0 pageIndex) (Qfloor y) (Qfloor x)).

(** A reader of keys: three fields separated by bars, each an
    integer. *)
Definition read_key (s : string) : option Key :=
  match split_on "|" s with
  | [p; y; x] =>
      p ← read_Z p; y ← read_Z y; x ← read_Z x; Some (mkKey p y x)
  | _ => None
  end.

#[export] Instance in_bounds_dec k : Decision (in_bounds k).
Proof. unfold in_bounds. apply _. Defined.

(** ** Lemmas *)

Lemma sortIndex_key pageIndex rects k :
  key_of pageIndex rects = Some k → in_bounds k →
  sortIndex pageIndex rects = Key_string k.
Proof.
  unfold key_of, sortIndex, Key_string, coordinate.
  destruct (rects !! 0%nat) as [r|]; simpl; [|done].
  destruct (r !! 0%nat) as [x|]; simpl; [|done].
  destruct (r !! 1%nat) as [y|]; simpl; [|done].
  intros [= <-] (Hp & Hy & Hx). simpl in *.
  rewrite js_or_Z_zero.
  change 5%nat with (S 4). change 6%nat with (S 5).
  by rewrite !String_of_Z_nonneg, !padStart_digits by (done || lia).
Qed.

Lemma Key_string_length k : String.length (Key_string k) = 18%nat.
Proof.
  unfold Key_string. by rewrite !string_length_app, !fixed_length.
Qed.

Lemma Key_string_compare a b :
  in_bounds a → in_bounds b →
  String.compare (Key_string a) (Key_string b) = Key_compare a b.
Proof.
  intros (Hp & Hy & Hx) (Hp' & Hy' & Hx'). unfold Key_string, Key_compare.
  rewrite compare_app by (by rewrite !fixed_length).
  rewrite compare_fixed by done. f_equal.
  rewrite (compare_app "|" "|"), compare_refl by done. cbn [lexico_cmp].
  rewrite compare_app by (by rewrite !fixed_length).
  rewrite compare_fixed by done. f_equal.
  rewrite (compare_app "|" "|"), compare_refl by done. cbn [lexico_cmp].
  by apply compare_fixed.
Qed.

(** The fields of a key of fixed-width numbers. *)
Lemma Key_string_split k :
  split_on "|" (Key_string k)
  = [fixed 5 (page k); fixed 6 (ypos k); fixed 5 (xpos k)].
Proof.
  unfold Key_string. rewrite ?string_app_assoc.
  rewrite !string_app_cons, !string_app_nil_l.
  by rewrite !split_on_app, split_on_lacks by apply fixed_lacks_bar.
Qed.

Lemma read_key_Key_string k : in_bounds k → read_key (Key_string k) = Some k.
Proof.
  intros (Hp & Hy & Hx). unfold read_key. rewrite Key_string_split.
  rewrite !read_Z_fixed by done. by destruct k.
Qed.

Lemma Key_compare_Eq a b : Key_compare a b = Eq ↔ a = b.
Proof.
  destruct a as [p y x], b as [p' y' x']. unfold Key_compare. simpl. split.
  - destruct (Z.compare_spec p p'), (Z.compare_spec y y'),
      (Z.compare_spec x x'); simpl; intros; by simplify_eq.
  - intros [= -> -> ->]. by rewrite !Z.compare_refl.
Qed.

Lemma Math_floor_lookup_proper (r r' : Rect) (i : nat) :
  rect_equiv r r' → Math_floor (r !! i) = Math_floor (r' !! i).
Proof.
  intros Hr. revert i.
  induction Hr as [|q q' r r' Hq _ IH]; intros [|i]; simpl; try done.
  by rewrite Hq.
Qed.

(** The key depends on the value of the coordinates only. *)
#[export] Instance sortIndex_proper pageIndex :
  Proper (rects_equiv ==> (=)) (sortIndex pageIndex).
Proof.
  intros rs rs' Hrs. unfold sortIndex.
  assert (∀ i, coordinate (rs !! 0%nat) i = coordinate (rs' !! 0%nat) i) as Hc.
  { intros i. destruct Hrs as [|r r' rs rs' Hr _]; simpl; [done|].
    by apply Math_floor_lookup_proper. }
  by rewrite !Hc.
Qed.

Lemma sortIndex_fields pageIndex rects :
  sortIndex pageIndex rects
  = field 5 (Int (js_or pageIndex 0)) +:+ "|"
    +:+ field 6 (coordinate (rects !! 0%nat) 1) +:+ "|"
    +:+ field 5 (coordinate (rects !! 0%nat) 0).
Proof. done. Qed.

Lemma field_negative_digit w n :
  -10 < n < 0 →
  field (S (S w)) (Int n)
  = replicate_char w "0" +:+ String "-" (String (digit_char (- n)) "").
Proof.
  intros Hn. unfold field. simpl.
  rewrite String_of_Z_neg, digits_small by lia. unfold padStart. simpl.
  by replace (w - 0)%nat with w by lia.
Qed.

Lemma field_lacks_bar w n : lacks "|" (field w n) = true.
Proof. apply padStart_lacks; [done|apply js_String_lacks_bar]. Qed.

(** The fields of a sort index, on every input. *)
Lemma sortIndex_split pageIndex rects :
  split_on "|" (sortIndex pageIndex rects)
  = [field 5 (Int (js_or pageIndex 0));
     field 6 (coordinate (rects !! 0%nat) 1);
     field 5 (coordinate (rects !! 0%nat) 0)].
Proof.
  rewrite sortIndex_fields, ?string_app_assoc.
  rewrite !string_app_cons, !string_app_nil_l.
  by rewrite !split_on_app, split_on_lacks by apply field_lacks_bar.
Qed.

Lemma field_length w n : (w ≤ String.length (field w n))%nat.
Proof. unfold field. rewrite padStart_length. lia. Qed.

(** ** Examples *)

(** The positions of the specification's ordering example:
    page 1, y = 5 and y = 10, x = 0. *)
Definition rects_y5 : list Rect := [[0; 5; 10; 15]%Q].
Definition rects_y10 : list Rect := [[0; 10; 10; 20]%Q].

(** ** Properties *)

(** C5 (keys order positions).  For two positions whose page index and
    whose floored first-rectangle coordinates are inside the
    documented bounds (page below 10^5, y below 10^6, x below 10^5,
    none negative), the keys compare as strings exactly as the triples
    (page, y, x) compare, page first, then y, then x. *)
Theorem sortIndex_order pa ra pb rb ka kb :
  key_of pa ra = Some ka → key_of pb rb = Some kb →
  in_bounds ka → in_bounds kb →
  String.compare (sortIndex pa ra) (sortIndex pb rb) = Key_compare ka kb.
Proof.
  intros Ha Hb Hka Hkb.
  rewrite (sortIndex_key _ _ _ Ha Hka), (sortIndex_key _ _ _ Hb Hkb).
  by apply Key_string_compare.
Qed.

Lemma sortIndex_order_witness :
  String.compare (sortIndex (Some 1) rects_y5) (sortIndex (Some 1) rects_y10)
  = Key_compare (mkKey 1 5 0) (mkKey 1 10 0).
Proof.
  apply (sortIndex_order (Some 1) rects_y5 (Some 1) rects_y10
           (mkKey 1 5 0) (mkKey 1 10 0)); [reflexivity|reflexivity|..];
    unfold in_bounds; simpl; lia.
Defined.

(** C27 (the format of a key).  Inside the bounds the key is three
    fields separated by two bars, of exactly five, six and five
    characters: 18 characters in all, as in the comment
    [PPPPP|YYYYYY|XXXXX] of the code, and one fewer than the key of
    the specification's example, whose x field has six digits. *)
Theorem sortIndex_format pageIndex rects k :
  key_of pageIndex rects = Some k → in_bounds k →
  ∃ p y x, split_on "|" (sortIndex pageIndex rects) = [p; y; x]
           ∧ String.length p = 5%nat ∧ String.length y = 6%nat
           ∧ String.length x = 5%nat
           ∧ String.length (sortIndex pageIndex rects) = 18%nat.
Proof.
  intros Hk Hb. rewrite (sortIndex_key _ _ _ Hk Hb), Key_string_split.
  do 3 eexists. split; [done|].
  by rewrite !fixed_length, Key_string_length.
Qed.

(** The position of the specification's example: page index 3 and a
    first rectangle that starts at x = 12.7, y = 45.2. *)
Example sortIndex_example :
  sortIndex (Some 3) [[127 # 10; 452 # 10; 200 # 1; 300 # 1]%Q]
  = "00003|000045|00012".
Proof. reflexivity. Qed.

Lemma sortIndex_format_witness :
  ∃ p y x,
    split_on "|" (sortIndex (Some 3) [[127 # 10; 452 # 10; 200 # 1; 300 # 1]%Q])
    = [p; y; x]
    ∧ String.length p = 5%nat ∧ String.length y = 6%nat
    ∧ String.length x = 5%nat
    ∧ String.length
        (sortIndex (Some 3) [[127 # 10; 452 # 10; 200 # 1; 300 # 1]%Q])
      = 18%nat.
Proof.
  apply (sortIndex_format (Some 3) _ (mkKey 3 45 12)); [reflexivity|].
  unfold in_bounds; simpl; lia.
Defined.

(** C28 (a negative coordinate is not clamped).  A negative y is
    padded around its minus sign, and the keys of two positions on the
    same page with -10 < y1 < y2 < 0 compare in the reverse order of
    y1 and y2. *)
Theorem sortIndex_negative_reversed p x (y1 y2 : Q) r1 r2 rs1 rs2 :
  -10 < Qfloor y1 < Qfloor y2 → Qfloor y2 < 0 →
  String.compare (sortIndex p ((x :: y1 :: r1) :: rs1))
                 (sortIndex p ((x :: y2 :: r2) :: rs2)) = Gt.
Proof.
  intros Hy1 Hy2. rewrite !sortIndex_fields. simpl.
  rewrite compare_app, compare_refl by done. cbn [lexico_cmp].
  rewrite (compare_app "|" "|"), compare_refl by done. cbn [lexico_cmp].
  rewrite !(field_negative_digit 4) by lia.
  rewrite compare_app, compare_refl by done. cbn [lexico_cmp].
  rewrite compare_app, compare_refl, compare_cons by done. simpl.
  rewrite digit_char_compare by lia.
  by destruct (Z.compare_spec (- Qfloor y1) (- Qfloor y2)); try lia.
Qed.

Lemma sortIndex_negative_reversed_witness :
  String.compare (sortIndex (Some 0) [[0; -2; 1; 1]%Q])
                 (sortIndex (Some 0) [[0; -1; 1; 1]%Q]) = Gt.
Proof.
  apply (sortIndex_negative_reversed (Some 0) 0%Q (-2)%Q (-1)%Q [1; 1]%Q
           [1; 1]%Q [] []); vm_compute; by try split.
Defined.

(** C29 (a page index beyond the width is not rejected).  The page
    field of page index 100000 has six characters, and its key sorts
    before the key of every page index from 20000 to 99999 with the
    same rectangles. *)
Theorem sortIndex_overflow_reversed rects p :
  20000 ≤ p < 100000 →
  String.compare (sortIndex (Some 100000) rects) (sortIndex (Some p) rects)
  = Lt.
Proof.
  intros Hp. rewrite !sortIndex_fields, !js_or_Z_zero. simpl default.
  unfold field at 1 4. rewrite (padStart_Int 4 p), fixed_head by lia.
  change (padStart 5 "0" (js_String (Int 100000))) with "100000".
  rewrite !string_app_cons. simpl.
  assert (2 ≤ p / 10 ^ Z.of_nat 4 < 10) as Hd.
  { split; [apply Z.div_le_lower_bound|apply Z.div_lt_upper_bound]; lia. }
  rewrite Z.mod_small by lia.
  change "1"%char with (digit_char 1). rewrite digit_char_compare by lia.
  by destruct (Z.compare_spec 1 (p / 10 ^ Z.of_nat 4)); try lia.
Qed.

Lemma sortIndex_overflow_reversed_witness :
  String.compare (sortIndex (Some 100000) rects_y5)
                 (sortIndex (Some 99999) rects_y5) = Lt.
Proof. apply (sortIndex_overflow_reversed rects_y5 99999). lia. Defined.

(** C34 (keys are injective inside the bounds).  Two positions inside
    the bounds have the same key only if they have the same page index
    and the same floored x and y. *)
Theorem sortIndex_injective pa ra pb rb ka kb :
  key_of pa ra = Some ka → key_of pb rb = Some kb →
  in_bounds ka → in_bounds kb →
  sortIndex pa ra = sortIndex pb rb → ka = kb.
Proof.
  intros Ha Hb Hka Hkb Heq. apply Key_compare_Eq.
  rewrite <-Key_string_compare by done.
  rewrite <-(sortIndex_key _ _ _ Ha Hka), <-(sortIndex_key _ _ _ Hb Hkb), Heq.
  apply compare_refl.
Qed.

Lemma sortIndex_injective_witness : mkKey 1 5 0 = mkKey 1 5 0.
Proof.
  apply (sortIndex_injective (Some 1) rects_y5 (Some 1) [[1 # 2; 11 # 2]%Q]
           (mkKey 1 5 0) (mkKey 1 5 0)); try reflexivity;
    unfold in_bounds; simpl; lia.
Defined.

(** The key depends on the numbers only.  Rectangles whose
    coordinates are equal as rational numbers give the same key, in
    whatever way the numbers are written. *)
Theorem sortIndex_values_only pageIndex rs rs' :
  rects_equiv rs rs' → sortIndex pageIndex rs = sortIndex pageIndex rs'.
Proof. apply sortIndex_proper. Qed.

Lemma sortIndex_values_only_witness :
  sortIndex (Some 1) [[1 # 2; 3 # 1]%Q] = sortIndex (Some 1) [[2 # 4; 6 # 2]%Q].
Proof.
  apply (sortIndex_values_only (Some 1) [[1 # 2; 3 # 1]%Q] [[2 # 4; 6 # 2]%Q]).
  repeat constructor.
Defined.

(** C35 (a key reads back).  Inside the bounds the sort index splits at
    its bars into three fields that read back as the page index and
    the floored y and x of the first rectangle. *)
Theorem sortIndex_read_key pageIndex rects k :
  key_of pageIndex rects = Some k → in_bounds k →
  read_key (sortIndex pageIndex rects) = Some k.
Proof.
  intros Hk Hb. rewrite (sortIndex_key _ _ _ Hk Hb).
  by apply read_key_Key_string.
Qed.

Lemma sortIndex_read_key_witness :
  read_key (sortIndex (Some 1) rects_y5) = Some (mkKey 1 5 0).
Proof.
  apply (sortIndex_read_key (Some 1) rects_y5 (mkKey 1 5 0)); [reflexivity|].
  unfold in_bounds; simpl; lia.
Defined.

(** A key with a negative coordinate does not read back: the sign
    is in the middle of its field. *)
Lemma sortIndex_negative_unreadable :
  sortIndex (Some 0%Z) [[0; -3]%Q] = "00000|0000-3|00000"
  ∧ read_key (sortIndex (Some 0%Z) [[0; -3]%Q]) = None.
Proof. by vm_compute. Qed.

(** A first rectangle without coordinates is not treated as zero:
    [Math.floor(undefined)] is [NaN], and the key carries its name. *)
Lemma sortIndex_missing_coordinates :
  sortIndex (Some 0%Z) [[]] = "00000|000NaN|00NaN".
Proof. by vm_compute. Qed.
