(* ===== verification/Contrast.v ===== *)
(** * The text colour of a button

    [getContrastColor] of [src/modules/semanticColoring.ts], lines
    400-411, with the built-ins it calls: [substr], [parseInt] with
    radix 16, and the arithmetic of IEEE 754 doubles, for which the
    model uses Rocq's primitive floats.  The reference definition
    [brighter] is the test on the exact luminance, in integers.  The
    theorem [contrast_agrees] compares the two on every colour
    [#rrggbb]: they agree on all but one, [#da3af8], whose exact
    luminance is one half and whose sum of doubles rounds above it.
    The comparison is by evaluation of the two tests on the 2^24
    triples of channels ([all_agree]), with primitive integers and
    floats; [luminance_exact] carries the result to the integers of
    the model.  A
    colour that does not parse gets white text. *)

From Stdlib Require Import ZArith Lia Ascii Floats Uint63.
From stdpp Require Import base tactics option list strings.
From S2P Require Import Prelude JsString Registry.

#[local] Set Warnings "-inexact-float".

(** ** Built-ins *)

(** [s.substr(start, length)] for a start and a length that are not
    negative. *)
Definition substr (start length : nat) (s : string) : string :=
  String.substring start length s.

(** The value of a digit in radix 16. *)
Definition hex_val (c : ascii) : option Z :=
  let n := Z.of_nat (nat_of_ascii c) in
  if (48 <=? n)%Z && (n <=? 57)%Z then Some (n - 48)%Z
  else if (97 <=? n)%Z && (n <=? 102)%Z then Some (n - 87)%Z
  else if (65 <=? n)%Z && (n <=? 70)%Z then Some (n - 55)%Z
  else None.

(** The value of the longest prefix of [s] made of digits of radix 16,
    after the digits read so far; [None] when there is no digit. *)
Fixpoint hex_prefix (acc : option Z) (s : string) : option Z :=
  match s with
  | String c s' =>
      match hex_val c with
      | Some d => hex_prefix (Some (16 * default 0 acc + d)%Z) s'
      | None => acc
      end
  | EmptyString => acc
  end.

(** [parseInt(s, 16)]: leading white space, a sign and the prefix [0x]
    are skipped; the longest prefix of digits is read; without a digit
    the result is [NaN]. *)
Definition parseInt16 (s : string) : jsnum :=
  let s := trimStart s in
  let '(negative, s) :=
    match s with
    | String "-" s' => (true, s')
    | String "+" s' => (false, s')
    | _ => (false, s)
    end in
  let s :=
    match s with
    | String "0" (String "x" s') | String "0" (String "X" s') => s'
    | _ => s
    end in
  match hex_prefix None s with
  | Some n => Int (if negative : bool then - n else n)
  | None => NaN
  end.

(** A number as a double.  Integers below 2^53 in absolute value are
    exact; [parseInt] of two characters is below 256. *)
Definition toFloat (n : jsnum) : float :=
  match n with
  | Int z =>
      let m := of_uint63 (Uint63.of_Z (Z.abs z)) in
      if (z <? 0)%Z then (- m)%float else m
  | NaN => nan
  end.

(** ** The function *)

(** [(0.299 * r + 0.587 * g + 0.114 * b) / 255] on doubles. *)
Definition luminance (r g b : jsnum) : float :=
  ((0.299 * toFloat r + 0.587 * toFloat g + 0.114 * toFloat b) / 255)%float.

(** [getContrastColor(hexColor)]. *)
Definition getContrastColor (hexColor : string) : string :=
  let r := parseInt16 (substr 1 2 hexColor) in
  let g := parseInt16 (substr 3 2 hexColor) in
  let b := parseInt16 (substr 5 2 hexColor) in
  if (0.5 <? luminance r g b)%float then "#000000" else "#FFFFFF".

(** ** Reference definitions *)

(** The channels of a colour [#rrggbb]. *)
Definition channels (hexColor : string) : jsnum * jsnum * jsnum :=
  (parseInt16 (substr 1 2 hexColor), parseInt16 (substr 3 2 hexColor),
   parseInt16 (substr 5 2 hexColor)).

(** The luminance is above one half, in exact arithmetic:
    [(299 r + 587 g + 114 b) / 1000 / 255 > 1 / 2]. *)
Definition brighter (r g b : Z) : bool :=
  (127500 <? 299 * r + 587 * g + 114 * b)%Z.

(** The colour the exact test chooses. *)
Definition contrast_exact (r g b : Z) : string :=
  if brighter r g b then "#000000" else "#FFFFFF".

(** The colour on which the two tests differ. *)
Definition rounds_up (r g b : Z) : bool :=
  (r =? 218)%Z && (g =? 58)%Z && (b =? 248)%Z.

(** The colour the function chooses, from the exact luminance. *)
Definition contrast_of (r g b : Z) : string :=
  if brighter r g b || rounds_up r g b then "#000000" else "#FFFFFF".

(** [f] holds of [i], [i + 1], ..., [i + n - 1]. *)
Fixpoint all_from (n : nat) (i : int) (f : int → bool) : bool :=
  match n with
  | O => true
  | S n => if f i then all_from n (i + 1)%uint63 f else false
  end.

(** [P] holds of every triple of channels. *)
Definition all_channels (P : int → int → int → bool) : bool :=
  all_from 256 0 (λ r, all_from 256 0 (λ g, all_from 256 0 (P r g))).

(** The test on doubles and the exact test give the same answer for
    the channels [r], [g], [b], on primitive integers. *)
Definition agree (r g b : int) : bool :=
  Bool.eqb
    (0.5 <? (0.299 * of_uint63 r + 0.587 * of_uint63 g + 0.114 * of_uint63 b)
            / 255)%float
    ((127500 <? 299 * r + 587 * g + 114 * b)%uint63
     || ((r =? 218) && (g =? 58) && (b =? 248))%uint63).

(** A string [#rrggbb] from its six digits. *)
Definition hex6 (d1 d2 d3 d4 d5 d6 : ascii) : string :=
  String "#" (String d1 (String d2 (String d3 (String d4 (String d5
    (String d6 "")))))).

(** The digit of a value below 16, in lower case, and the colour
    [#rrggbb] of three channels below 256. *)
Definition hex_digit (n : Z) : ascii :=
  default "0"%char (String.get (Z.to_nat n) "0123456789abcdef").

Definition hex_color (r g b : Z) : string :=
  hex6 (hex_digit (r / 16)) (hex_digit (r mod 16))
       (hex_digit (g / 16)) (hex_digit (g mod 16))
       (hex_digit (b / 16)) (hex_digit (b mod 16)).

(** ** Lemmas *)

Lemma hex_val_range c d : hex_val c = Some d → (0 ≤ d < 16)%Z.
Proof. unfold hex_val. intros; repeat case_match; simplify_eq; lia. Qed.

Lemma hex_val_not_space c d : hex_val c = Some d → Ascii.is_space c = false.
Proof.
  destruct c as [[] [] [] [] [] [] [] []]; vm_compute; congruence.
Qed.

Lemma hex_val_not_sign c d :
  hex_val c = Some d → c ≠ "-"%char ∧ c ≠ "+"%char ∧ c ≠ "x"%char ∧ c ≠ "X"%char.
Proof.
  destruct c as [[] [] [] [] [] [] [] []]; vm_compute; intros; split_and!;
    congruence.
Qed.

(** Two digits parse to their value. *)
Lemma parseInt16_two c1 c2 d1 d2 :
  hex_val c1 = Some d1 → hex_val c2 = Some d2 →
  parseInt16 (String c1 (String c2 "")) = Int (16 * d1 + d2).
Proof.
  intros H1 H2. unfold parseInt16. simpl.
  rewrite (hex_val_not_space _ _ H1).
  destruct (hex_val_not_sign _ _ H1) as (? & ? & _).
  destruct (hex_val_not_sign _ _ H2) as (_ & _ & ? & ?).
  assert (Hs : ∀ s,
    (match String c1 s with
     | String "-" s' => (true, s')
     | String "+" s' => (false, s')
     | _ => (false, String c1 s)
     end) = (false, String c1 s)).
  { intros s. destruct c1 as [[] [] [] [] [] [] [] []]; done. }
  rewrite Hs.
  assert (Hx :
    (match String c1 (String c2 "") with
     | String "0" (String "x" s') | String "0" (String "X" s') => s'
     | _ => String c1 (String c2 "")
     end) = String c1 (String c2 "")).
  { destruct c1 as [[] [] [] [] [] [] [] []]; try done;
      destruct c2 as [[] [] [] [] [] [] [] []]; done. }
  rewrite Hx. simpl. rewrite H1, H2. simpl. f_equal; lia.
Qed.

(** The channels of a well-formed colour. *)
Lemma channels_hex6 c1 c2 c3 c4 c5 c6 d1 d2 d3 d4 d5 d6 :
  hex_val c1 = Some d1 → hex_val c2 = Some d2 → hex_val c3 = Some d3 →
  hex_val c4 = Some d4 → hex_val c5 = Some d5 → hex_val c6 = Some d6 →
  channels (hex6 c1 c2 c3 c4 c5 c6)
  = (Int (16 * d1 + d2), Int (16 * d3 + d4), Int (16 * d5 + d6)).
Proof.
  intros. unfold channels, hex6, substr. simpl.
  by rewrite !(parseInt16_two _ _ _ _) by eassumption.
Qed.

(** *** Not-a-number in the arithmetic of doubles *)

Definition is_NaN (x : float) : Prop := Prim2SF x = S754_nan.

Lemma mul_NaN x y : is_NaN y → is_NaN (x * y).
Proof.
  unfold is_NaN. intros H. rewrite FloatAxioms.mul_spec, H. by destruct (Prim2SF x).
Qed.

Lemma add_NaN_l x y : is_NaN x → is_NaN (x + y).
Proof. unfold is_NaN. intros H. by rewrite FloatAxioms.add_spec, H. Qed.

Lemma add_NaN_r x y : is_NaN y → is_NaN (x + y).
Proof.
  unfold is_NaN. intros H. rewrite FloatAxioms.add_spec, H. by destruct (Prim2SF x).
Qed.

Lemma div_NaN x y : is_NaN x → is_NaN (x / y).
Proof. unfold is_NaN. intros H. by rewrite FloatAxioms.div_spec, H. Qed.

Lemma ltb_NaN x y : is_NaN y → (x <? y)%float = false.
Proof.
  unfold is_NaN. intros H. rewrite FloatAxioms.ltb_spec, H. by destruct (Prim2SF x).
Qed.

Lemma toFloat_NaN : is_NaN (toFloat NaN).
Proof. done. Qed.

(** A channel that is not a number makes the luminance not a number. *)
Lemma luminance_NaN r g b :
  r = NaN ∨ g = NaN ∨ b = NaN → is_NaN (luminance r g b).
Proof.
  unfold luminance. intros H. apply div_NaN. destruct_or!; subst.
  - by apply add_NaN_l, add_NaN_l, mul_NaN.
  - by apply add_NaN_l, add_NaN_r, mul_NaN.
  - by apply add_NaN_r, mul_NaN.
Qed.

Lemma getContrastColor_channels hexColor :
  getContrastColor hexColor
  = let '(r, g, b) := channels hexColor in
    if (0.5 <? luminance r g b)%float then "#000000" else "#FFFFFF".
Proof. done. Qed.

(** A string that passes the registry's test is a [hex6]. *)
Lemma is_hex_color_hex6 s :
  is_hex_color s = true →
  ∃ c1 c2 c3 c4 c5 c6, s = hex6 c1 c2 c3 c4 c5 c6
    ∧ Forall (λ c, is_hex_digit c = true) [c1; c2; c3; c4; c5; c6].
Proof.
  destruct s as [|c0 s]; [done|].
  destruct c0 as [[] [] [] [] [] [] [] []]; try (intros; discriminate).
  destruct s as [|c1 [|c2 [|c3 [|c4 [|c5 [|c6 [|]]]]]]]; try done.
  unfold is_hex_color. rewrite forallb_forall. intros H.
  exists c1, c2, c3, c4, c5, c6. split; [done|].
  apply Forall_forall. intros c Hc. apply H. by apply list_elem_of_In.
Qed.

Lemma is_hex_digit_val c : is_hex_digit c = true → is_Some (hex_val c).
Proof.
  destruct c as [[] [] [] [] [] [] [] []]; vm_compute; (done || eauto).
Qed.

Lemma hex_val_digit n : (0 ≤ n < 16)%Z → hex_val (hex_digit n) = Some n.
Proof.
  intros Hn. rewrite <- (Z2Nat.id n) at 2 by lia. unfold hex_digit.
  assert (Z.to_nat n < 16)%nat as Hlt by lia. revert Hlt.
  generalize (Z.to_nat n). intros m Hm.
  do 16 (destruct m as [|m]; [done|]). lia.
Qed.

Lemma hex_val_hi r :
  (0 ≤ r < 256)%Z → hex_val (hex_digit (r / 16)) = Some (r / 16)%Z.
Proof.
  intros Hr. apply hex_val_digit. split; [apply Z.div_pos; lia|].
  apply Z.div_lt_upper_bound; lia.
Qed.

Lemma hex_val_lo r : hex_val (hex_digit (r mod 16)) = Some (r mod 16)%Z.
Proof. apply hex_val_digit. by apply Z.mod_pos_bound. Qed.

(** *** The two tests on every colour *)

#[local] Abbreviation wB := 9223372036854775808%Z (only parsing).

(** [lia] with the modulus of the primitive integers as a numeral. *)
#[local] Ltac wB_lia :=
  change Uint63Axioms.wB with wB in *; lia.

Lemma to_Z_small z : (0 ≤ z < wB)%Z → Uint63.to_Z (Uint63.of_Z z) = z.
Proof. intros Hz. rewrite Uint63.of_Z_spec. apply Z.mod_small. wB_lia. Qed.

Lemma all_from_sound n i f :
  (Uint63.to_Z i + Z.of_nat n < wB)%Z → all_from n i f = true →
  ∀ z, (Uint63.to_Z i ≤ z < Uint63.to_Z i + Z.of_nat n)%Z →
       f (Uint63.of_Z z) = true.
Proof.
  revert i. induction n as [|n IH]; intros i Hn Hall z Hz; [lia|].
  simpl in Hall. destruct (f i) eqn:Hi; [|done].
  pose proof (Uint63.to_Z_bounded i) as Hb.
  destruct (decide (z = Uint63.to_Z i)) as [->|Hne];
    [by rewrite Uint63.of_to_Z|].
  assert (Uint63.to_Z (i + 1) = Uint63.to_Z i + 1)%Z as Hs.
  { rewrite Uint63.add_spec, Uint63.to_Z_1. apply Z.mod_small. wB_lia. }
  apply (IH (i + 1)%uint63); [lia|done|lia].
Qed.

Lemma all_from_0 f z :
  all_from 256 0 f = true → (0 ≤ z < 256)%Z → f (Uint63.of_Z z) = true.
Proof.
  intros Hall Hz. apply (all_from_sound 256 0 f); [done|done|].
  change (Uint63.to_Z 0) with 0%Z. lia.
Qed.

(** The arithmetic of the check on primitive integers is the
    arithmetic of the exact test. *)
Lemma to_Z_sum r g b :
  (0 ≤ r < 256)%Z → (0 ≤ g < 256)%Z → (0 ≤ b < 256)%Z →
  Uint63.to_Z (299 * Uint63.of_Z r + 587 * Uint63.of_Z g
               + 114 * Uint63.of_Z b)
  = (299 * r + 587 * g + 114 * b)%Z.
Proof.
  intros Hr Hg Hb.
  rewrite !Uint63.add_spec, !Uint63.mul_spec, !to_Z_small by lia.
  change (Uint63.to_Z 299) with 299%Z. change (Uint63.to_Z 587) with 587%Z.
  change (Uint63.to_Z 114) with 114%Z.
  rewrite !(Z.mod_small (_ * _)) by wB_lia.
  rewrite (Z.mod_small (299 * r + 587 * g)) by wB_lia.
  apply Z.mod_small. wB_lia.
Qed.

Lemma eqb_of_Z z k :
  (0 ≤ z < 256)%Z → (0 ≤ k < 256)%Z →
  (Uint63.of_Z z =? Uint63.of_Z k)%uint63 = (z =? k)%Z.
Proof.
  intros Hz Hk. apply eq_true_iff_eq.
  rewrite Uint63.eqb_spec, Z.eqb_eq. split; [|by intros ->].
  intros Heq%(f_equal Uint63.to_Z). by rewrite !to_Z_small in Heq by lia.
Qed.

Lemma all_channels_sound P r g b :
  all_channels P = true →
  (0 ≤ r < 256)%Z → (0 ≤ g < 256)%Z → (0 ≤ b < 256)%Z →
  P (Uint63.of_Z r) (Uint63.of_Z g) (Uint63.of_Z b) = true.
Proof.
  unfold all_channels. intros Hc Hr Hg Hb.
  apply all_from_0 with (z := r) in Hc; [|done].
  apply all_from_0 with (z := g) in Hc; [|done].
  by apply all_from_0 with (z := b) in Hc.
Qed.

(** The two tests agree on the 2^24 triples of channels, but for
    (218, 58, 248): by evaluation. *)
Lemma all_agree : all_channels agree = true.
Proof. by vm_compute. Qed.

(** The same on the integers of the model. *)
Lemma luminance_exact r g b :
  (0 ≤ r < 256)%Z → (0 ≤ g < 256)%Z → (0 ≤ b < 256)%Z →
  (0.5 <? luminance (Int r) (Int g) (Int b))%float
  = brighter r g b || rounds_up r g b.
Proof.
  intros Hr Hg Hb.
  pose proof (all_channels_sound _ r g b all_agree Hr Hg Hb) as Hc.
  unfold agree in Hc. apply Bool.eqb_prop in Hc.
  unfold luminance, toFloat, brighter, rounds_up.
  rewrite !(proj2 (Z.ltb_ge _ 0)), !Z.abs_eq by lia. rewrite Hc.
  change 248%uint63 with (Uint63.of_Z 248).
  change 218%uint63 with (Uint63.of_Z 218).
  change 58%uint63 with (Uint63.of_Z 58).
  rewrite !eqb_of_Z by lia. f_equal.
  apply eq_true_iff_eq. by rewrite Uint63.ltb_spec, Z.ltb_lt, to_Z_sum.
Qed.

(** ** Properties *)

(** Channels of a well-formed colour.  For a string of the form
    [#rrggbb], the test the registry's colours pass, the three calls of
    [parseInt] return numbers, never [NaN], and each is between 0 and
    255. *)
Theorem channels_valid (s : string) :
  is_hex_color s = true →
  ∃ r g b, channels s = (Int r, Int g, Int b)
    ∧ Forall (λ v, 0 ≤ v ≤ 255)%Z [r; g; b].
Proof.
  intros (c1 & c2 & c3 & c4 & c5 & c6 & -> & Hd)%is_hex_color_hex6.
  repeat match goal with
  | H : Forall _ (_ :: _) |- _ =>
      apply Forall_cons in H as [[? ?]%is_hex_digit_val H]
  end.
  erewrite channels_hex6 by eassumption. do 3 eexists. split; [done|].
  repeat match goal with
  | H : hex_val _ = Some _ |- _ => apply hex_val_range in H
  end.
  repeat constructor; lia.
Qed.

Lemma channels_valid_witness :
  ∃ r g b, channels "#3498db" = (Int r, Int g, Int b)
    ∧ Forall (λ v, 0 ≤ v ≤ 255)%Z [r; g; b].
Proof. by apply (channels_valid "#3498db"). Defined.

(** C36 (the text colour of every colour).  For every colour
    [#rrggbb], written with the digits of its three channels,
    [getContrastColor] answers black when the exact luminance
    [(299 r + 587 g + 114 b) / 1000 / 255] is above one half and white
    when it is not, but for one colour: the luminance of [#da3af8] is
    exactly one half, the sum of the doubles rounds above it, and the
    answer is black. *)
Theorem contrast_agrees (r g b : Z) :
  (0 ≤ r < 256)%Z → (0 ≤ g < 256)%Z → (0 ≤ b < 256)%Z →
  getContrastColor (hex_color r g b) = contrast_of r g b.
Proof.
  intros Hr Hg Hb. rewrite getContrastColor_channels. unfold hex_color.
  erewrite channels_hex6 by eauto using hex_val_hi, hex_val_lo.
  rewrite <- !Z.div_mod by done.
  by rewrite luminance_exact.
Qed.

Lemma contrast_agrees_witness :
  getContrastColor "#da3af8" = "#000000"
  ∧ (299 * 218 + 587 * 58 + 114 * 248 = 127500)%Z.
Proof.
  split; [|done]. by apply (contrast_agrees 218 58 248).
Defined.

(** The text colours of the buttons: black for challenge, insight,
    method and quote, white for conclusion and question. *)
Example registry_text_colours :
  (λ e, (e.1, getContrastColor (color e.2))) <$> SEMANTIC_COLORS
  = [("challenge", "#000000"); ("insight", "#000000");
     ("method", "#000000"); ("conclusion", "#FFFFFF");
     ("question", "#FFFFFF"); ("quote", "#000000")].
Proof. by vm_compute. Qed.

(** A colour that does not parse.  When one of the three
    channels does not parse, the luminance is not a number, the
    comparison is false and the function answers white, without an
    error. *)
Theorem contrast_unparsed (hexColor : string) :
  (let '(r, g, b) := channels hexColor in r = NaN ∨ g = NaN ∨ b = NaN) →
  getContrastColor hexColor = "#FFFFFF".
Proof.
  rewrite getContrastColor_channels.
  destruct (channels hexColor) as [[r g] b]. intros H.
  by rewrite ltb_NaN by by apply luminance_NaN.
Qed.

Lemma contrast_unparsed_witness : getContrastColor "red" = "#FFFFFF".
Proof. apply (contrast_unparsed "red"). vm_compute. auto. Defined.
