(* ===== verification/Writer.v ===== *)
(** * The annotation writer

    [applySemanticColor] as a whole: the two guards (an active reader
    with an item, a PDF attachment), the position resolver, the sort
    index, the annotation item with its fields, the transactional
    save, the three log lines, the refocus, and the [catch] that turns
    an exception into a log entry and an error line.  The function
    returns nothing: what it did is read off the world.  It is written
    against the class [Host]; the theorems use the laws of the class
    only.  [wf_annotation] is the well-formedness of an annotation
    item, which every annotation the function adds has. *)

From Stdlib Require Import ZArith QArith Lia Ascii.
From stdpp Require Import base tactics option list strings gmap.
From S2P Require Import Prelude JsString Registry Reader Host MapStore.
From S2P Require Import Resolver SortKey.

#[local] Close Scope Q_scope.

(** The double quote of the last log line. *)
Definition dquote : string := String "034"%char "".

(** The annotation item the function fills in, lines 252-262. *)
Definition annotationItem_of (item : Item.t) (selectedText : option string)
    (semanticColor : SemanticColor) (position : Position.t)
    (rects : list Rect) (pageLabel : option string) : AnnotationItem.t :=
  {| AnnotationItem.libraryID := Item.libraryID item;
     AnnotationItem.parentID := Item.id item;
     AnnotationItem.annotationType := "highlight";
     AnnotationItem.annotationText := selectedText;
     AnnotationItem.annotationComment := "[" +:+ name semanticColor +:+ "]";
     AnnotationItem.annotationColor := color semanticColor;
     AnnotationItem.annotationPosition := position;
     AnnotationItem.annotationPageLabel := js_or pageLabel "1";
     AnnotationItem.annotationSortIndex :=
       sortIndex (Position.pageIndex position) rects |}.

(** The text of the last log line, line 268. *)
Definition applied_message (semanticColor : SemanticColor) (text : string)
    : string :=
  "Applied semantic color " +:+ name semanticColor +:+ " ("
  +:+ color semanticColor +:+ ") to text: " +:+ dquote +:+ text +:+ "..."
  +:+ dquote.

(** The reader and item identifier the first guard lets through. *)
Definition active_reader (reader : option Reader.t) : option (Reader.t * Z) :=
  r ← reader; i ← Reader.itemID r; if truthy i then Some (r, i) else None.

(** The annotation the function saves for the locals [st]. *)
Definition annotation_for (it : Item.t) (t : option string)
    (c : SemanticColor) (st : Locals) : option AnnotationItem.t :=
  p ← position st; rs ← Position.rects p;
  Some (annotationItem_of it t c p rs (pageLabel st)).

(** The log lines after a save. *)
Definition saved_logs (a : AnnotationItem.t) (id : Z) : list (list LogArg) :=
  [ [LStr "Annotation position:"; LJson (AnnotationItem.annotationPosition a)];
    [LStr "Annotation created:"; LId id] ].

(** The exception of [selectedText.substring] on [undefined].  Its
    message stands for the text the engine gives its [TypeError]; the
    theorems depend on it only through [error_log] and [error_line]. *)
Definition undefined_text : Error := TypeError "selectedText is undefined".

(** The log entry and the error line of the [catch]. *)
Definition error_log (e : Error) : list LogArg :=
  [LStr ("Error applying semantic color: " +:+ Error_toString e)].
Definition error_line (e : Error) : ProgressLine :=
  {| text := "Error applying color: " +:+ message e; type := "error" |}.

(** What a call did, as the specification classifies it: the three
    failures before any write, the failure of the save, and success;
    [SavedThenFailed] is the case the code adds, an annotation saved
    and then an exception. *)
Inductive Outcome : Type :=
  | NoActiveReader
  | UnsupportedItem
  | NoGeometry
  | PersistenceFailure (e : Error)
  | SavedThenFailed (id : Z) (a : AnnotationItem.t) (e : Error)
  | Saved (id : Z) (a : AnnotationItem.t).

(** The annotation a call saved, if any. *)
Definition saved_annotation (o : Outcome) : option (Z * AnnotationItem.t) :=
  match o with
  | Saved id a | SavedThenFailed id a _ => Some (id, a)
  | _ => None
  end.

(** What the host can rely on in an annotation the plugin writes: it
    is a highlight, its page label is not empty, its comment is a
    bracketed tag, its position has an array of rectangles, and its
    sort index has three fields of at least 5, 6 and 5 characters. *)
Definition wf_annotation (a : AnnotationItem.t) : Prop :=
  AnnotationItem.annotationType a = "highlight"
  ∧ AnnotationItem.annotationPageLabel a ≠ ""
  ∧ (∃ tag, AnnotationItem.annotationComment a = "[" +:+ tag +:+ "]")
  ∧ is_Some (Position.rects (AnnotationItem.annotationPosition a))
  ∧ ∃ p y x,
      split_on "|" (AnnotationItem.annotationSortIndex a) = [p; y; x]
      ∧ (5 ≤ String.length p ∧ 6 ≤ String.length y ∧ 5 ≤ String.length x)%nat.

(** The error line a call shows, if any. *)
Definition shown_line (o : Outcome) : option ProgressLine :=
  match o with
  | NoGeometry => Some no_position_line
  | PersistenceFailure e | SavedThenFailed _ _ e => Some (error_line e)
  | _ => None
  end.

Section writer.
Context `{Host store}.

(** [Zotero.Items.get(id)]. *)
Definition Items_get_M (id : Z) : M store (option Item.t) :=
  w ← get; mret (Items_get (host w) id).

(** [await annotationItem.saveTx()]: the store changes only when the
    save succeeds (the law of a transaction, on the side of the
    host).  The call is made at line 264 and the host completes the
    transaction before the function goes on: the store changes where
    the function is resumed, which file [Async] makes a turn of its
    own. *)
Definition saveTx_M (a : AnnotationItem.t) : M store Z :=
  λ w, match saveTx a (host w) with
       | inl e => (Throw e, w)
       | inr (id, s') => (Ok id, set_host s' w)
       end.

(** Lines 243-271: what the function does once it has a position.
    The second log line prints [annotationItem.id], which after the
    save is the identifier [saveTx] returned. *)
Definition writeAnnotation (reader : Reader.t) (item : Item.t)
    (selectedText : option string) (semanticColor : SemanticColor)
    (st : Locals) : M store unit :=
  match position st with
  | None => mthrow (TypeError "position is null")
  | Some position =>
      match Position.rects position with
      | None => mthrow (TypeError "position.rects is undefined")
      | Some rects =>
          let annotationItem :=
            annotationItem_of item selectedText semanticColor position rects
              (pageLabel st) in
          annotationID ← saveTx_M annotationItem;
          log [LStr "Annotation position:"; LJson position];;
          log [LStr "Annotation created:"; LId annotationID];;
          text ← match selectedText with
                 | Some t => mret (substring 0 50 t)
                 | None => mthrow (TypeError "selectedText is undefined")
                 end;
          log [LStr (applied_message semanticColor text)];;
          focus reader
      end
  end.

(** The [catch] of the function, lines 272-280.  What is thrown is an
    [Error] object, as the host and the engine throw: [error.message]
    at line 276 is defined and the handler itself does not throw. *)
Definition onError (error : Error) : M store unit :=
  log [LStr ("Error applying semantic color: " +:+ Error_toString error)];;
  showError ("Error applying color: " +:+ message error).

(** [applySemanticColor(reader, selectedText, semanticKey, semanticColor)]. *)
Definition applySemanticColor (reader : option Reader.t)
    (selectedText : option string) (semanticKey : string)
    (semanticColor : SemanticColor) : M store unit :=
  match reader ≫= λ r, (r,.) <$> Reader.itemID r with
  | Some (reader, itemID) =>
      if truthy itemID then
        try_catch
          (item ← Items_get_M itemID;
           match item with
           | Some item =>
               if Item.isPDFAttachment item then
                 r ← resolvePosition (Reader._internalReader reader);
                 match r with
                 | Some st =>
                     writeAnnotation reader item selectedText semanticColor st
                 | None => mret tt
                 end
               else log [LStr "Current item is not a PDF attachment"]
           | None => log [LStr "Current item is not a PDF attachment"]
           end)
          onError
      else log [LStr "No active reader found or invalid item ID"]
  | None => log [LStr "No active reader found or invalid item ID"]
  end.

(** The PDF attachment the second guard lets through. *)
Definition pdf_item (w : World store) (itemID : Z) : option Item.t :=
  it ← Items_get (host w) itemID;
  if Item.isPDFAttachment it then Some it else None.

(** The outcome of a call, from what the call reads. *)
Definition outcome (reader : option Reader.t) (t : option string)
    (c : SemanticColor) (w : World store) : Outcome :=
  match active_reader reader with
  | None => NoActiveReader
  | Some (r, i) =>
      match pdf_item w i with
      | None => UnsupportedItem
      | Some it =>
          match first_source (Reader._internalReader r) (semanticColors w)
                  ≫= annotation_for it t c with
          | None => NoGeometry
          | Some a =>
              match saveTx a (host w) with
              | inl e => PersistenceFailure e
              | inr (id, _) =>
                  match t with
                  | Some _ => Saved id a
                  | None => SavedThenFailed id a undefined_text
                  end
              end
          end
      end
  end.

(** The outcome of a call and the world it leaves. *)
Inductive apply_spec (reader : option Reader.t) (t : option string)
    (c : SemanticColor) (w : World store) : Outcome → World store → Prop :=
  | apply_spec_inactive :
      active_reader reader = None →
      apply_spec reader t c w NoActiveReader
        (output [[LStr "No active reader found or invalid item ID"]] [] w)
  | apply_spec_not_pdf r i :
      active_reader reader = Some (r, i) → pdf_item w i = None →
      apply_spec reader t c w UnsupportedItem
        (output [[LStr "Current item is not a PDF attachment"]] [] w)
  | apply_spec_no_geometry r i it :
      active_reader reader = Some (r, i) → pdf_item w i = Some it →
      first_source (Reader._internalReader r) (semanticColors w) = None →
      apply_spec reader t c w NoGeometry
        (output (resolve_logs (Reader._internalReader r)) [no_position_line] w)
  | apply_spec_failed r i it st a e :
      active_reader reader = Some (r, i) → pdf_item w i = Some it →
      first_source (Reader._internalReader r) (semanticColors w) = Some st →
      annotation_for it t c st = Some a → saveTx a (host w) = inl e →
      apply_spec reader t c w (PersistenceFailure e)
        (output (resolve_logs (Reader._internalReader r) ++ [error_log e])
           [error_line e] w)
  | apply_spec_saved_no_text r i it st a id s' :
      active_reader reader = Some (r, i) → pdf_item w i = Some it →
      first_source (Reader._internalReader r) (semanticColors w) = Some st →
      annotation_for it t c st = Some a → saveTx a (host w) = inr (id, s') →
      t = None →
      apply_spec reader t c w (SavedThenFailed id a undefined_text)
        (output (resolve_logs (Reader._internalReader r) ++ saved_logs a id
                 ++ [error_log undefined_text])
           [error_line undefined_text] (set_host s' w))
  | apply_spec_saved r i it st a id s' txt :
      active_reader reader = Some (r, i) → pdf_item w i = Some it →
      first_source (Reader._internalReader r) (semanticColors w) = Some st →
      annotation_for it t c st = Some a → saveTx a (host w) = inr (id, s') →
      t = Some txt →
      apply_spec reader t c w (Saved id a)
        (add_focus (Reader._instanceID r)
           (output (resolve_logs (Reader._internalReader r) ++ saved_logs a id
                    ++ [[LStr (applied_message c (substring 0 50 txt))]])
              [] (set_host s' w))).

End writer.

(** ** Lemmas *)

Section writer_lemmas.
Context `{Host store}.
Implicit Types (w : World store).

Lemma run_Items_get_M id w : Items_get_M id w = (Ok (Items_get (host w) id), w).
Proof. done. Qed.

Lemma run_saveTx_M a w :
  saveTx_M a w
  = match saveTx a (host w) with
    | inl e => (Throw e, w)
    | inr (id, s') => (Ok id, set_host s' w)
    end.
Proof. done. Qed.

Lemma run_onError e w :
  onError e w
  = (Ok tt,
     output [[LStr ("Error applying semantic color: " +:+ Error_toString e)]]
       [{| text := "Error applying color: " +:+ message e; type := "error" |}] w).
Proof. unfold onError. by m_simpl. Qed.

Lemma apply_inactive reader t k c w :
  active_reader reader = None →
  applySemanticColor reader t k c w
  = (Ok tt, output [[LStr "No active reader found or invalid item ID"]] [] w).
Proof.
  unfold active_reader, applySemanticColor.
  destruct reader as [[[i|] ir rid]|]; simpl; try (by m_simpl).
  destruct (truthy i); [done|]. by m_simpl.
Qed.

Lemma apply_not_pdf reader r i t k c w :
  active_reader reader = Some (r, i) → pdf_item w i = None →
  applySemanticColor reader t k c w
  = (Ok tt, output [[LStr "Current item is not a PDF attachment"]] [] w).
Proof.
  unfold active_reader, applySemanticColor, pdf_item.
  destruct reader as [[[i'|] ir rid]|]; simpl; try done.
  destruct (truthy i') eqn:Hi; [|done]. intros [= <- <-].
  rewrite run_try_catch, run_bind, run_Items_get_M.
  destruct (Items_get (host w) i') as [it|]; simpl; [|by m_simpl].
  destruct (Item.isPDFAttachment it); [done|]. by m_simpl.
Qed.

(** Past the two guards, the function is the resolver followed by
    [writeAnnotation], under the [catch]. *)
Lemma apply_active reader r i it t k c w :
  active_reader reader = Some (r, i) → pdf_item w i = Some it →
  applySemanticColor reader t k c w
  = try_catch
      (st ← resolvePosition (Reader._internalReader r);
       match st with
       | Some st => writeAnnotation r it t c st
       | None => mret tt
       end) onError w.
Proof.
  unfold active_reader, applySemanticColor, pdf_item.
  destruct reader as [[[i'|] ir rid]|]; simpl; try done.
  destruct (truthy i') eqn:Hi; [|done]. intros [= <- <-].
  rewrite !run_try_catch, run_bind, run_Items_get_M.
  destruct (Items_get (host w) i') as [it'|]; simpl; [|done].
  destruct (Item.isPDFAttachment it'); [|done]. by intros [= ->].
Qed.

Lemma run_writeAnnotation r it t c st a w :
  annotation_for it t c st = Some a →
  writeAnnotation r it t c st w
  = match saveTx a (host w) with
    | inl e => (Throw e, w)
    | inr (id, s') =>
        match t with
        | Some txt =>
            (Ok tt,
             add_focus (Reader._instanceID r)
               (output (saved_logs a id
                        ++ [[LStr (applied_message c (substring 0 50 txt))]])
                  [] (set_host s' w)))
        | None =>
            (Throw undefined_text, output (saved_logs a id) [] (set_host s' w))
        end
    end.
Proof.
  unfold annotation_for, writeAnnotation.
  destruct (position st) as [p|]; simpl; [|done].
  destruct (Position.rects p) as [rs|]; simpl; [|done]. intros [= <-].
  rewrite run_bind, run_saveTx_M.
  destruct (saveTx _ (host w)) as [e|[id s']]; [done|].
  destruct t as [txt|]; by m_simpl.
Qed.

Lemma first_source_annotation ir cap st it t c :
  first_source ir cap = Some st → is_Some (annotation_for it t c st).
Proof.
  intros (p & rs & Hp & Hr)%first_source_rects.
  unfold annotation_for. rewrite Hp. simpl. rewrite Hr. by eexists.
Qed.

Section cases.
Context (reader : option Reader.t) (r : Reader.t) (i : Z) (it : Item.t)
  (t : option string) (k : string) (c : SemanticColor) (w : World store).
Context (Hactive : active_reader reader = Some (r, i))
  (Hpdf : pdf_item w i = Some it).
#[local] Abbreviation ir := (Reader._internalReader r).

Lemma apply_no_geometry :
  first_source ir (semanticColors w) = None →
  applySemanticColor reader t k c w
  = (Ok tt, output (resolve_logs ir) [no_position_line] w).
Proof.
  intros Hsrc. rewrite (apply_active _ _ _ _ _ _ _ _ Hactive Hpdf).
  rewrite run_try_catch, run_bind, resolvePosition_run.
  unfold resolve_progress. by rewrite Hsrc.
Qed.

Context (st : Locals) (a : AnnotationItem.t).
Context (Hsrc : first_source ir (semanticColors w) = Some st)
  (Ha : annotation_for it t c st = Some a).

Lemma apply_resolved :
  applySemanticColor reader t k c w
  = try_catch (writeAnnotation r it t c st) onError
      (output (resolve_logs ir) [] w).
Proof.
  rewrite (apply_active _ _ _ _ _ _ _ _ Hactive Hpdf).
  rewrite !run_try_catch, run_bind, resolvePosition_run.
  unfold resolve_progress. by rewrite Hsrc.
Qed.

Lemma apply_save_failed e :
  saveTx a (host w) = inl e →
  applySemanticColor reader t k c w
  = (Ok tt, output (resolve_logs ir ++ [error_log e]) [error_line e] w).
Proof.
  intros Hsave. rewrite apply_resolved, run_try_catch.
  rewrite (run_writeAnnotation _ _ _ _ _ a) by done. simpl. rewrite Hsave.
  rewrite run_onError. by m_simpl.
Qed.

Lemma apply_saved id s' txt :
  saveTx a (host w) = inr (id, s') → t = Some txt →
  applySemanticColor reader t k c w
  = (Ok tt,
     add_focus (Reader._instanceID r)
       (output (resolve_logs ir ++ saved_logs a id
                ++ [[LStr (applied_message c (substring 0 50 txt))]])
          [] (set_host s' w))).
Proof.
  intros Hsave Ht. rewrite apply_resolved, run_try_catch.
  rewrite (run_writeAnnotation _ _ _ _ _ a) by done. simpl.
  rewrite Hsave, Ht. by m_simpl.
Qed.

Lemma apply_saved_no_text id s' :
  saveTx a (host w) = inr (id, s') → t = None →
  applySemanticColor reader t k c w
  = (Ok tt,
     output (resolve_logs ir ++ saved_logs a id ++ [error_log undefined_text])
       [error_line undefined_text] (set_host s' w)).
Proof.
  intros Hsave Ht. rewrite apply_resolved, run_try_catch.
  rewrite (run_writeAnnotation _ _ _ _ _ a) by done. simpl.
  rewrite Hsave, Ht, run_onError. by m_simpl.
Qed.
End cases.


Lemma apply_run reader t k c w :
  ∃ w', applySemanticColor reader t k c w = (Ok tt, w')
        ∧ apply_spec reader t c w (outcome reader t c w) w'.
Proof.
  unfold outcome.
  destruct (active_reader reader) as [[r i]|] eqn:Hact;
    [|eauto using apply_inactive, apply_spec].
  destruct (pdf_item w i) as [it|] eqn:Hpdf;
    [|eauto using apply_not_pdf, apply_spec].
  destruct (first_source _ _) as [st|] eqn:Hsrc; simpl;
    [|eauto using apply_no_geometry, apply_spec].
  destruct (first_source_annotation _ _ _ it t c Hsrc) as [a Ha]. rewrite Ha.
  destruct (saveTx a (host w)) as [e|[id s']] eqn:Hsave;
    [eauto using apply_save_failed, apply_spec|].
  destruct t as [txt|] eqn:Ht;
    eauto using apply_saved, apply_saved_no_text, apply_spec.
Qed.
Lemma active_reader_Some reader r i :
  active_reader reader = Some (r, i) → reader = Some r ∧ Reader.itemID r = Some i.
Proof.
  unfold active_reader. destruct reader as [[[i'|] ir rid]|]; simpl; try done.
  destruct (truthy i'); [|done]. by intros [= <- <-].
Qed.

Lemma apply_spec_host reader t c w o w' :
  apply_spec reader t c w o w' →
  annotations (host w') = annotations (host w) ++ option_list (saved_annotation o)
  ∧ (saved_annotation o = None → host w' = host w).
Proof.
  destruct 1; simpl; rewrite ?app_nil_r; try done.
  all: split; [by eapply saveTx_annotations|done].
Qed.

Lemma apply_spec_progress reader t c w o w' :
  apply_spec reader t c w o w' →
  progress w' = progress w ++ option_list (shown_line o).
Proof. destruct 1; simpl; by rewrite ?app_nil_r. Qed.

Lemma apply_spec_focused reader t c w o w' :
  apply_spec reader t c w o w' →
  focused w' = focused w
               ++ match o, reader with
                  | Saved _ _, Some r => [Reader._instanceID r]
                  | _, _ => []
                  end.
Proof.
  destruct 1; simpl; rewrite ?app_nil_r; try done.
  by destruct (active_reader_Some _ _ _ H0) as [-> _].
Qed.

Lemma apply_spec_capture reader t c w o w' :
  apply_spec reader t c w o w' → semanticColors w' = semanticColors w.
Proof. by destruct 1. Qed.

Lemma apply_spec_ui reader t c w o w' :
  apply_spec reader t c w o w' → ui w' = ui w.
Proof. by destruct 1. Qed.

(** A call keeps the identifiers of the annotations distinct. *)
Lemma apply_spec_ids reader t c w o w' :
  apply_spec reader t c w o w' →
  NoDup (annotations (host w)).*1 → NoDup (annotations (host w')).*1.
Proof.
  intros Hspec Hnd. inversion Hspec; subst; simpl; try done.
  all: erewrite saveTx_annotations by done.
  all: rewrite fmap_app; apply NoDup_app; split_and!;
    [done| |apply NoDup_singleton].
  all: intros x Hx ->%list_elem_of_singleton.
  all: by eapply saveTx_fresh.
Qed.

(** The outcome depends on the store and on the cache only. *)
Lemma outcome_ext reader t c w1 w2 :
  host w1 = host w2 → semanticColors w1 = semanticColors w2 →
  outcome reader t c w1 = outcome reader t c w2.
Proof. unfold outcome, pdf_item. by intros -> ->. Qed.

(** The outcome of a call that saves for a defined text. *)
Lemma outcome_saved reader txt c w r i it st a id s' :
  active_reader reader = Some (r, i) → pdf_item w i = Some it →
  first_source (Reader._internalReader r) (semanticColors w) = Some st →
  annotation_for it (Some txt) c st = Some a →
  saveTx a (host w) = inr (id, s') →
  outcome reader (Some txt) c w = Saved id a.
Proof.
  unfold outcome. intros -> -> -> Ha Hs. simpl. by rewrite Ha, Hs.
Qed.

(** The world a saving call leaves. *)
Lemma apply_spec_Saved_inv reader t c w id a w' :
  apply_spec reader t c w (Saved id a) w' →
  ∃ r i s' txt,
    active_reader reader = Some (r, i) ∧ saveTx a (host w) = inr (id, s')
    ∧ t = Some txt
    ∧ w' = add_focus (Reader._instanceID r)
             (output (resolve_logs (Reader._internalReader r)
                      ++ saved_logs a id
                      ++ [[LStr (applied_message c (substring 0 50 txt))]])
                [] (set_host s' w)).
Proof. inversion 1; subst. by eexists _, _, _, _. Qed.

(** The annotation item the function builds is well formed when the
    position it is built for has the rectangles it is given. *)
Lemma annotationItem_of_wf it t c p rs pl :
  Position.rects p = Some rs → wf_annotation (annotationItem_of it t c p rs pl).
Proof.
  intros Hr. unfold wf_annotation. simpl. rewrite Hr, sortIndex_split.
  split_and!; [done|by apply js_or_string_nonempty|by eexists|by eexists|].
  do 3 eexists. split; [done|]. split_and!; apply field_length.
Qed.

(** An annotation that a call added is the one of its outcome. *)
Lemma apply_added reader t k c w id a :
  annotations (host (applySemanticColor reader t k c w).2)
  = annotations (host w) ++ [(id, a)] →
  saved_annotation (outcome reader t c w) = Some (id, a).
Proof.
  destruct (apply_run reader t k c w) as (w' & -> & Hs). simpl.
  destruct (apply_spec_host _ _ _ _ _ _ Hs) as [-> _].
  intros Heq%app_inv_head.
  destruct (saved_annotation _) as [[]|]; simpl in Heq; by simplify_eq.
Qed.

(** The fields of a saved annotation, from what the call read. *)
Lemma outcome_saved_inv reader t c w id a :
  saved_annotation (outcome reader t c w) = Some (id, a) →
  ∃ r i it st p rs,
    active_reader reader = Some (r, i) ∧ pdf_item w i = Some it
    ∧ first_source (Reader._internalReader r) (semanticColors w) = Some st
    ∧ position st = Some p ∧ Position.rects p = Some rs
    ∧ a = {| AnnotationItem.libraryID := Item.libraryID it;
             AnnotationItem.parentID := Item.id it;
             AnnotationItem.annotationType := "highlight";
             AnnotationItem.annotationText := t;
             AnnotationItem.annotationComment := "[" +:+ name c +:+ "]";
             AnnotationItem.annotationColor := color c;
             AnnotationItem.annotationPosition := p;
             AnnotationItem.annotationPageLabel := js_or (pageLabel st) "1";
             AnnotationItem.annotationSortIndex :=
               sortIndex (Position.pageIndex p) rs |}.
Proof.
  unfold outcome.
  destruct (active_reader reader) as [[r i]|] eqn:Hact; [|done].
  destruct (pdf_item w i) as [it|] eqn:Hpdf; [|done].
  destruct (first_source _ _) as [st|] eqn:Hsrc; simpl; [|done].
  destruct (first_source_rects _ _ _ Hsrc) as (p & rs & Hp & Hr).
  unfold annotation_for. rewrite Hp. simpl. rewrite Hr. simpl.
  destruct (saveTx _ (host w)) as [e|[id' s']]; [done|].
  destruct t; intros [= <- <-]; by exists r, i, it, st, p, rs.
Qed.

End writer_lemmas.

(** ** Examples *)

(** A store with one PDF attachment, a reader on it with the two
    selection ranges of the resolver's example, and the category
    "insight". *)
Definition pdf : Item.t := Item.mk 10 1 true.
Definition store0 : MapStore := mkStore {[10%Z := pdf]} [] true.
Definition reader0 : Reader.t := Reader.mk (Some 10%Z) two_ranges "reader-1".
Definition world0 : World MapStore :=
  mkWorld store0 [] [] [] (Capture.mk (Some "selected") None) [].
Definition insight : SemanticColor :=
  {| name := "Insight"; color := "#2ecc71";
     description := "Mark key insights or findings" |}.
Definition annotation0 (t : option string) : AnnotationItem.t :=
  {| AnnotationItem.libraryID := 1;
     AnnotationItem.parentID := 10;
     AnnotationItem.annotationType := "highlight";
     AnnotationItem.annotationText := t;
     AnnotationItem.annotationComment := "[Insight]";
     AnnotationItem.annotationColor := "#2ecc71";
     AnnotationItem.annotationPosition :=
       Position.mk (Some 2%Z) (Some [rect_a; rect_b]);
     AnnotationItem.annotationPageLabel := "3";
     AnnotationItem.annotationSortIndex := "00002|000002|00001" |}.

(** ** Properties *)

Section properties.
Context `{Host store}.
Implicit Types (w : World store).

(** C1 (a successful call).  When the call has an active reader on a
    PDF attachment, a source of geometry, a save that succeeds and a
    defined text, it returns normally, the store holds exactly one
    more annotation (the one built from the category and the resolved
    position, under the identifier the host gave), no error line is
    shown, and the reader is asked to focus once. *)
Theorem apply_saved_annotation reader t k c w id a :
  outcome reader t c w = Saved id a →
  let r := applySemanticColor reader t k c w in
  r.1 = Ok tt
  ∧ annotations (host r.2) = annotations (host w) ++ [(id, a)]
  ∧ progress r.2 = progress w
  ∧ ∃ rd, reader = Some rd ∧ focused r.2 = focused w ++ [Reader._instanceID rd].
Proof.
  intros Ho. destruct (apply_run reader t k c w) as (w' & Hrun & Hspec).
  rewrite Ho in Hspec. simpl. rewrite Hrun. simpl.
  rewrite (proj1 (apply_spec_host _ _ _ _ _ _ Hspec)).
  rewrite (apply_spec_progress _ _ _ _ _ _ Hspec), app_nil_r.
  rewrite (apply_spec_focused _ _ _ _ _ _ Hspec).
  inversion Hspec as [| | | | |r ? ? ? ? ? ? ? Hact]; subst.
  destruct (active_reader_Some _ _ _ Hact) as [-> _]. eauto 10.
Qed.

(** C2 (the fields of the annotation).  An annotation that a call of
    [applySemanticColor] adds to the store has type "highlight", the
    text the call was given, the category's name in brackets as
    comment, the category's colour, the item of the reader as parent,
    the position of the first source that offers one, the page label
    of that source or "1", and the sort index of that position. *)
Theorem saved_annotation_fields reader t k c w id a :
  annotations (host (applySemanticColor reader t k c w).2)
  = annotations (host w) ++ [(id, a)] →
  ∃ r i it st p rs,
    active_reader reader = Some (r, i) ∧ pdf_item w i = Some it
    ∧ first_source (Reader._internalReader r) (semanticColors w) = Some st
    ∧ position st = Some p ∧ Position.rects p = Some rs
    ∧ a = {| AnnotationItem.libraryID := Item.libraryID it;
             AnnotationItem.parentID := Item.id it;
             AnnotationItem.annotationType := "highlight";
             AnnotationItem.annotationText := t;
             AnnotationItem.annotationComment := "[" +:+ name c +:+ "]";
             AnnotationItem.annotationColor := color c;
             AnnotationItem.annotationPosition := p;
             AnnotationItem.annotationPageLabel := js_or (pageLabel st) "1";
             AnnotationItem.annotationSortIndex :=
               sortIndex (Position.pageIndex p) rs |}.
Proof. intros Ha%apply_added. by apply outcome_saved_inv with id. Qed.

(** C15 (annotations are well formed).  Every annotation that a call of
    [applySemanticColor] adds to the store, on every input, is a
    highlight with a page label that is not empty, a bracketed comment,
    a position that has an array of rectangles (which may be empty,
    see [Resolver.resolve_tier3_empty_rects]), and a sort index of
    three bar-separated fields of at least 5, 6 and 5 characters. *)
Theorem apply_wellformed reader t k c w id a :
  annotations (host (applySemanticColor reader t k c w).2)
  = annotations (host w) ++ [(id, a)] →
  wf_annotation a.
Proof.
  intros Ha%apply_added.
  apply outcome_saved_inv in Ha as (_ & _ & it & st & p & rs & _ & _ & _ & _ & Hr & ->).
  by apply (annotationItem_of_wf it t c p rs (pageLabel st)).
Qed.

(** C6 (one annotation at most, and none on failure).  A call adds to
    the store the annotation of its outcome and nothing else: after a
    failure before the save, or a failed save, the store is the one
    before the call; the cache is never changed. *)
Theorem apply_at_most_one reader t k c w :
  let r := applySemanticColor reader t k c w in
  annotations (host r.2)
  = annotations (host w) ++ option_list (saved_annotation (outcome reader t c w))
  ∧ (saved_annotation (outcome reader t c w) = None → host r.2 = host w)
  ∧ semanticColors r.2 = semanticColors w.
Proof.
  destruct (apply_run reader t k c w) as (w' & Hrun & Hspec).
  simpl. rewrite Hrun. simpl.
  destruct (apply_spec_host _ _ _ _ _ _ Hspec).
  eauto using apply_spec_capture.
Qed.

(** C7 (no exception escapes).  [applySemanticColor] returns normally
    in every world: an exception of the save, or of the code after it,
    is caught and reported. *)
Theorem apply_never_throws reader t k c :
  no_throw (applySemanticColor reader t k c).
Proof.
  intros w. destruct (apply_run reader t k c w) as (w' & -> & _). by eexists.
Qed.

(** C20 (an annotation saved and reported as an error).  When the text
    passed to the call is [undefined] and everything else succeeds, the
    annotation is saved, and then the line for the log throws: the user
    sees "Error applying color", and the reader is not asked to
    focus. *)
Theorem apply_saved_then_failed reader k c w id a e :
  outcome reader None c w = SavedThenFailed id a e →
  let r := applySemanticColor reader None k c w in
  annotations (host r.2) = annotations (host w) ++ [(id, a)]
  ∧ progress r.2 = progress w ++ [error_line undefined_text]
  ∧ focused r.2 = focused w.
Proof.
  intros Ho. destruct (apply_run reader None k c w) as (w' & Hrun & Hspec).
  rewrite Ho in Hspec. simpl. rewrite Hrun. simpl.
  rewrite (proj1 (apply_spec_host _ _ _ _ _ _ Hspec)).
  rewrite (apply_spec_progress _ _ _ _ _ _ Hspec).
  rewrite (apply_spec_focused _ _ _ _ _ _ Hspec), app_nil_r.
  by inversion Hspec.
Qed.

(** C21 (two failures are silent).  Without an active reader, or when
    the reader's item is not a PDF attachment, the call shows no line
    to the user: it adds one log entry and changes nothing else,
    neither the store nor the focus requests, the cache or the user
    interface. *)
Theorem apply_silent_failures reader t k c w :
  outcome reader t c w = NoActiveReader
  ∨ outcome reader t c w = UnsupportedItem →
  let r := applySemanticColor reader t k c w in
  progress r.2 = progress w ∧ host r.2 = host w
  ∧ focused r.2 = focused w ∧ semanticColors r.2 = semanticColors w
  ∧ ui r.2 = ui w
  ∧ ∃ entry, logs r.2 = logs w ++ [entry].
Proof.
  intros Ho. destruct (apply_run reader t k c w) as (w' & Hrun & Hspec).
  simpl. rewrite Hrun. simpl.
  destruct Ho as [Ho|Ho]; rewrite Ho in Hspec; inversion Hspec; simpl;
    rewrite ?app_nil_r; split_and!; eauto.
Qed.

(** C22 (the error lines).  The lines a call shows to the user are
    those of its outcome: "Please select text in the PDF first" when
    no source offers a position, "Error applying color: ..." with the
    message of the exception when the save or the code after it
    throws, and none otherwise. *)
Theorem apply_error_lines reader t k c w :
  progress (applySemanticColor reader t k c w).2
  = progress w ++ option_list (shown_line (outcome reader t c w)).
Proof.
  destruct (apply_run reader t k c w) as (w' & -> & Hspec).
  by apply apply_spec_progress in Hspec.
Qed.

(** Identifiers stay unique.  If the annotations of the store
    have distinct identifiers before a call, they have distinct
    identifiers after it. *)
Theorem apply_ids_unique reader t k c w :
  NoDup (annotations (host w)).*1 →
  NoDup (annotations (host (applySemanticColor reader t k c w).2)).*1.
Proof.
  intros Hnd. destruct (apply_run reader t k c w) as (w' & -> & Hspec).
  by eapply apply_spec_ids.
Qed.

(** The category key is not looked up: the call does the same for
    every key, the category it applies is the one passed along with the
    key, and a key that is not in the registry is not refused. *)
Lemma apply_key_unused reader t k k' c w :
  applySemanticColor reader t k c w = applySemanticColor reader t k' c w.
Proof. done. Qed.

(** The category "insight".  An annotation saved for the
    registry's category "insight" has the comment "[Insight]", the
    colour "#2ecc71" and the type "highlight". *)
Theorem apply_insight reader t w id a c :
  lookup "insight" = Some c →
  saved_annotation (outcome reader t c w) = Some (id, a) →
  AnnotationItem.annotationComment a = "[Insight]"
  ∧ AnnotationItem.annotationColor a = "#2ecc71"
  ∧ AnnotationItem.annotationType a = "highlight".
Proof.
  intros [= <-] Ha.
  by apply outcome_saved_inv in Ha
    as (r & i & it & st & p & rs & _ & _ & _ & _ & _ & ->).
Qed.
End properties.

(** ** Witnesses *)

Lemma apply_saved_annotation_witness :
  let r := applySemanticColor (Some reader0) (Some "selected text") "insight"
             insight world0 in
  r.1 = Ok tt
  ∧ annotations (host r.2)
    = annotations (host world0) ++ [(11%Z, annotation0 (Some "selected text"))]
  ∧ progress r.2 = progress world0
  ∧ ∃ rd, Some reader0 = Some rd
          ∧ focused r.2 = focused world0 ++ [Reader._instanceID rd].
Proof.
  apply (apply_saved_annotation (Some reader0) (Some "selected text")
           "insight" insight world0 11%Z (annotation0 (Some "selected text"))).
  reflexivity.
Defined.

Lemma saved_annotation_fields_witness :
  ∃ r i it st p rs,
    active_reader (Some reader0) = Some (r, i) ∧ pdf_item world0 i = Some it
    ∧ first_source (Reader._internalReader r) (semanticColors world0) = Some st
    ∧ position st = Some p ∧ Position.rects p = Some rs
    ∧ annotation0 (Some "selected text")
      = {| AnnotationItem.libraryID := Item.libraryID it;
           AnnotationItem.parentID := Item.id it;
           AnnotationItem.annotationType := "highlight";
           AnnotationItem.annotationText := Some "selected text";
           AnnotationItem.annotationComment := "[" +:+ name insight +:+ "]";
           AnnotationItem.annotationColor := color insight;
           AnnotationItem.annotationPosition := p;
           AnnotationItem.annotationPageLabel := js_or (pageLabel st) "1";
           AnnotationItem.annotationSortIndex :=
             sortIndex (Position.pageIndex p) rs |}.
Proof.
  apply (saved_annotation_fields (Some reader0) (Some "selected text")
           "insight" insight world0 11%Z (annotation0 (Some "selected text"))).
  by vm_compute.
Defined.

Lemma apply_wellformed_witness :
  wf_annotation (annotation0 (Some "selected text")).
Proof.
  apply (apply_wellformed (Some reader0) (Some "selected text") "insight"
           insight world0 11%Z (annotation0 (Some "selected text"))).
  by vm_compute.
Defined.

Lemma apply_saved_then_failed_witness :
  let r := applySemanticColor (Some reader0) None "insight" insight world0 in
  annotations (host r.2) = annotations (host world0) ++ [(11%Z, annotation0 None)]
  ∧ progress r.2 = progress world0 ++ [error_line undefined_text]
  ∧ focused r.2 = focused world0.
Proof.
  apply (apply_saved_then_failed (Some reader0) "insight" insight world0 11%Z
           (annotation0 None) undefined_text).
  reflexivity.
Defined.

Lemma apply_silent_failures_witness :
  let r := applySemanticColor None (Some "text") "insight" insight world0 in
  progress r.2 = progress world0 ∧ host r.2 = host world0
  ∧ focused r.2 = focused world0
  ∧ semanticColors r.2 = semanticColors world0 ∧ ui r.2 = ui world0
  ∧ ∃ entry, logs r.2 = logs world0 ++ [entry].
Proof.
  apply (apply_silent_failures None (Some "text") "insight" insight world0).
  left. reflexivity.
Defined.

Lemma apply_ids_unique_witness :
  NoDup (annotations (host (applySemanticColor (Some reader0)
           (Some "selected text") "insight" insight world0).2)).*1.
Proof.
  apply (apply_ids_unique (Some reader0) (Some "selected text") "insight"
           insight world0).
  apply NoDup_nil_2.
Defined.

Lemma apply_insight_witness :
  AnnotationItem.annotationComment (annotation0 (Some "selected text"))
  = "[Insight]"
  ∧ AnnotationItem.annotationColor (annotation0 (Some "selected text"))
    = "#2ecc71"
  ∧ AnnotationItem.annotationType (annotation0 (Some "selected text"))
    = "highlight".
Proof.
  apply (apply_insight (Some reader0) (Some "selected text") world0 11%Z
           (annotation0 (Some "selected text")) insight); reflexivity.
Defined.
