(* ===== verification/Popup.v ===== *)
(** * The popup of a text selection

    [buildSemanticColoringPopup] of [src/modules/semanticColoring.ts],
    lines 284-386: on a [renderTextSelectionPopup] event it captures the
    text and the position of the selection into
    [addon.data.semanticColors], builds one button per category of the
    registry and appends the container to the popup.  The click
    listener of a button is [runListener] on [PopupClick]: it calls
    [applySemanticColor] with the text the cache holds when it runs and
    hides the popup.  [updateSemanticColoringPopup] and
    [setupPDFSelectionCapture], lines 388-397, do nothing.

    The reference definitions [capture_of] and [build_logs] say what an
    event does to the cache and to the log; [build_run] is the
    equation of the whole function; [wf_capture] is the form of the
    cache that the capture rules keep.  The theorems state the capture
    rules, what a click does, and the path from an event to a saved
    annotation. *)

From Stdlib Require Import ZArith QArith Lia.
From stdpp Require Import base tactics option list strings gmap.
From S2P Require Import Prelude JsString Registry Reader Dom Host MapStore.
From S2P Require Import Resolver.
From S2P Require Import SortKey Contrast Writer.

#[local] Close Scope Q_scope.

(** The parameter of the listener: [{ reader, doc, params, append }].
    [annotation] is [params.annotation]; [popup] is the element
    [doc.querySelector(".selection-popup")] finds, if any; [append] is
    the call [Append] of the user interface. *)
Module PopupEvent.
Record t : Type := mk {
  reader : Reader.t;
  annotation : option Selection.t;
  popup : option Z;
}.
End PopupEvent.

(** ** The elements *)

(** The button of a category, lines 345-379. *)
Definition button (reader : Reader.t) (popup : option Z)
    (entry : string * SemanticColor) : Element.t :=
  let '(key, semanticColor) := entry in
  {| Element.tag := "button";
     Element.namespace := Some "html";
     Element.id :=
       "semantic-color-" +:+ key +:+ "-" +:+ Reader._instanceID reader;
     Element.classList := [];
     Element.styles :=
       [("backgroundColor", color semanticColor);
        ("color", getContrastColor (color semanticColor));
        ("border", "none"); ("borderRadius", "4px");
        ("padding", "4px 8px"); ("margin", "1px 0");
        ("cursor", "pointer"); ("fontSize", "11px");
        ("textAlign", "center"); ("width", "100%")];
     Element.properties :=
       [("innerText", PStr (name semanticColor));
        ("title", PStr (description semanticColor))];
     Element.listeners :=
       [("click", PopupClick reader key semanticColor popup)] |}.

(** The container, lines 321-381: the buttons in the order of
    [Object.entries(SEMANTIC_COLORS)]. *)
Definition semanticColorContainer (reader : Reader.t) (popup : option Z)
    : Container.t :=
  {| Container.tag := "div";
     Container.id :=
       Some ("semantic-color-container-" +:+ Reader._instanceID reader);
     Container.classList := ["semantic-color-container"];
     Container.styles :=
       [("display", "flex"); ("flexDirection", "column");
        ("alignItems", "stretch"); ("gap", "4px")];
     Container.children := button reader popup <$> SEMANTIC_COLORS |}.

(** ** The function *)

Section popup.
Context {store : Type}.

(** Lines 295-303 and lines 309-316 are two copies of the same two
    rules, with different log messages: a text that is not empty
    replaces the cached text, and a selection that has a position
    replaces the cached pending annotation. *)
Definition captureSelection (textLabel positionLabel : string)
    (selection : Selection.t) : M store unit :=
  match Selection.text selection with
  | Some text =>
      if truthy text then
        setSelectedText text;;
        log [LStr textLabel; LStr (substring 0 50 text)]
      else mret tt
  | None => mret tt
  end;;
  match Selection.position selection with
  | Some position =>
      setPendingAnnotation selection;;
      log [LStr positionLabel; LJson position]
  | None => mret tt
  end.

(** [buildSemanticColoringPopup(event)]. *)
Definition buildSemanticColoringPopup (event : PopupEvent.t) : M store unit :=
  let reader := PopupEvent.reader event in
  let annotation := PopupEvent.annotation event in
  let popup := PopupEvent.popup event in
  log [LStr "Building semantic coloring popup"];;
  match annotation with
  | Some annotation =>
      captureSelection "Captured selected text:"
        "Captured annotation position:" annotation
  | None =>
      match Reader._internalReader reader ≫= InternalReader._currentSelection
      with
      | Some currentSelection =>
          captureSelection "Captured selected text from internal reader:"
            "Captured position from internal reader:" currentSelection
      | None => mret tt
      end
  end;;
  log [LStr "Appending semantic color container to popup"];;
  uiCall (Append (semanticColorContainer reader popup)).

(** [updateSemanticColoringPopup()], lines 388-391, and
    [setupPDFSelectionCapture()], lines 393-397: both bodies are
    empty. *)
Definition updateSemanticColoringPopup : M store unit := mret tt.
Definition setupPDFSelectionCapture : M store unit := mret tt.

Context `{!Host store}.

(** What a listener does when it runs.  For a popup button, lines
    368-376; for the buttons of the prompt, lines 99-102 and 127-129. *)
Definition runListener (l : Listener) : M store unit :=
  match l with
  | PopupClick reader key semanticColor popup =>
      uiCall StopPropagation;;
      log [LStr ("Clicked semantic color: " +:+ name semanticColor +:+ " ("
                 +:+ color semanticColor +:+ ")")];;
      capture ← getCapture;
      applySemanticColor (Some reader) (Capture.selectedText capture) key
        semanticColor;;
      match popup with
      | Some popup => uiCall (HidePopup popup)
      | None => mret tt
      end
  | PromptClick reader selectedText key semanticColor =>
      applySemanticColor reader (Some selectedText) key semanticColor;;
      uiCall Confirm
  | PromptCancel => uiCall Confirm
  end.
End popup.

(** ** Reference definitions *)

(** The selection an event captures from: the payload when there is
    one, else the current selection of the reader. *)
Definition capture_source (event : PopupEvent.t) : option Selection.t :=
  match PopupEvent.annotation event with
  | Some annotation => Some annotation
  | None =>
      Reader._internalReader (PopupEvent.reader event)
        ≫= InternalReader._currentSelection
  end.

(** The cache after capturing from [selection]. *)
Definition captured (selection : Selection.t) (c : Capture.t) : Capture.t :=
  {| Capture.selectedText :=
       if truthy (Selection.text selection) then Selection.text selection
       else Capture.selectedText c;
     Capture.pendingAnnotation :=
       match Selection.position selection with
       | Some _ => Some selection
       | None => Capture.pendingAnnotation c
       end |}.

(** The cache after an event. *)
Definition capture_of (event : PopupEvent.t) (c : Capture.t) : Capture.t :=
  match capture_source event with
  | Some selection => captured selection c
  | None => c
  end.

(** A cache is well formed when its text, if it has one, is not
    empty, and its pending annotation, if it has one, has a
    position. *)
Definition wf_capture (c : Capture.t) : Prop :=
  Capture.selectedText c ≠ Some ""
  ∧ ∀ selection, Capture.pendingAnnotation c = Some selection →
                 is_Some (Selection.position selection).

(** The log entries of a capture. *)
Definition capture_logs (textLabel positionLabel : string)
    (selection : Selection.t) : list (list LogArg) :=
  match Selection.text selection with
  | Some text =>
      if truthy text then [[LStr textLabel; LStr (substring 0 50 text)]]
      else []
  | None => []
  end
  ++ match Selection.position selection with
     | Some position => [[LStr positionLabel; LJson position]]
     | None => []
     end.

(** The log entries of an event. *)
Definition build_logs (event : PopupEvent.t) : list (list LogArg) :=
  [[LStr "Building semantic coloring popup"]]
  ++ match PopupEvent.annotation event with
     | Some annotation =>
         capture_logs "Captured selected text:"
           "Captured annotation position:" annotation
     | None =>
         match capture_source event with
         | Some currentSelection =>
             capture_logs "Captured selected text from internal reader:"
               "Captured position from internal reader:" currentSelection
         | None => []
         end
     end
  ++ [[LStr "Appending semantic color container to popup"]].

(** The log entry of a click. *)
Definition clicked_log (c : SemanticColor) : list LogArg :=
  [LStr ("Clicked semantic color: " +:+ name c +:+ " (" +:+ color c +:+ ")")].

(** The world in which a click calls [applySemanticColor]. *)
Definition clicked {store} (c : SemanticColor) (w : World store)
    : World store :=
  add_ui StopPropagation (output [clicked_log c] [] w).

(** The popup hidden, when the event had one. *)
Definition hide {store} (popup : option Z) (w : World store) : World store :=
  match popup with
  | Some popup => add_ui (HidePopup popup) w
  | None => w
  end.

(** The containers appended to popups so far. *)
Definition appended {store} (w : World store) : list Container.t :=
  omap (λ c, match c with Append node => Some node | _ => None end) (ui w).

(** The click listeners of a container's buttons. *)
Definition click_listeners (node : Container.t) : list Listener :=
  b ← Container.children node;
  omap (λ tl, if decide (tl.1 = "click") then Some tl.2 else None)
    (Element.listeners b).

(** The listeners a click can run: those of the buttons of the
    containers appended so far. *)
Definition clickable {store} (w : World store) (l : Listener) : Prop :=
  Exists (λ node, l ∈ click_listeners node) (appended w).

(** The world after an event. *)
Definition built {store} (event : PopupEvent.t) (w : World store)
    : World store :=
  add_ui (Append (semanticColorContainer (PopupEvent.reader event)
                    (PopupEvent.popup event)))
    (output (build_logs event) []
       (set_semanticColors (capture_of event (semanticColors w)) w)).

(** ** Lemmas *)

(** The capture rules keep the cache well formed. *)
Lemma captured_wf selection c : wf_capture c → wf_capture (captured selection c).
Proof.
  intros [Ht Hp]. split; simpl.
  - by destruct (Selection.text selection) as [[|a t]|].
  - destruct (Selection.position selection) eqn:Hs; [|done].
    intros ? [= <-]. by rewrite Hs.
Qed.

Lemma capture_of_wf event c : wf_capture c → wf_capture (capture_of event c).
Proof.
  unfold capture_of. destruct (capture_source event); [|done].
  apply captured_wf.
Qed.

Section popup_lemmas.
Context {store : Type}.
Implicit Types (w : World store).

Lemma captureSelection_run textLabel positionLabel selection w :
  captureSelection textLabel positionLabel selection w
  = (Ok tt, output (capture_logs textLabel positionLabel selection) []
              (set_semanticColors (captured selection (semanticColors w)) w)).
Proof.
  unfold captureSelection, capture_logs, captured.
  by destruct selection as [[[|c text]|] [position|] pageIndex]; m_simpl.
Qed.

(** The equation of [buildSemanticColoringPopup]. *)
Lemma build_run event w :
  buildSemanticColoringPopup event w = (Ok tt, built event w).
Proof.
  unfold buildSemanticColoringPopup, built, build_logs, capture_of,
    capture_source.
  destruct (PopupEvent.annotation event) as [annotation|];
    [|destruct (Reader._internalReader _ ≫= InternalReader._currentSelection)
        as [currentSelection|]]; m_simpl;
    rewrite ?captureSelection_run; m_simpl;
    by rewrite ?set_semanticColors_same.
Qed.
End popup_lemmas.

Section click_lemmas.
Context `{Host store}.
Implicit Types (w : World store).

(** The equation of a click on a popup button: the call of
    [applySemanticColor] is made with the text the cache holds in the
    world of the click. *)
Lemma popupClick_run reader key c popup w :
  let t := Capture.selectedText (semanticColors w) in
  ∃ w', runListener (PopupClick reader key c popup) w = (Ok tt, hide popup w')
        ∧ apply_spec (Some reader) t c (clicked c w)
            (outcome (Some reader) t c w) w'.
Proof.
  intros t. subst t. unfold runListener.
  destruct (apply_run (Some reader) (Capture.selectedText (semanticColors w))
              key c (clicked c w)) as (w' & Hrun & Hs).
  exists w'. rewrite (outcome_ext _ _ _ (clicked c w) w) in Hs by done.
  split; [|done]. m_simpl.
  change (add_ui StopPropagation (output _ [] w)) with (clicked c w).
  rewrite Hrun. by destruct popup.
Qed.

End click_lemmas.

(** The click listeners of a container carry the entries of the
    registry, in order. *)
Lemma container_listeners reader popup :
  click_listeners (semanticColorContainer reader popup)
  = (λ e, PopupClick reader e.1 e.2 popup) <$> SEMANTIC_COLORS.
Proof. done. Qed.

Lemma container_listener_inv reader popup l :
  l ∈ click_listeners (semanticColorContainer reader popup) →
  ∃ key c, (key, c) ∈ SEMANTIC_COLORS ∧ l = PopupClick reader key c popup.
Proof.
  rewrite container_listeners.
  intros ([key c] & -> & Hin)%list_elem_of_fmap. eauto.
Qed.

#[export] Instance clickable_dec {store} (w : World store) l :
  Decision (clickable w l).
Proof. unfold clickable. apply _. Defined.

Section path_lemmas.
Context `{Host store}.
Implicit Types (w : World store).

(** A click reads the store and the cache an event left. *)
Lemma outcome_built reader t c event w :
  outcome reader t c (built event w)
  = outcome reader t c (set_semanticColors
                          (capture_of event (semanticColors w)) w).
Proof. by apply outcome_ext. Qed.

(** The text in the cache after an event that has one. *)
Lemma capture_of_text event c0 txt :
  capture_source event ≫= Selection.text = Some txt → truthy txt = true →
  Capture.selectedText (capture_of event c0) = Some txt.
Proof.
  unfold capture_of. destruct (capture_source event) as [s|]; [|done].
  simpl. intros -> Ht. simpl. by rewrite Ht.
Qed.

(** The source of geometry after an event whose payload has a
    position, for a reader that offers none. *)
Lemma first_source_captured event ir c0 a p rs :
  PopupEvent.annotation event = Some a →
  Selection.position a = Some p → Position.rects p = Some rs →
  source1 ir = None → source2 ir = None →
  first_source ir (capture_of event c0)
  = Some (mkLocals (Some p)
            (Some (js_String (Int (js_or (Position.pageIndex p) 0 + 1)%Z)))).
Proof.
  unfold first_source, capture_of, capture_source, source3.
  intros -> Hp Hr -> ->. simpl. rewrite Hp. simpl. rewrite Hp. simpl.
  by rewrite Hr.
Qed.

(** The annotation a click saved is the one of its outcome. *)
Lemma click_saved reader key c popup w w' id a :
  runListener (PopupClick reader key c popup) w = (Ok tt, w') →
  annotations (host w') = annotations (host w) ++ [(id, a)] →
  saved_annotation
    (outcome (Some reader) (Capture.selectedText (semanticColors w)) c w)
  = Some (id, a).
Proof.
  destruct (popupClick_run reader key c popup w) as (w1 & -> & Hs).
  intros [= <-]. destruct (apply_spec_host _ _ _ _ _ _ Hs) as [Ha _].
  replace (host (hide popup w1)) with (host w1) by by destruct popup.
  rewrite Ha. simpl. intros Heq%app_inv_head.
  destruct (saved_annotation _) as [[]|]; simpl in Heq; by simplify_eq.
Qed.
End path_lemmas.

(** The identifiers of the buttons of a container are distinct. *)
Lemma button_ids_NoDup reader popup :
  NoDup (Element.id
           <$> Container.children (semanticColorContainer reader popup)).
Proof.
  cbn. rewrite ?string_app_cons, ?string_app_nil_l.
  repeat (apply NoDup_cons_2;
    [rewrite ?not_elem_of_cons; split_and?; try apply not_elem_of_nil;
     congruence|]).
  apply NoDup_nil_2.
Qed.

(** ** Examples *)

(** An event whose payload has a text and a position with one
    rectangle, for a reader that exposes no selection of its own; and
    a later event with another text. *)
Definition reader1 : Reader.t := Reader.mk (Some 10%Z) None "reader-1".
Definition payload (text : string) : Selection.t :=
  Selection.mk (Some text) (Some (Position.mk (Some 4%Z) (Some [rect_a])))
    None.
Definition event1 : PopupEvent.t :=
  PopupEvent.mk reader1 (Some (payload "first selection")) (Some 7%Z).
Definition event2 : PopupEvent.t :=
  PopupEvent.mk reader1 (Some (payload "second selection")) (Some 8%Z).
Definition world1 : World MapStore :=
  mkWorld store0 [] [] [] Capture.empty [].

(** ** Properties *)

Section popup_properties.
Context `{Host store}.
Implicit Types (w : World store).

(** C10 (what an event captures).  [buildSemanticColoringPopup]
    returns normally in every world.  It captures from the payload of
    the event when there is one and from the reader's current
    selection otherwise, never from both: a text that is not empty
    replaces the cached text, a selection with a position replaces
    the cached pending annotation, and what the source lacks is left
    as it was.  It appends one container to the popup, shows no line
    to the user and leaves the store alone. *)
Theorem build_capture (event : PopupEvent.t) w :
  ∃ w', buildSemanticColoringPopup event w = (Ok tt, w')
    ∧ semanticColors w' = capture_of event (semanticColors w)
    ∧ host w' = host w ∧ progress w' = progress w ∧ focused w' = focused w
    ∧ logs w' = logs w ++ build_logs event
    ∧ ui w' = ui w ++ [Append (semanticColorContainer
                                 (PopupEvent.reader event)
                                 (PopupEvent.popup event))].
Proof.
  exists (built event w). rewrite build_run. split_and!; try done.
  simpl. by rewrite app_nil_r.
Qed.

(** C19 (what a click does).  The click listener of a popup button
    returns normally in every world.  It calls [applySemanticColor]
    for the reader and the category of its button with the text the
    cache holds when the click runs; the store gains the annotation of
    that call's outcome and nothing else; then the popup of the event
    is hidden, whatever the outcome was. *)
Theorem click_applies (reader : Reader.t) (key : string) (c : SemanticColor)
    (popup : option Z) w :
  let o := outcome (Some reader) (Capture.selectedText (semanticColors w))
             c w in
  ∃ w', runListener (PopupClick reader key c popup) w = (Ok tt, w')
    ∧ annotations (host w')
      = annotations (host w) ++ option_list (saved_annotation o)
    ∧ progress w' = progress w ++ option_list (shown_line o)
    ∧ semanticColors w' = semanticColors w
    ∧ ui w' = ui w ++ StopPropagation
                      :: match popup with
                         | Some p => [HidePopup p]
                         | None => []
                         end.
Proof.
  intros o. destruct (popupClick_run reader key c popup w) as (w' & -> & Hs).
  exists (hide popup w').
  destruct (apply_spec_host _ _ _ _ _ _ Hs) as [Ha _].
  pose proof (apply_spec_progress _ _ _ _ _ _ Hs) as Hp.
  pose proof (apply_spec_capture _ _ _ _ _ _ Hs) as Hc.
  pose proof (apply_spec_ui _ _ _ _ _ _ Hs) as Hu.
  simpl in Ha, Hp, Hc, Hu. rewrite app_nil_r in Hp.
  destruct popup; simpl; rewrite ?Hu, <- ?app_assoc; by split_and!.
Qed.
(** C9 (from a selection to an annotation).  An event whose payload
    has a text and a position, for a reader on a PDF attachment that
    offers no selection of its own, followed by a click on the button
    of a category: the store gains one highlight with the text and the
    position of the payload, the name and the colour of the category,
    and the page label of the position's page; no error line is shown
    and the reader is asked to focus. *)
Theorem popup_click_saves (event : PopupEvent.t) (key : string)
    (c : SemanticColor) w a txt p rs i it id s' :
  let reader := PopupEvent.reader event in
  let item :=
    annotationItem_of it (Some txt) c p rs
      (Some (js_String (Int (js_or (Position.pageIndex p) 0 + 1)%Z))) in
  PopupEvent.annotation event = Some a →
  Selection.text a = Some txt → truthy txt = true →
  Selection.position a = Some p → Position.rects p = Some rs →
  source1 (Reader._internalReader reader) = None →
  source2 (Reader._internalReader reader) = None →
  active_reader (Some reader) = Some (reader, i) → pdf_item w i = Some it →
  saveTx item (host w) = inr (id, s') →
  ∃ w', (buildSemanticColoringPopup event;;
         runListener (PopupClick reader key c (PopupEvent.popup event))) w
        = (Ok tt, w')
    ∧ annotations (host w') = annotations (host w) ++ [(id, item)]
    ∧ progress w' = progress w
    ∧ focused w' = focused w ++ [Reader._instanceID reader].
Proof.
  intros reader item Hev Ht Htt Hp Hr H1 H2 Hact Hpdf Hsave.
  rewrite run_bind, build_run.
  destruct (popupClick_run reader key c (PopupEvent.popup event)
              (built event w)) as (w' & -> & Hs).
  exists (hide (PopupEvent.popup event) w'). split; [done|].
  cbn [built semanticColors add_ui output set_semanticColors] in Hs.
  rewrite (capture_of_text event _ txt) in Hs;
    [|by unfold capture_source; rewrite Hev|done].
  rewrite outcome_built in Hs.
  erewrite outcome_saved in Hs;
    [|done|done|by eapply first_source_captured
     |by unfold annotation_for; simpl; rewrite Hr|done].
  apply apply_spec_Saved_inv in Hs as (r & i' & s'' & txt' & Hact' & Hs' & _ & ->).
  change (saveTx item (host w) = inr (id, s'')) in Hs'. simplify_eq.
  destruct (PopupEvent.popup event); simpl; rewrite ?app_nil_r;
    split_and!; try done; by eapply saveTx_annotations.
Qed.

(** C23 (a click applies the newest capture).  A button keeps the
    reader of the event that built it, not the text: when a second
    event has replaced the cached text, an annotation saved by a click
    on a button of the first popup has the text of the second event. *)
Theorem click_after_new_capture (first second : PopupEvent.t) (key : string)
    (c : SemanticColor) w w' txt id a :
  capture_source second ≫= Selection.text = Some txt → truthy txt = true →
  (buildSemanticColoringPopup first;;
   buildSemanticColoringPopup second;;
   runListener
     (PopupClick (PopupEvent.reader first) key c (PopupEvent.popup first))) w
  = (Ok tt, w') →
  annotations (host w') = annotations (host w) ++ [(id, a)] →
  AnnotationItem.annotationText a = Some txt.
Proof.
  intros Hs Ht Hrun Ha.
  do 2 (rewrite run_bind, build_run in Hrun; cbn beta iota in Hrun).
  apply (click_saved _ _ _ _ _ _ id a) in Hrun; [|done].
  apply outcome_saved_inv in Hrun as (? & ? & ? & ? & ? & ? & _ & _ & _ & _ & _ & ->).
  simpl. by apply capture_of_text.
Qed.
End popup_properties.

Lemma popup_click_saves_witness :
  ∃ w', (buildSemanticColoringPopup event1;;
         runListener (PopupClick reader1 "insight" insight (Some 7%Z))) world1
        = (Ok tt, w')
    ∧ annotations (host w')
      = [(11%Z, annotationItem_of pdf (Some "first selection") insight
                  (Position.mk (Some 4%Z) (Some [rect_a])) [rect_a]
                  (Some "5"))]
    ∧ progress w' = []
    ∧ focused w' = ["reader-1"].
Proof.
  refine (popup_click_saves event1 "insight" insight world1
            (payload "first selection") "first selection"
            (Position.mk (Some 4%Z) (Some [rect_a])) [rect_a] 10%Z pdf
            11%Z (mkStore {[10%Z := pdf]}
                    [(11%Z, annotationItem_of pdf (Some "first selection")
                              insight
                              (Position.mk (Some 4%Z) (Some [rect_a]))
                              [rect_a] (Some "5"))] true)
            _ _ _ _ _ _ _ _ _ _); by vm_compute.
Defined.

Lemma click_after_new_capture_witness :
  AnnotationItem.annotationText
    (annotationItem_of pdf (Some "second selection") insight
       (Position.mk (Some 4%Z) (Some [rect_a])) [rect_a] (Some "5"))
  = Some "second selection".
Proof.
  refine (click_after_new_capture event1 event2 "insight" insight world1
            (runListener (PopupClick reader1 "insight" insight (Some 7%Z))
               (built event2 (built event1 world1))).2
            "second selection" 11%Z _ _ _ _ _); by vm_compute.
Defined.
