(* ===== verification/Prompt.v ===== *)
(** * The prompt command

    [registerSemanticColoringPrompt] of
    [src/modules/semanticColoring.ts], lines 44-138: the [when] test of
    the command and its [callback], which fills the commands container
    of the prompt with one button per category and a cancel button.
    What the buttons do when clicked is [runListener] of file [Popup],
    on [PromptClick] and [PromptCancel].  [Zotero.Reader.getReader()]
    is a parameter of both functions: the reader the host answers
    with.  The registration itself is one call into the toolkit.  No
    hook of [src/hooks.ts] calls it, so the transition system of file
    [Hooks] has no action for the prompt.  The theorem is about the
    buttons [callback] builds: they apply the text that [callback]
    read. *)

From Stdlib Require Import ZArith QArith Lia.
From stdpp Require Import base tactics option list strings gmap.
From S2P Require Import Prelude JsString Registry Reader Dom Host MapStore.
From S2P Require Import Resolver SortKey Contrast Writer Popup.

#[local] Close Scope Q_scope.
#[local] Open Scope js_scope.

(** [addon.data.semanticColors.selectedText ||
     reader?._internalReader?.selectedText || ""]. *)
Definition promptText (capture : Capture.t) (reader : option Reader.t)
    : string :=
  (Capture.selectedText capture
   ||? ((reader ≫= Reader._internalReader) ≫= InternalReader.selectedText))
  ||: "".

(** The button of a category, lines 80-104. *)
Definition promptButton (reader : option Reader.t) (selectedText : string)
    (entry : string * SemanticColor) : Element.t :=
  let '(key, semanticColor) := entry in
  {| Element.tag := "button";
     Element.namespace := None;
     Element.id := "semantic-color-" +:+ key;
     Element.classList := ["semantic-color-btn"];
     Element.styles :=
       [("backgroundColor", color semanticColor); ("color", "white");
        ("border", "none"); ("borderRadius", "4px");
        ("padding", "8px 12px"); ("margin", "2px");
        ("cursor", "pointer"); ("fontSize", "12px");
        ("fontWeight", "bold"); ("textAlign", "center");
        ("boxShadow", "0 2px 4px rgba(0,0,0,0.2)");
        ("transition", "transform 0.1s")];
     Element.properties :=
       [("innerHTML",
         PStr ("<div>" +:+ name semanticColor +:+ "</div><div style="
               +:+ dquote +:+ "font-size: 10px; opacity: 0.8;" +:+ dquote
               +:+ ">" +:+ description semanticColor +:+ "</div>"));
        ("onclick", PFun (PromptClick reader selectedText key semanticColor))];
     Element.listeners := [] |}.

(** The cancel button, lines 112-131. *)
Definition cancelButton : Element.t :=
  {| Element.tag := "button";
     Element.namespace := None;
     Element.id := "semantic-color-cancel";
     Element.classList := [];
     Element.styles :=
       [("gridColumn", "1 / -1"); ("backgroundColor", "#95a5a6");
        ("color", "white"); ("border", "none"); ("borderRadius", "4px");
        ("padding", "8px 12px"); ("margin", "2px"); ("cursor", "pointer");
        ("fontSize", "12px")];
     Element.properties :=
       [("innerText", PStr "Cancel"); ("onclick", PFun PromptCancel)];
     Element.listeners := [] |}.

(** The commands container once the callback has filled it.  [doc] is
    [container.ownerDocument || prompt.inputNode.ownerDocument]:
    without it no button is made. *)
Definition commandsContainer (reader : option Reader.t)
    (selectedText : string) (doc : bool) : Container.t :=
  {| Container.tag := "div";
     Container.id := None;
     Container.classList := [];
     Container.styles :=
       [("padding", "10px"); ("display", "grid");
        ("gridTemplateColumns", "repeat(auto-fill, minmax(150px, 1fr))");
        ("gap", "10px")];
     Container.children :=
       if doc
       then (promptButton reader selectedText <$> SEMANTIC_COLORS)
            ++ [cancelButton]
       else [] |}.

(** The functions that the buttons of a container run when they are
    clicked: their [onclick] properties. *)
Definition onclicks (node : Container.t) : list Listener :=
  b ← Container.children node;
  omap (λ kv, match kv.2 with
              | PFun l => if decide (kv.1 = "onclick") then Some l else None
              | PStr _ => None
              end) (Element.properties b).

Section prompt.
Context {store : Type}.

(** [when], lines 49-59, as the truth value of what it returns (the
    empty string, or the result of the comparison). *)
Definition when_ (reader : option Reader.t) : M store bool :=
  match reader with
  | None => mret false
  | Some reader =>
      capture ← getCapture;
      let selectedText := promptText capture (Some reader) in
      mret (truthy selectedText && (0 <? String.length selectedText)%nat)
  end.

(** [callback], lines 60-135. *)
Definition callback (reader : option Reader.t) (doc : bool) : M store unit :=
  capture ← getCapture;
  let selectedText := promptText capture reader in
  uiCall (Placeholder "Select a semantic category for the highlighted text...");;
  uiCall (Commands (commandsContainer reader selectedText doc)).

(** [registerSemanticColoringPrompt()], lines 44-48 and 136-138: one
    command, whose test and callback are [when_] and [callback];
    [addonInstance] is [config.addonInstance] of [package.json]. *)
Definition registerSemanticColoringPrompt (addonInstance : string)
    : M store unit :=
  uiCall (RegisterPrompt "Semantic Coloring" addonInstance).
End prompt.

(** ** Lemmas *)

Lemma promptText_cache capture reader txt :
  Capture.selectedText capture = Some txt → truthy txt = true →
  promptText capture reader = txt.
Proof.
  unfold promptText. intros -> Ht. js_truthy. simpl.
  destruct txt; [done|]. done.
Qed.

Lemma promptText_empty capture reader :
  promptText capture reader = ""
  ↔ truthy (Capture.selectedText capture) = false
    ∧ truthy ((reader ≫= Reader._internalReader)
              ≫= InternalReader.selectedText) = false.
Proof.
  unfold promptText.
  destruct (Capture.selectedText capture) as [[|c t]|];
    destruct ((reader ≫= Reader._internalReader)
              ≫= InternalReader.selectedText) as [[|c' t']|];
    js_truthy; simpl; intuition congruence.
Qed.

(** ** Properties *)

Section prompt_properties.
Context `{Host store}.
Implicit Types (w : World store).

(** The command is offered exactly when there is a reader and the
    cache or the reader has a text that is not empty; the test changes
    nothing. *)
Lemma when_spec reader w :
  when_ reader w
  = (Ok (bool_decide (is_Some reader
                      ∧ promptText (semanticColors w) reader ≠ "")), w).
Proof.
  destruct reader as [r|]; unfold when_; m_simpl; try done.
  do 2 f_equal. by destruct (promptText _ _) as [|c t].
Qed.

(** What [callback] does: the placeholder, then the container with
    the buttons for the text it has read. *)
Lemma callback_run reader doc w :
  callback reader doc w
  = (Ok tt,
     add_ui (Commands (commandsContainer reader
                         (promptText (semanticColors w) reader) doc))
       (add_ui (Placeholder
                  "Select a semantic category for the highlighted text...") w)).
Proof. done. Qed.

(** The buttons of the container: one per category of the registry,
    which keeps the reader and the text, and the cancel button. *)
Lemma commands_onclicks reader txt doc l :
  l ∈ onclicks (commandsContainer reader txt doc) →
  l = PromptCancel
  ∨ ∃ key c, (key, c) ∈ SEMANTIC_COLORS ∧ l = PromptClick reader txt key c.
Proof.
  unfold onclicks, commandsContainer. destruct doc; simpl; [|by inversion 1].
  rewrite !elem_of_cons, elem_of_nil. intros Hl.
  destruct_or!; subst; eauto; right; do 2 eexists; (split; [|done]);
    unfold SEMANTIC_COLORS; set_solver.
Qed.

(** What a click on a button of a category does. *)
Lemma promptClick_run reader txt key c w :
  ∃ w', runListener (PromptClick reader txt key c) w = (Ok tt, w')
    ∧ ui w' = ui w ++ [Confirm]
    ∧ ∀ id a, annotations (host w') = annotations (host w) ++ [(id, a)] →
              AnnotationItem.annotationText a = Some txt
              ∧ AnnotationItem.annotationComment a = "[" +:+ name c +:+ "]"
              ∧ AnnotationItem.annotationColor a = color c.
Proof.
  unfold runListener.
  destruct (apply_run reader (Some txt) key c w) as (w' & Hrun & Hs).
  exists (add_ui Confirm w'). rewrite run_bind, Hrun. split; [done|].
  destruct (apply_spec_host _ _ _ _ _ _ Hs) as [Ha _].
  pose proof (apply_spec_ui _ _ _ _ _ _ Hs) as Hu.
  simpl. rewrite Hu, Ha. split; [done|]. intros id a Heq%app_inv_head.
  destruct (saved_annotation _) as [[id' a']|] eqn:Ho; simplify_eq/=.
  by apply outcome_saved_inv in Ho
    as (? & ? & ? & ? & ? & ? & _ & _ & _ & _ & _ & ->).
Qed.

(** C37 (the prompt applies the text it was opened with).  Every
    button of the container that [callback] hands to the prompt,
    clicked in whatever world, returns normally and confirms the
    prompt; an annotation it adds has the text that [callback] read
    when the prompt was opened (the cached text, else the reader's,
    else the empty string), whatever the cache holds at the click,
    and the bracketed name and the colour of a category of the
    registry.  The cancel button adds nothing. *)
Theorem prompt_click_text (reader : option Reader.t) (doc : bool) w
    (node : Container.t) (l : Listener) w2 :
  last (ui (callback reader doc w).2) = Some (Commands node) →
  l ∈ onclicks node →
  ∃ w', runListener l w2 = (Ok tt, w')
    ∧ ui w' = ui w2 ++ [Confirm]
    ∧ ∀ id a, annotations (host w') = annotations (host w2) ++ [(id, a)] →
              AnnotationItem.annotationText a
              = Some (promptText (semanticColors w) reader)
              ∧ ∃ key c, (key, c) ∈ SEMANTIC_COLORS
                  ∧ AnnotationItem.annotationComment a
                    = "[" +:+ name c +:+ "]"
                  ∧ AnnotationItem.annotationColor a = color c.
Proof.
  rewrite callback_run. simpl. rewrite last_snoc. intros [= <-].
  intros [->|(key & c & Hin & ->)]%commands_onclicks.
  - exists (add_ui Confirm w2). split_and!; [done..|].
    intros id a Heq. simpl in Heq.
    by apply (f_equal length) in Heq; rewrite length_app in Heq; simpl in Heq; lia.
  - destruct (promptClick_run reader (promptText (semanticColors w) reader)
                key c w2) as (w' & Hrun & Hu & Ha).
    exists w'. split_and!; [done..|]. intros id a Heq.
    destruct (Ha id a Heq) as (? & ? & ?). eauto 6.
Qed.
End prompt_properties.

(** A prompt opened on the text "opened with", and a world in which
    the cache has changed since. *)
Definition opened_prompt : World MapStore :=
  set_semanticColors (Capture.mk (Some "opened with") None) world0.
Definition changed_cache : World MapStore :=
  set_semanticColors (Capture.mk (Some "changed") None) world0.

Lemma prompt_click_text_witness :
  ∃ w', runListener (PromptClick (Some reader0) "opened with" "insight" insight)
          changed_cache = (Ok tt, w')
    ∧ ui w' = ui changed_cache ++ [Confirm]
    ∧ ∀ id a, annotations (host w') = annotations (host changed_cache) ++ [(id, a)] →
              AnnotationItem.annotationText a
              = Some (promptText (semanticColors opened_prompt) (Some reader0))
              ∧ ∃ key c, (key, c) ∈ SEMANTIC_COLORS
                  ∧ AnnotationItem.annotationComment a
                    = "[" +:+ name c +:+ "]"
                  ∧ AnnotationItem.annotationColor a = color c.
Proof.
  apply (prompt_click_text (Some reader0) true opened_prompt
           (commandsContainer (Some reader0) "opened with" true)); [done|].
  apply (bool_decide_unpack _). by vm_compute.
Defined.
