(* ===== verification/Hooks.v ===== *)
(** * The hooks and the life of the plugin

    [src/hooks.ts]: the listener of [renderTextSelectionPopup] that
    [onMainWindowLoad] registers, [onReaderPopupShow], [onNotify], and
    the lifecycle hooks, with the calls they make into the host and
    the toolkit kept as a trace.  The plugin as a whole is the
    transition system [step]: the host loads and unloads windows,
    sends notifications, fires selection events to every registered
    listener, and runs the click listener of a button that is in a
    popup; [exec] is the same system as a function.  The theorems are the invariants of the reachable
    states: every annotation the plugin adds is a highlight of a
    category of the registry, a click adds one annotation at most,
    identifiers stay distinct. *)

From Stdlib Require Import ZArith QArith Lia.
From stdpp Require Import base tactics option list strings gmap.
From S2P Require Import Prelude JsString Registry Reader Dom Host MapStore.
From S2P Require Import Resolver SortKey Contrast Writer Popup.

#[local] Close Scope Q_scope.

(** ** The listener *)

Section listener.
Context {store : Type}.

(** [onReaderPopupShow(event)], lines 49-55. *)
Definition onReaderPopupShow (event : PopupEvent.t) : M store unit :=
  log [LStr "onReaderPopupShow called - building semantic coloring popup"];;
  buildSemanticColoringPopup event.

(** The listener [onMainWindowLoad] registers, lines 36-44. *)
Definition listener (event : PopupEvent.t) : M store unit :=
  match PopupEvent.annotation event ≫= Selection.text with
  | Some text =>
      if truthy text then setSelectedText (trim text) else mret tt
  | None => mret tt
  end;;
  onReaderPopupShow event.

(** The host calls every registered listener, in the order of
    registration. *)
Fixpoint dispatch (listeners : nat) (event : PopupEvent.t) : M store unit :=
  match listeners with
  | O => mret tt
  | S n => listener event;; dispatch n event
  end.
End listener.

(** ** The plugin *)

Section plugin.
Context `{Host store}.

(** [addon.data.config], the values of [package.json] that the hooks
    read. *)
Record Config : Type := mkConfig {
  addonRef : string;
  addonID : string;
  addonInstance : string;
}.

(** The calls of the hooks into the host and the toolkit. *)
Inductive HostCall : Type :=
  (** [await Promise.all([Zotero.initializationPromise,
      Zotero.unlockPromise, Zotero.uiReadyPromise])]. *)
  | AwaitReady
  | InitLocale
  | CreateZToolkit
  (** [win.MozXULElement.insertFTLIfNeeded(file)]. *)
  | InsertFTL (file : string)
  (** [Zotero.Reader.registerEventListener(type, listener, pluginID)]. *)
  | RegisterEventListener (type : string) (pluginID : string)
  (** [ztoolkit.unregisterAll()]. *)
  | UnregisterAll
  (** [delete Zotero[name]]. *)
  | DeleteInstance (name : string).

(** The state of the plugin and of the part of the host it registers
    with: the world, [addon.data.config], the calls made so far, the
    number of listeners registered for [renderTextSelectionPopup]
    under the plugin's identifier, [addon.data.initialized],
    [addon.data.alive], and whether [Zotero[addonInstance]] is
    defined. *)
Record Plugin : Type := mkPlugin {
  world : World store;
  config : Config;
  calls : list HostCall;
  listeners : nat;
  initialized : bool;
  alive : bool;
  instance : bool;
}.

Definition set_world (w : World store) (p : Plugin) : Plugin :=
  mkPlugin w (config p) (calls p) (listeners p) (initialized p) (alive p)
    (instance p).

(** One call into the host. *)
Definition call (c : HostCall) (p : Plugin) : Plugin :=
  mkPlugin (world p) (config p) (calls p ++ [c]) (listeners p)
    (initialized p) (alive p) (instance p).

(** The plugin before [onStartup]. *)
Definition loaded (cfg : Config) (w : World store) : Plugin :=
  mkPlugin w cfg [] 0 false true true.

(** [onMainWindowLoad(win)], lines 25-47: a toolkit, the localisation
    file of the window, and one more listener. *)
Definition onMainWindowLoad (p : Plugin) : Plugin :=
  let p := call CreateZToolkit p in
  let p := call (InsertFTL (addonRef (config p) +:+ "-mainWindow.ftl")) p in
  let p := call (RegisterEventListener "renderTextSelectionPopup"
                   (addonID (config p))) p in
  mkPlugin (world p) (config p) (calls p) (S (listeners p)) (initialized p)
    (alive p) (instance p).

(** [onStartup()], lines 7-23, with [windows] main windows open. *)
Definition onStartup (windows : nat) (p : Plugin) : Plugin :=
  let p := call AwaitReady p in
  let p := call InitLocale p in
  let p := Nat.iter windows onMainWindowLoad p in
  mkPlugin (world p) (config p) (calls p) (listeners p) true (alive p)
    (instance p).

(** [onMainWindowUnload(win)], lines 57-59: [ztoolkit.unregisterAll()]
    removes what was registered through the toolkit; the listener was
    registered with [Zotero.Reader] and stays. *)
Definition onMainWindowUnload (p : Plugin) : Plugin := call UnregisterAll p.

(** [onShutdown()], lines 61-67. *)
Definition onShutdown (p : Plugin) : Plugin :=
  let p := call UnregisterAll p in
  let p := call (DeleteInstance (addonInstance (config p))) p in
  mkPlugin (world p) (config p) (calls p) (listeners p) (initialized p)
    false false.

(** [onNotify(event, type, ids, extraData)], lines 73-81. *)
Definition onNotify (event type : string) (ids : list (string + Z))
    : M store unit :=
  log [LStr "notify"; LStr event; LStr type; LIds ids; LExtra].

(** The host drops the listeners of a plugin that has shut down. *)
Definition unregistered (p : Plugin) : Plugin :=
  mkPlugin (world p) (config p) (calls p) 0 (initialized p) (alive p)
    (instance p).

(** What the host does to the plugin. *)
Inductive Action : Type :=
  | Startup (windows : nat)
  | MainWindowLoad
  | MainWindowUnload
  | Shutdown
  | Notify (event type : string) (ids : list (string + Z))
  | SelectionPopup (event : PopupEvent.t)
  | Click (l : Listener).

(** One action of the host.  A click is enabled for every button of
    every container that was appended to a popup: that a popup has
    been hidden or disposed of, or the plugin shut down, does not
    disable its buttons.  The system has all the runs of the host and
    more, so its invariants hold of the host's runs. *)
Inductive step : Plugin → Action → Plugin → Prop :=
  | step_startup p windows : step p (Startup windows) (onStartup windows p)
  | step_load p : step p MainWindowLoad (onMainWindowLoad p)
  | step_unload p : step p MainWindowUnload (onMainWindowUnload p)
  | step_shutdown p : step p Shutdown (unregistered (onShutdown p))
  | step_notify p event type ids :
      step p (Notify event type ids)
        (set_world (onNotify event type ids (world p)).2 p)
  | step_selection p event :
      step p (SelectionPopup event)
        (set_world (dispatch (listeners p) event (world p)).2 p)
  | step_click p l :
      clickable (world p) l →
      step p (Click l) (set_world (runListener l (world p)).2 p).

(** A run of the plugin, with the actions in order. *)
Inductive steps : Plugin → list Action → Plugin → Prop :=
  | steps_nil p : steps p [] p
  | steps_cons p a p' actions p'' :
      step p a p' → steps p' actions p'' → steps p (a :: actions) p''.

(** The transition system as a function: [None] for a click on a
    button that is in no popup. *)
Definition exec (a : Action) (p : Plugin) : option Plugin :=
  match a with
  | Startup windows => Some (onStartup windows p)
  | MainWindowLoad => Some (onMainWindowLoad p)
  | MainWindowUnload => Some (onMainWindowUnload p)
  | Shutdown => Some (unregistered (onShutdown p))
  | Notify event type ids =>
      Some (set_world (onNotify event type ids (world p)).2 p)
  | SelectionPopup event =>
      Some (set_world (dispatch (listeners p) event (world p)).2 p)
  | Click l =>
      if decide (clickable (world p) l)
      then Some (set_world (runListener l (world p)).2 p)
      else None
  end.

Definition run (actions : list Action) (p : Plugin) : option Plugin :=
  foldl (λ p a, p ≫= exec a) (Some p) actions.

(** ** Reference definitions *)

(** An annotation that carries a category of the registry. *)
Definition registry_highlight (a : AnnotationItem.t) : Prop :=
  AnnotationItem.annotationType a = "highlight"
  ∧ ∃ key c, (key, c) ∈ SEMANTIC_COLORS
             ∧ AnnotationItem.annotationComment a = "[" +:+ name c +:+ "]"
             ∧ AnnotationItem.annotationColor a = color c.

(** Every container in a popup is one the plugin built. *)
Definition ui_built (w : World store) : Prop :=
  Forall (λ node, ∃ r popup, node = semanticColorContainer r popup)
    (appended w).

(** The annotations of the store. *)
Definition saved (p : Plugin) : list (Z * AnnotationItem.t) :=
  annotations (host (world p)).

(** The clicks of a run. *)
Definition is_click (a : Action) : bool :=
  match a with Click _ => true | _ => false end.
Definition clicks (actions : list Action) : nat :=
  length (filter is_click actions).
End plugin.

Arguments Plugin : clear implicits.

(** The world after one listener has run. *)
Definition shown {store} (event : PopupEvent.t) (w : World store)
    : World store :=
  built event
    (output [[LStr "onReaderPopupShow called - building semantic coloring popup"]]
       [] w).

(** ** Lemmas *)

Section listener_lemmas.
Context {store : Type}.
Implicit Types (w : World store).

Lemma onReaderPopupShow_run event w :
  onReaderPopupShow event w = (Ok tt, shown event w).
Proof. unfold onReaderPopupShow. rewrite run_bind, run_log. apply build_run. Qed.

(** An event with a text overwrites whatever text the cache held. *)
Lemma built_text event a txt c w :
  PopupEvent.annotation event = Some a → Selection.text a = Some txt →
  truthy txt = true →
  built event (set_semanticColors
                 (Capture.mk c (Capture.pendingAnnotation (semanticColors w)))
                 w)
  = built event w.
Proof.
  unfold built, capture_of, capture_source, captured. intros -> -> Ht.
  simpl. by rewrite Ht.
Qed.

Lemma listener_run event w : listener event w = (Ok tt, shown event w).
Proof.
  unfold listener. rewrite run_bind.
  destruct (PopupEvent.annotation event) as [a|] eqn:Ha; simpl;
    [|apply onReaderPopupShow_run].
  destruct (Selection.text a) as [txt|] eqn:Ht; simpl;
    [|apply onReaderPopupShow_run].
  destruct (truthy txt) eqn:Htt; simpl; [|apply onReaderPopupShow_run].
  rewrite onReaderPopupShow_run. f_equal. unfold shown.
  rewrite <- set_semanticColors_output.
  by apply (built_text event a txt _ (output _ [] w)).
Qed.

Lemma dispatch_run n event w :
  dispatch n event w = (Ok tt, Nat.iter n (shown event) w).
Proof.
  revert w. induction n as [|n IH]; intros w; [done|].
  cbn [dispatch]. rewrite run_bind, listener_run, IH. f_equal.
  by rewrite Nat.iter_succ_r.
Qed.

Lemma shown_host event w : host (shown event w) = host w.
Proof. done. Qed.

Lemma shown_appended event w :
  appended (shown event w)
  = appended w ++ [semanticColorContainer (PopupEvent.reader event)
                     (PopupEvent.popup event)].
Proof. unfold appended, shown, built. simpl. by rewrite omap_app. Qed.

Lemma iter_shown_wf n event w :
  wf_capture (semanticColors w) →
  wf_capture (semanticColors (Nat.iter n (shown event) w)).
Proof.
  intros Hw. induction n as [|n IH]; [done|].
  rewrite Nat.iter_succ. by apply capture_of_wf.
Qed.

Lemma iter_shown_host n event w : host (Nat.iter n (shown event) w) = host w.
Proof. induction n as [|n IH]; [done|]. by rewrite Nat.iter_succ. Qed.

Lemma iter_shown_appended n event w :
  appended (Nat.iter n (shown event) w)
  = appended w ++ replicate n (semanticColorContainer
                                 (PopupEvent.reader event)
                                 (PopupEvent.popup event)).
Proof.
  induction n as [|n IH]; [by rewrite app_nil_r|].
  rewrite Nat.iter_succ, shown_appended, IH, <- app_assoc. f_equal.
  by rewrite replicate_S_end.
Qed.
End listener_lemmas.

Section plugin_lemmas.
Context `{Host store}.
Implicit Types (w : World store) (p : Plugin store).

(** The annotation a call saves for a category of the registry. *)
Lemma registry_highlight_saved reader t key c w id a :
  (key, c) ∈ SEMANTIC_COLORS →
  saved_annotation (outcome reader t c w) = Some (id, a) →
  registry_highlight a.
Proof.
  intros Hin (? & ? & ? & ? & ? & ? & _ & _ & _ & _ & _ & ->)%outcome_saved_inv.
  split; [done|]. by exists key, c.
Qed.

(** What a click on a popup button does to the store and to the
    popups. *)
Lemma popupClick_world reader key c popup w w' :
  w' = (runListener (PopupClick reader key c popup) w).2 →
  annotations (host w')
  = annotations (host w)
    ++ option_list (saved_annotation
         (outcome (Some reader) (Capture.selectedText (semanticColors w)) c w))
  ∧ appended w' = appended w
  ∧ (NoDup (annotations (host w)).*1 → NoDup (annotations (host w')).*1).
Proof.
  intros ->.
  destruct (popupClick_run reader key c popup w) as (w1 & -> & Hs).
  destruct (apply_spec_host _ _ _ _ _ _ Hs) as [Ha _].
  pose proof (apply_spec_ui _ _ _ _ _ _ Hs) as Hu.
  pose proof (apply_spec_ids _ _ _ _ _ _ Hs) as Hn.
  unfold appended.
  destruct popup; simpl; rewrite ?omap_app, Hu; simpl;
    rewrite ?omap_app, ?app_nil_r; done.
Qed.

(** A listener that can be clicked, when the popups hold the
    plugin's containers only, is a popup button of the registry. *)
Lemma clickable_inv w l :
  ui_built w → clickable w l →
  ∃ reader key c popup,
    (key, c) ∈ SEMANTIC_COLORS ∧ l = PopupClick reader key c popup.
Proof.
  unfold ui_built, clickable. rewrite Forall_forall, Exists_exists.
  intros Hb (node & Hin & Hl). destruct (Hb _ Hin) as (r & popup & ->).
  apply container_listener_inv in Hl as (key & c & ? & ->). eauto 6.
Qed.

(** The invariant: the popups hold the plugin's containers only, and
    the store holds, after the annotations [init], at most [n]
    highlights of categories of the registry. *)
Definition inv (init : list (Z * AnnotationItem.t)) (n : nat) p : Prop :=
  ui_built (world p)
  ∧ ∃ added, saved p = init ++ added
             ∧ Forall (λ ia, registry_highlight ia.2) added
             ∧ length added ≤ n.

Lemma inv_mono init n m p : n ≤ m → inv init n p → inv init m p.
Proof.
  intros Hnm (Hb & added & ? & ? & ?). split; [done|].
  exists added. split_and!; [done..|lia].
Qed.

Lemma selection_inv init n p event :
  inv init n p →
  inv init n (set_world (dispatch (listeners p) event (world p)).2 p).
Proof.
  intros (Hb & added & Hs & Hf & Hl). rewrite dispatch_run.
  split; [|exists added; split_and!; try done].
  - unfold ui_built. simpl. rewrite iter_shown_appended.
    apply Forall_app. split; [done|]. apply Forall_replicate. eauto.
  - unfold saved. simpl. by rewrite iter_shown_host.
Qed.

Lemma click_inv init n p l :
  clickable (world p) l → inv init n p →
  inv init (S n) (set_world (runListener l (world p)).2 p).
Proof.
  intros Hc (Hb & added & Hs & Hf & Hl).
  destruct (clickable_inv _ _ Hb Hc) as (reader & key & c & popup & Hin & ->).
  destruct (popupClick_world reader key c popup (world p) _ eq_refl)
    as (Ha & Hu & _).
  split; [unfold ui_built; cbn [world set_world]; by rewrite Hu|].
  unfold saved in *. cbn [world set_world]. rewrite Ha, Hs, <- app_assoc.
  eexists. split; [done|]. rewrite length_app. split.
  - apply Forall_app. split; [done|].
    destruct (saved_annotation _) as [[id a]|] eqn:Ho; simpl; [|done].
    apply Forall_singleton. by eapply registry_highlight_saved.
  - destruct (saved_annotation _) as [[]|]; simpl; lia.
Qed.

Lemma onStartup_world windows p : world (onStartup windows p) = world p.
Proof. unfold onStartup. simpl. by induction windows. Qed.

Lemma onStartup_listeners windows p :
  listeners (onStartup windows p) = windows + listeners p.
Proof.
  unfold onStartup. simpl. induction windows as [|k IH]; simpl; [done|].
  by rewrite IH.
Qed.

(** The calls of [onMainWindowLoad]. *)
Definition load_calls (cfg : Config) : list HostCall :=
  [CreateZToolkit; InsertFTL (addonRef cfg +:+ "-mainWindow.ftl");
   RegisterEventListener "renderTextSelectionPopup" (addonID cfg)].

Lemma onMainWindowLoad_calls p :
  calls (onMainWindowLoad p) = calls p ++ load_calls (config p).
Proof. unfold onMainWindowLoad. simpl. by rewrite <- !app_assoc. Qed.

Lemma iter_load_config k p : config (Nat.iter k onMainWindowLoad p) = config p.
Proof. induction k as [|k IH]; [done|]. by rewrite Nat.iter_succ. Qed.

Lemma iter_load_calls k p :
  calls (Nat.iter k onMainWindowLoad p)
  = calls p ++ mjoin (replicate k (load_calls (config p))).
Proof.
  induction k as [|k IH]; [by rewrite app_nil_r|].
  rewrite Nat.iter_succ, onMainWindowLoad_calls, IH, iter_load_config.
  rewrite replicate_S_end, join_app, <- app_assoc. simpl.
  by rewrite ?app_nil_r.
Qed.

(** The calls of a start: the promises, the locale, then for every
    window a toolkit, the localisation file and a listener. *)
Lemma onStartup_calls windows p :
  calls (onStartup windows p)
  = calls p ++ [AwaitReady; InitLocale]
    ++ mjoin (replicate windows (load_calls (config p))).
Proof.
  unfold onStartup. cbn [calls]. rewrite iter_load_calls. simpl.
  by rewrite <- !app_assoc.
Qed.

(** The invariant looks at the world only. *)
Lemma inv_world init n p p' : world p' = world p → inv init n p → inv init n p'.
Proof. unfold inv, saved. by intros ->. Qed.

Lemma step_inv init n p a p' :
  step p a p' → inv init n p →
  inv init (n + (if is_click a then 1 else 0)) p'.
Proof.
  destruct 1; simpl; rewrite ?Nat.add_0_r, ?Nat.add_1_r;
    eauto using selection_inv, click_inv, inv_world, onStartup_world.
Qed.

Lemma clicks_cons a actions :
  clicks (a :: actions) = (if is_click a then 1 else 0) + clicks actions.
Proof. unfold clicks. rewrite filter_cons. by destruct (is_click a). Qed.

Lemma steps_inv init n p actions p' :
  steps p actions p' → inv init n p → inv init (n + clicks actions) p'.
Proof.
  intros Hs. revert n. induction Hs as [p|p a p' actions p'' Hstep _ IH];
    intros n Hinv; [by rewrite Nat.add_0_r|].
  rewrite clicks_cons, Nat.add_assoc. eauto using step_inv.
Qed.

(** The state of the plugin before it starts satisfies the invariant. *)
Lemma loaded_inv cfg w :
  appended w = [] → inv (annotations (host w)) 0 (loaded cfg w).
Proof.
  intros Hw. split; [unfold ui_built; simpl; by rewrite Hw|].
  exists []. by rewrite app_nil_r.
Qed.

Lemma step_ids p a p' :
  step p a p' → ui_built (world p) →
  NoDup (saved p).*1 → NoDup (saved p').*1.
Proof.
  destruct 1; unfold saved; rewrite ?onStartup_world; try done;
    cbn [world set_world].
  - rewrite dispatch_run. simpl. by rewrite iter_shown_host.
  - intros Hb.
    destruct (clickable_inv _ _ Hb H0) as (reader & key & c & popup & _ & ->).
    by destruct (popupClick_world reader key c popup (world p) _ eq_refl)
      as (_ & _ & ?).
Qed.

(** An action that is not a click leaves the store as it is and the
    cache well formed. *)
Lemma step_capture p a p' :
  step p a p' → is_click a = false →
  host (world p') = host (world p)
  ∧ (wf_capture (semanticColors (world p)) →
     wf_capture (semanticColors (world p'))).
Proof.
  destruct 1; try done; intros _; rewrite ?onStartup_world; try done.
  cbn [world set_world]. rewrite dispatch_run. simpl.
  split; [apply iter_shown_host|apply iter_shown_wf].
Qed.

Lemma exec_step a p p' : exec a p = Some p' ↔ step p a p'.
Proof.
  split.
  - destruct a; simpl; try case_decide; intros; simplify_eq; by constructor.
  - destruct 1; simpl; try done. by rewrite decide_True.
Qed.
End plugin_lemmas.

Section run_lemmas.
Context `{Host store}.
Implicit Types (p : Plugin store).

Lemma run_cons a actions p :
  run (a :: actions) p = exec a p ≫= run actions.
Proof.
  unfold run. simpl. destruct (exec a p) as [p'|]; [done|].
  simpl. by induction actions.
Qed.

Lemma run_steps actions p p' : run actions p = Some p' → steps p actions p'.
Proof.
  revert p. induction actions as [|a actions IH]; intros p.
  - intros [= ->]. constructor.
  - rewrite run_cons. destruct (exec a p) as [p1|] eqn:He; [|done].
    apply exec_step in He. eauto using steps.
Qed.

Lemma steps_run actions p p' : steps p actions p' → run actions p = Some p'.
Proof.
  induction 1 as [|p a p1 actions p2 Hs%exec_step _ IH]; [done|].
  by rewrite run_cons, Hs.
Qed.

Lemma steps_ids init n p actions p' :
  steps p actions p' → inv init n p →
  NoDup (saved p).*1 → NoDup (saved p').*1.
Proof.
  intros Hs. revert n. induction Hs as [|p a p1 actions p2 Hs _ IH];
    intros n Hinv; [done|].
  intros Hn. eapply IH; [by eapply step_inv|].
  destruct Hinv as [Hb _]. by eapply step_ids.
Qed.
End run_lemmas.

(** ** Examples *)

(** A configuration. *)
Definition config0 : Config := mkConfig "addon" "addon@example.org" "Addon".

(** One window, one selection, one click on "insight". *)
Definition session : list Action :=
  [Startup 1; SelectionPopup event1;
   Click (PopupClick reader1 "insight" insight (Some 7%Z))].

(** The plugin after the session. *)
Definition after_session : Plugin MapStore :=
  default (loaded config0 world1) (run session (loaded config0 world1)).

(** ** Properties *)

Section hooks_properties.
Context `{Host store}.
Implicit Types (w : World store) (p : Plugin store).

(** C25 (the trimmed text is overwritten).  The listener first stores
    the trimmed text of the payload and then calls
    [buildSemanticColoringPopup], which stores the text of the payload
    as it is: the listener does exactly what [onReaderPopupShow] does
    alone, and the cache holds the text with its white space. *)
Theorem listener_trim_overwritten (event : PopupEvent.t) w :
  listener event w = onReaderPopupShow event w
  ∧ ∀ a txt, PopupEvent.annotation event = Some a →
             Selection.text a = Some txt → truthy txt = true →
             Capture.selectedText (semanticColors (listener event w).2)
             = Some txt.
Proof.
  rewrite listener_run, onReaderPopupShow_run. split; [done|].
  intros a txt Ha Ht Htt. simpl. apply capture_of_text; [|done].
  unfold capture_source. by rewrite Ha.
Qed.

(** C8 (only highlights of the registry).  In every state the plugin
    reaches from its start, whatever the host does, the store holds
    the annotations it held at the start followed by highlights whose
    comment is the bracketed name and whose colour is the colour of a
    category of the registry. *)
Theorem plugin_annotations_registry cfg w (actions : list Action) p :
  appended w = [] → steps (loaded cfg w) actions p →
  ∃ added, saved p = annotations (host w) ++ added
           ∧ Forall (λ ia, registry_highlight ia.2) added.
Proof.
  intros Hw Hs.
  destruct (steps_inv _ _ _ _ _ Hs (loaded_inv cfg w Hw)) as (_ & added & ? & ? & _).
  eauto.
Qed.

(** C24 (one annotation per click at most).  In every state the plugin
    reaches, the number of annotations it has added is at most the
    number of clicks; selection events and lifecycle hooks add none. *)
Theorem plugin_one_per_click cfg w (actions : list Action) p :
  appended w = [] → steps (loaded cfg w) actions p →
  length (saved p) ≤ length (annotations (host w)) + clicks actions.
Proof.
  intros Hw Hs.
  destruct (steps_inv _ _ _ _ _ Hs (loaded_inv cfg w Hw)) as (_ & added & -> & _ & ?).
  rewrite length_app. simpl in *. lia.
Qed.

(** Identifiers stay distinct in every run.  If the annotations
    of the store have distinct identifiers when the plugin starts, they
    have distinct identifiers in every state it reaches. *)
Theorem plugin_ids_unique cfg w (actions : list Action) p :
  appended w = [] → steps (loaded cfg w) actions p →
  NoDup (annotations (host w)).*1 → NoDup (saved p).*1.
Proof.
  intros Hw Hs Hn. exact (steps_ids _ _ _ _ _ Hs (loaded_inv cfg w Hw) Hn).
Qed.

(** C26 (one container per window).  [onMainWindowLoad] registers the
    listener again for every window: after a start with [windows]
    main windows, one selection event appends [windows] containers,
    each with a button per category, to the same popup. *)
Theorem startup_containers cfg w (windows : nat) (event : PopupEvent.t) p :
  steps (loaded cfg w) [Startup windows; SelectionPopup event] p →
  appended (world p)
  = appended w ++ replicate windows
                    (semanticColorContainer (PopupEvent.reader event)
                       (PopupEvent.popup event)).
Proof.
  intros Hs. inversion Hs as [|? ? ? ? ? Hs1 Hs2]; subst.
  inversion Hs1; subst. inversion Hs2 as [|? ? ? ? ? Hs3 Hs4]; subst.
  inversion Hs3; subst. inversion Hs4; subst. cbn [world set_world].
  rewrite dispatch_run, onStartup_listeners, onStartup_world. simpl.
  by rewrite iter_shown_appended, Nat.add_0_r.
Qed.

(** The function and the relation.  [run] computes the runs of
    the transition system: it returns a state exactly when the actions
    lead to it, and refuses exactly the runs that click a button which
    is in no popup. *)
Theorem run_spec (actions : list Action) p p' :
  run actions p = Some p' ↔ steps p actions p'.
Proof. split; [apply run_steps|apply steps_run]. Qed.
End hooks_properties.

Lemma session_steps : steps (loaded config0 world1) session after_session.
Proof. apply run_steps. by vm_compute. Qed.

Lemma plugin_annotations_registry_witness :
  ∃ added, saved after_session = [] ++ added
           ∧ Forall (λ ia, registry_highlight ia.2) added.
Proof.
  exact (plugin_annotations_registry config0 world1 session after_session eq_refl
           session_steps).
Defined.

Lemma plugin_one_per_click_witness : length (saved after_session) ≤ 0 + 1.
Proof.
  exact (plugin_one_per_click config0 world1 session after_session eq_refl
           session_steps).
Defined.

Lemma plugin_ids_unique_witness : NoDup (saved after_session).*1.
Proof.
  exact (plugin_ids_unique config0 world1 session after_session eq_refl
           session_steps (NoDup_nil_2 (A := Z))).
Defined.

(** The session saves one highlight, for "insight", with the text
    and the position of the event. *)
Lemma session_saved :
  saved after_session
  = [(11%Z, annotationItem_of pdf (Some "first selection") insight
              (Position.mk (Some 4%Z) (Some [rect_a])) [rect_a] (Some "5"))].
Proof. by vm_compute. Qed.

(** An event whose text has white space around it. *)
Definition padded_event : PopupEvent.t :=
  PopupEvent.mk reader1 (Some (payload "  padded  ")) None.

Lemma listener_trim_overwritten_witness :
  Capture.selectedText (semanticColors (listener padded_event world1).2)
  = Some "  padded  ".
Proof.
  exact (proj2 (listener_trim_overwritten padded_event world1)
           (payload "  padded  ") "  padded  " eq_refl eq_refl eq_refl).
Defined.

(** Two windows, one selection. *)
Definition two_windows : Plugin MapStore :=
  default (loaded config0 world1)
    (run [Startup 2; SelectionPopup event1] (loaded config0 world1)).

Lemma startup_containers_witness :
  appended (world two_windows)
  = [] ++ replicate 2 (semanticColorContainer reader1 (Some 7%Z)).
Proof.
  apply (startup_containers config0 world1 2 event1 two_windows).
  apply run_steps. by vm_compute.
Defined.
