(* ===== verification/Async.v ===== *)
(** * The handlers on the event loop

    [applySemanticColor] and the click listeners are [async]
    functions: a call runs up to [await annotationItem.saveTx()]
    (line 264 of [src/modules/semanticColoring.ts]) and the rest runs
    when the host has completed the save; the listener that awaits
    the call (lines 100 and 371) goes on after that.  Between the two
    halves the event loop runs whatever else is due: selection popups
    and other clicks.  This file splits the functions where the code
    suspends ([applyStart], [applyResume], [clickStart], [clickEnd]),
    shows that the halves run one after the other are the functions
    of files [Writer] and [Popup], and puts the halves on an event
    loop ([astep]) whose state is the plugin and the suspended
    listeners.  What is shown of the loop: the annotation a click
    saves is fixed when the button is clicked, whatever runs before
    the save completes; the invariants of file [Hooks] hold with
    saves in flight; the cache stays well formed and no annotation
    gets an empty text; every run of the plugin of file [Hooks] is a
    run of the loop; the suspended listeners all finish, in whatever
    order the host completes them; and a listener hides its popup
    after its [await] only, so that a second click can start a
    second save of the same annotation. *)

From Stdlib Require Import ZArith QArith Lia.
From stdpp Require Import base tactics option list strings gmap.
From S2P Require Import Prelude JsString Registry Reader Dom Host MapStore.
From S2P Require Import Resolver SortKey Contrast Writer Popup Hooks.

#[local] Close Scope Q_scope.

(** ** The two halves of [applySemanticColor] *)

(** The locals of a call suspended at [await annotationItem.saveTx()]
    that the rest of the call reads: [reader], [annotationItem]
    (whose position is the local [position]), [selectedText] and
    [semanticColor]. *)
Record Suspended : Type := mkSuspended {
  s_reader : Reader.t;
  s_annotationItem : AnnotationItem.t;
  s_selectedText : option string;
  s_semanticColor : SemanticColor;
}.

(** A listener that is suspended: at the save of the call it made, or
    at [await applySemanticColor(...)] with the call finished. *)
Inductive Task : Type :=
  | AwaitSave (s : Suspended) (l : Listener)
  | AwaitApply (l : Listener).

Section halves.
Context `{Host store}.

(** Lines 243-263: the annotation item, up to the call of [saveTx]. *)
Definition prepareAnnotation (reader : Reader.t) (item : Item.t)
    (selectedText : option string) (semanticColor : SemanticColor)
    (st : Locals) : M store Suspended :=
  match position st with
  | None => mthrow (TypeError "position is null")
  | Some position =>
      match Position.rects position with
      | None => mthrow (TypeError "position.rects is undefined")
      | Some rects =>
          mret (mkSuspended reader
                  (annotationItem_of item selectedText semanticColor position
                     rects (pageLabel st))
                  selectedText semanticColor)
      end
  end.

(** Lines 264-271: the save completes, or throws, and the call goes
    on. *)
Definition afterSave (s : Suspended) : M store unit :=
  annotationID ← saveTx_M (s_annotationItem s);
  log [LStr "Annotation position:";
       LJson (AnnotationItem.annotationPosition (s_annotationItem s))];;
  log [LStr "Annotation created:"; LId annotationID];;
  text ← match s_selectedText s with
         | Some t => mret (substring 0 50 t)
         | None => mthrow (TypeError "selectedText is undefined")
         end;
  log [LStr (applied_message (s_semanticColor s) text)];;
  focus (s_reader s).

(** [applySemanticColor] up to the [await]: [None] when the call
    returned without reaching it. *)
Definition applyStart (reader : option Reader.t)
    (selectedText : option string) (semanticKey : string)
    (semanticColor : SemanticColor) : M store (option Suspended) :=
  match reader ≫= λ r, (r,.) <$> Reader.itemID r with
  | Some (reader, itemID) =>
      if truthy itemID then
        try_catch
          (item ← Items_get_M itemID;
           match item with
           | Some item =>
               if Item.isPDFAttachment item then
                 r ← resolvePosition (Reader._internalReader reader);
                 match r with
                 | Some st =>
                     s ← prepareAnnotation reader item selectedText
                           semanticColor st;
                     mret (Some s)
                 | None => mret None
                 end
               else log [LStr "Current item is not a PDF attachment"];;
                    mret None
           | None => log [LStr "Current item is not a PDF attachment"];;
                     mret None
           end)
          (λ error, onError error;; mret None)
      else log [LStr "No active reader found or invalid item ID"];; mret None
  | None => log [LStr "No active reader found or invalid item ID"];; mret None
  end.

(** [applySemanticColor] from the [await] on, inside the [try]. *)
Definition applyResume (s : Suspended) : M store unit :=
  try_catch (afterSave s) onError.

(** The listener of a button up to its [await]: lines 368-371 for a
    popup button, line 100 for a button of the prompt.  The cancel
    button, lines 127-129, is not [async]: it runs to its end. *)
Definition clickStart (l : Listener) : M store (option Task) :=
  match l with
  | PopupClick reader key semanticColor popup =>
      uiCall StopPropagation;;
      log [LStr ("Clicked semantic color: " +:+ name semanticColor +:+ " ("
                 +:+ color semanticColor +:+ ")")];;
      capture ← getCapture;
      s ← applyStart (Some reader) (Capture.selectedText capture) key
            semanticColor;
      mret (Some (from_option (λ s, AwaitSave s l) (AwaitApply l) s))
  | PromptClick reader selectedText key semanticColor =>
      s ← applyStart reader (Some selectedText) key semanticColor;
      mret (Some (from_option (λ s, AwaitSave s l) (AwaitApply l) s))
  | PromptCancel => uiCall Confirm;; mret None
  end.

(** The listener after its [await]: lines 372-375 and line 101. *)
Definition clickEnd (l : Listener) : M store unit :=
  match l with
  | PopupClick _ _ _ popup =>
      match popup with
      | Some popup => uiCall (HidePopup popup)
      | None => mret tt
      end
  | PromptClick _ _ _ _ => uiCall Confirm
  | PromptCancel => mret tt
  end.

(** The event loop resumes a task: the call goes on to its end and
    the listener waits for it, or the listener goes on to its end. *)
Definition resume (t : Task) : M store (option Task) :=
  match t with
  | AwaitSave s l => applyResume s;; mret (Some (AwaitApply l))
  | AwaitApply l => clickEnd l;; mret None
  end.

(** A task resumed until it ends, with nothing in between. *)
Definition runTask (t : Task) : M store unit :=
  match t with
  | AwaitSave s l => applyResume s;; clickEnd l
  | AwaitApply l => clickEnd l
  end.
End halves.

(** ** The event loop *)

Section loop.
Context `{Host store}.

(** The plugin and the listeners that are suspended, oldest first. *)
Record Loop : Type := mkLoop {
  plugin : Plugin store;
  tasks : list Task;
}.

(** What the event loop runs next: an action of the host, or the rest
    of the suspended listener at position [i]. *)
Inductive Event : Type :=
  | FromHost (a : Action)
  | Resume (i : nat).

(** A click: the listener runs up to its [await]. *)
Definition click (l : Listener) (lp : Loop) : Loop :=
  let r := clickStart l (world (plugin lp)) in
  mkLoop (set_world r.2 (plugin lp))
    (tasks lp ++ match r.1 with Ok (Some t) => [t] | _ => [] end).

(** The task [t] at position [i] is resumed. *)
Definition resumeTask (i : nat) (t : Task) (lp : Loop) : Loop :=
  let r := resume t (world (plugin lp)) in
  mkLoop (set_world r.2 (plugin lp))
    match r.1 with
    | Ok (Some t') => <[i:=t']> (tasks lp)
    | _ => delete i (tasks lp)
    end.

(** One turn of the event loop. *)
Inductive astep : Loop → Event → Loop → Prop :=
  | astep_host lp a p' :
      is_click a = false → step (plugin lp) a p' →
      astep lp (FromHost a) (mkLoop p' (tasks lp))
  | astep_click lp l :
      clickable (world (plugin lp)) l →
      astep lp (FromHost (Click l)) (click l lp)
  | astep_resume lp i t :
      tasks lp !! i = Some t → astep lp (Resume i) (resumeTask i t lp).

Inductive asteps : Loop → list Event → Loop → Prop :=
  | asteps_nil lp : asteps lp [] lp
  | asteps_cons lp e lp' events lp'' :
      astep lp e lp' → asteps lp' events lp'' → asteps lp (e :: events) lp''.

(** The event loop as a function: [None] for a click on a button that
    is in no popup and for a task that is not there. *)
Definition aexec (e : Event) (lp : Loop) : option Loop :=
  match e with
  | FromHost (Click l) =>
      if decide (clickable (world (plugin lp)) l) then Some (click l lp)
      else None
  | FromHost a => p' ← exec a (plugin lp); Some (mkLoop p' (tasks lp))
  | Resume i => t ← tasks lp !! i; Some (resumeTask i t lp)
  end.

Definition arun (events : list Event) (lp : Loop) : option Loop :=
  foldl (λ lp e, lp ≫= aexec e) (Some lp) events.

(** ** Reference definitions *)

(** The suspended call a call starts, from what the call reads. *)
Definition suspended (reader : option Reader.t) (t : option string)
    (c : SemanticColor) (w : World store) : option Suspended :=
  '(r, i) ← active_reader reader;
  it ← pdf_item w i;
  st ← first_source (Reader._internalReader r) (semanticColors w);
  a ← annotation_for it t c st;
  Some (mkSuspended r a t c).

(** The world after a suspended call has gone on to its end. *)
Definition resumed (s : Suspended) (w : World store) : World store :=
  let a := s_annotationItem s in
  match saveTx a (host w) with
  | inl e => output [error_log e] [error_line e] w
  | inr (id, s') =>
      match s_selectedText s with
      | Some txt =>
          add_focus (Reader._instanceID (s_reader s))
            (output (saved_logs a id
                     ++ [[LStr (applied_message (s_semanticColor s)
                                  (substring 0 50 txt))]])
               [] (set_host s' w))
      | None =>
          output (saved_logs a id ++ [error_log undefined_text])
            [error_line undefined_text] (set_host s' w)
      end
  end.

(** The task a click starts, and the calls into the user interface
    that the listener makes before its [await]. *)
Definition started (l : Listener) (w : World store) : option Task :=
  match l with
  | PopupClick reader key c popup =>
      Some (from_option (λ s, AwaitSave s l) (AwaitApply l)
              (suspended (Some reader)
                 (Capture.selectedText (semanticColors w)) c w))
  | PromptClick reader txt key c =>
      Some (from_option (λ s, AwaitSave s l) (AwaitApply l)
              (suspended reader (Some txt) c w))
  | PromptCancel => None
  end.

Definition start_calls (l : Listener) : list UiCall :=
  match l with
  | PopupClick _ _ _ _ => [StopPropagation]
  | PromptClick _ _ _ _ => []
  | PromptCancel => [Confirm]
  end.

(** The listener of a task, and the calls into the user interface
    that the listener makes after its [await]. *)
Definition listener_of (t : Task) : Listener :=
  match t with AwaitSave _ l | AwaitApply l => l end.

Definition end_calls (l : Listener) : list UiCall :=
  match l with
  | PopupClick _ _ _ (Some popup) => [HidePopup popup]
  | PromptClick _ _ _ _ => [Confirm]
  | _ => []
  end.

Definition owed (ts : list Task) : list UiCall :=
  ts ≫= λ t, end_calls (listener_of t).

(** The turns a task still needs, and the saves in flight. *)
Definition turns (t : Task) : nat :=
  match t with AwaitSave _ _ => 2 | AwaitApply _ => 1 end.

Definition in_flight (ts : list Task) : list AnnotationItem.t :=
  omap (λ t, match t with
             | AwaitSave s _ => Some (s_annotationItem s)
             | AwaitApply _ => None
             end) ts.

(** An annotation whose text, if it has one, is not empty; and the
    state of the loop in which the cache is well formed and neither
    the store nor a save in flight has an annotation with an empty
    text. *)
Definition text_ok (a : AnnotationItem.t) : Prop :=
  AnnotationItem.annotationText a ≠ Some "".

Definition wf_loop (lp : Loop) : Prop :=
  wf_capture (semanticColors (world (plugin lp)))
  ∧ Forall text_ok (in_flight (tasks lp))
  ∧ Forall (λ ia, text_ok ia.2) (saved (plugin lp)).

(** The actions of the host among the events, and the clicks. *)
Definition hosts (events : list Event) : list Action :=
  omap (λ e, match e with FromHost a => Some a | Resume _ => None end) events.

(** The host completes one of the suspended listeners, whichever. *)
Definition completes (lp : Loop) (Q : Loop → Prop) : Prop :=
  tasks lp ≠ [] ∧ ∀ i t, tasks lp !! i = Some t → Q (resumeTask i t lp).
End loop.

Arguments Loop : clear implicits.

(** [P] holds after finitely many steps, whichever way each step
    goes. *)
Inductive eventually {S : Type} (step : S → (S → Prop) → Prop)
    (P : S → Prop) (s : S) : Prop :=
  | eventually_done : P s → eventually step P s
  | eventually_step Q :
      step s Q → (∀ s', Q s' → eventually step P s') → eventually step P s.

(** ** The halves *)

Section half_lemmas.
Context `{Host store}.
Implicit Types (w : World store) (s : Suspended) (l : Listener) (t : Task).

(** A call that starts changes the log and the progress lines only,
    and suspends with the annotation of the first source. *)
Lemma applyStart_run reader txt k c w :
  ∃ ls ps, applyStart reader txt k c w
           = (Ok (suspended reader txt c w), output ls ps w).
Proof.
  unfold applyStart, suspended, active_reader, pdf_item.
  destruct reader as [[[i|] ir rid]|]; simpl; [|by m_simpl; eauto..].
  destruct (truthy i); simpl; [|by m_simpl; eauto].
  rewrite run_try_catch, run_bind, run_Items_get_M.
  destruct (Items_get (host w) i) as [it|]; simpl; [|by m_simpl; eauto].
  destruct (Item.isPDFAttachment it); simpl; [|by m_simpl; eauto].
  rewrite run_bind, resolvePosition_run.
  destruct (first_source _ _) as [st|] eqn:Hsrc; simpl; [|eauto].
  destruct (first_source_rects _ _ _ Hsrc) as (p & rs & Hp & Hr).
  unfold prepareAnnotation, annotation_for. rewrite Hp. simpl. rewrite Hr.
  simpl. eauto.
Qed.

Lemma applyResume_run s w : applyResume s w = (Ok tt, resumed s w).
Proof.
  unfold applyResume, afterSave, resumed.
  rewrite run_try_catch, run_bind, run_saveTx_M.
  destruct (saveTx _ (host w)) as [e|[id s']]; [by rewrite run_onError|].
  destruct (s_selectedText s); m_simpl; [done|].
  rewrite run_onError. by m_simpl.
Qed.

(** [applySemanticColor] is its two halves, one after the other. *)
Lemma apply_split reader txt k c :
  applySemanticColor reader txt k c
  ≡ applyStart reader txt k c ≫= from_option applyResume (mret tt).
Proof.
  intros w. unfold applySemanticColor, applyStart.
  destruct (reader ≫= _) as [[r i]|]; [|by m_simpl].
  destruct (truthy i); [|by m_simpl].
  rewrite run_bind, !run_try_catch, !run_bind, run_Items_get_M.
  destruct (Items_get (host w) i) as [it|]; [|by m_simpl].
  destruct (Item.isPDFAttachment it); [|by m_simpl].
  rewrite !run_bind, resolvePosition_run.
  destruct (first_source _ _) as [st|]; [|done].
  unfold writeAnnotation, prepareAnnotation.
  destruct (position st) as [p|]; [|by rewrite run_bind, !run_throw, !run_bind,
    run_onError].
  destruct (Position.rects p) as [rs|]; [done|].
  by rewrite run_bind, !run_throw, !run_bind, run_onError.
Qed.

Lemma clickEnd_run l w :
  clickEnd l w = (Ok tt, foldl (flip add_ui) w (end_calls l)).
Proof. by destruct l as [? ? ? [popup|]| |]. Qed.

Lemma runTask_run t w :
  runTask t w
  = (Ok tt, foldl (flip add_ui)
              (match t with AwaitSave s _ => resumed s w | _ => w end)
              (end_calls (listener_of t))).
Proof.
  destruct t as [s l|l]; simpl; [|apply clickEnd_run].
  by rewrite run_bind, applyResume_run, clickEnd_run.
Qed.

(** A task resumed turn by turn is the task run to its end. *)
Lemma resume_runTask t : resume t ≫= from_option runTask (mret tt) ≡ runTask t.
Proof.
  intros w. destruct t as [s l|l]; simpl.
  - by rewrite !run_bind, applyResume_run.
  - by rewrite !run_bind, !clickEnd_run.
Qed.
End half_lemmas.

Section click_lemmas.
Context `{Host store}.
Implicit Types (w : World store) (s : Suspended) (l : Listener) (t : Task).

Lemma suspended_ext reader txt c w1 w2 :
  host w1 = host w2 → semanticColors w1 = semanticColors w2 →
  suspended reader txt c w1 = suspended reader txt c w2.
Proof. unfold suspended, pdf_item. by intros -> ->. Qed.

(** A listener up to its [await] changes the log, the progress lines
    and the user interface only. *)
Lemma clickStart_run l w :
  ∃ ls ps, clickStart l w
           = (Ok (started l w),
              output ls ps (foldl (flip add_ui) w (start_calls l))).
Proof.
  destruct l as [reader key c popup|reader txt key c|]; simpl.
  - rewrite !run_bind, run_uiCall, run_bind, run_log, run_bind, run_getCapture.
    rewrite run_bind. simpl.
    edestruct (applyStart_run (Some reader)) as (ls & ps & ->).
    rewrite run_ret, output_output. erewrite suspended_ext; eauto.
  - rewrite run_bind. destruct (applyStart_run reader (Some txt) key c w)
      as (ls & ps & ->). eauto.
  - exists [], []. by rewrite output_nil.
Qed.

End click_lemmas.

(** ** The event loop *)

Section world_lemmas.
Context `{Host store}.
Implicit Types (w : World store) (s : Suspended) (l : Listener) (t : Task).

Lemma add_uis_ui w cs : ui (foldl (flip add_ui) w cs) = ui w ++ cs.
Proof.
  revert w. induction cs as [|c cs IH]; intros w; simpl;
    [by rewrite app_nil_r|].
  rewrite IH. simpl. by rewrite <- app_assoc.
Qed.

Lemma add_uis_host w cs : host (foldl (flip add_ui) w cs) = host w.
Proof.
  revert w. induction cs as [|c cs IH]; intros w; simpl; [done|].
  by rewrite IH.
Qed.

Lemma add_uis_capture w cs :
  semanticColors (foldl (flip add_ui) w cs) = semanticColors w.
Proof.
  revert w. induction cs as [|c cs IH]; intros w; simpl; [done|].
  by rewrite IH.
Qed.

(** The calls of a listener before and after its [await] append
    nothing to a popup. *)
Lemma add_uis_appended w cs :
  Forall (λ c, ∀ node, c ≠ Append node) cs →
  appended (foldl (flip add_ui) w cs) = appended w.
Proof.
  intros Hcs. revert w.
  induction Hcs as [|c cs Hc _ IH]; intros w; simpl; [done|].
  rewrite IH. unfold appended. simpl. rewrite omap_app. simpl.
  destruct c; rewrite ?app_nil_r; try done. by destruct (Hc node).
Qed.

Lemma start_calls_no_append l :
  Forall (λ c, ∀ node, c ≠ Append node) (start_calls l).
Proof. destruct l; repeat constructor; done. Qed.

Lemma end_calls_no_append l :
  Forall (λ c, ∀ node, c ≠ Append node) (end_calls l).
Proof. destruct l as [? ? ? []| |]; repeat constructor; done. Qed.

(** What the second half of a call does to the store. *)
Lemma resumed_annotations s w :
  annotations (host (resumed s w))
  = annotations (host w)
    ++ match saveTx (s_annotationItem s) (host w) with
       | inr (id, _) => [(id, s_annotationItem s)]
       | inl _ => []
       end.
Proof.
  unfold resumed.
  destruct (saveTx _ _) as [e|[id s']] eqn:Hs; [by rewrite app_nil_r|].
  apply saveTx_annotations in Hs. by destruct (s_selectedText s).
Qed.

Lemma resumed_host s w :
  host (resumed s w)
  = match saveTx (s_annotationItem s) (host w) with
    | inr (_, s') => s'
    | inl _ => host w
    end.
Proof. unfold resumed. by repeat case_match. Qed.

Lemma resumed_ui s w : ui (resumed s w) = ui w.
Proof. unfold resumed. by repeat case_match. Qed.

Lemma resumed_capture s w : semanticColors (resumed s w) = semanticColors w.
Proof. unfold resumed. by repeat case_match. Qed.

Lemma resumed_ids s w :
  NoDup (annotations (host w)).*1 → NoDup (annotations (host (resumed s w))).*1.
Proof.
  rewrite resumed_annotations.
  destruct (saveTx _ _) as [e|[id s']] eqn:Hs; [by rewrite app_nil_r|].
  intros Hnd. rewrite fmap_app. apply NoDup_app. split_and!;
    [done| |apply NoDup_singleton].
  intros x Hx ->%list_elem_of_singleton. by eapply saveTx_fresh.
Qed.

(** The annotation of a suspended call is a highlight of the category
    of the button. *)
Lemma suspended_inv reader txt c w s :
  suspended reader txt c w = Some s →
  ∃ r i it st,
    active_reader reader = Some (r, i) ∧ pdf_item w i = Some it
    ∧ first_source (Reader._internalReader r) (semanticColors w) = Some st
    ∧ annotation_for it txt c st = Some (s_annotationItem s)
    ∧ s_reader s = r ∧ s_selectedText s = txt ∧ s_semanticColor s = c.
Proof.
  unfold suspended. intros Hs.
  destruct (active_reader reader) as [[r i]|]; simplify_option_eq.
  by eexists _, _, _, _.
Qed.

Lemma suspended_highlight reader txt key c w s :
  (key, c) ∈ SEMANTIC_COLORS → suspended reader txt c w = Some s →
  registry_highlight (s_annotationItem s).
Proof.
  intros Hin (r & i & it & st & _ & _ & _ & Ha & _)%suspended_inv.
  unfold annotation_for in Ha. simplify_option_eq. rewrite <- Ha.
  split; [done|]. by exists key, c.
Qed.
End world_lemmas.

Section loop_lemmas.
Context `{Host store}.
Implicit Types (w : World store) (p : Plugin store) (lp : Loop store)
  (s : Suspended) (l : Listener) (t : Task) (ts : list Task).

Lemma click_run l lp :
  ∃ ls ps,
    click l lp
    = mkLoop (set_world (output ls ps (foldl (flip add_ui) (world (plugin lp))
                                         (start_calls l))) (plugin lp))
        (tasks lp ++ option_list (started l (world (plugin lp)))).
Proof.
  unfold click.
  destruct (clickStart_run l (world (plugin lp))) as (ls & ps & ->).
  exists ls, ps. simpl. by destruct (started _ _).
Qed.

Lemma resumeTask_save i s l lp :
  resumeTask i (AwaitSave s l) lp
  = mkLoop (set_world (resumed s (world (plugin lp))) (plugin lp))
      (<[i:=AwaitApply l]> (tasks lp)).
Proof. unfold resumeTask. simpl. by rewrite run_bind, applyResume_run. Qed.

Lemma resumeTask_apply i l lp :
  resumeTask i (AwaitApply l) lp
  = mkLoop (set_world (foldl (flip add_ui) (world (plugin lp)) (end_calls l))
              (plugin lp))
      (delete i (tasks lp)).
Proof. unfold resumeTask. simpl. by rewrite run_bind, clickEnd_run. Qed.

(** The invariant of file [Hooks] looks at the store and at the
    popups only. *)
Lemma inv_set_world init n p w :
  host w = host (world p) → appended w = appended (world p) →
  inv init n p → inv init n (set_world w p).
Proof. unfold inv, ui_built, saved. simpl. by intros -> ->. Qed.

Lemma in_flight_app ts1 ts2 :
  in_flight (ts1 ++ ts2) = in_flight ts1 ++ in_flight ts2.
Proof. apply omap_app. Qed.

(** The invariant of the loop: the invariant of file [Hooks] for [k]
    saves, with the saves in flight counted among the [n] and each a
    highlight of the registry. *)
Definition ainv (init : list (Z * AnnotationItem.t)) (n : nat) lp : Prop :=
  ∃ k, inv init k (plugin lp)
       ∧ Forall registry_highlight (in_flight (tasks lp))
       ∧ k + length (in_flight (tasks lp)) ≤ n.

Lemma click_ainv init n lp l :
  clickable (world (plugin lp)) l → ainv init n lp →
  ainv init (S n) (click l lp).
Proof.
  intros Hc (k & Hinv & Hf & Hn).
  destruct (clickable_inv _ _ (proj1 Hinv) Hc)
    as (reader & key & c & popup & Hin & ->).
  destruct (click_run (PopupClick reader key c popup) lp) as (ls & ps & ->).
  exists k. cbn [plugin tasks]. rewrite in_flight_app, length_app.
  split_and!.
  - apply inv_set_world; [done| |done].
    unfold appended. simpl. by rewrite omap_app, app_nil_r.
  - apply Forall_app. split; [done|]. simpl.
    destruct (suspended _ _ _ _) as [s|] eqn:Hs; simpl; [|done].
    apply Forall_singleton. by eapply suspended_highlight.
  - simpl. destruct (suspended _ _ _ _); simpl; lia.
Qed.

Lemma resume_ainv init n lp i t :
  tasks lp !! i = Some t → ainv init n lp → ainv init n (resumeTask i t lp).
Proof.
  intros (ts1 & ts2 & Hts & Hdel & Hins)%lookup_middle (k & Hinv & Hf & Hn).
  destruct t as [s l|l];
    [rewrite resumeTask_save, Hins|rewrite resumeTask_apply, Hdel];
    rewrite Hts, in_flight_app in Hf, Hn; rewrite length_app in Hn;
    simpl in Hf, Hn.
  - apply Forall_app in Hf as [Hf1 [Hs Hf2]%Forall_cons].
    exists (S k). cbn [plugin tasks]. rewrite in_flight_app, length_app. simpl.
    split_and!; [|by apply Forall_app|lia].
    destruct Hinv as (Hb & added & Ha & Hfa & Hl).
    split; [unfold ui_built, appended in *; simpl; by rewrite resumed_ui|].
    unfold saved in *. simpl. rewrite resumed_annotations, Ha, <- app_assoc.
    eexists. split; [done|]. rewrite length_app.
    destruct (saveTx _ _) as [e|[id s']]; simpl; split;
      rewrite ?app_nil_r; try done; try lia.
    apply Forall_app. split; [done|]. by apply Forall_singleton.
  - exists k. cbn [plugin tasks]. rewrite in_flight_app, length_app.
    split_and!; [|done..].
    apply inv_set_world; [by rewrite add_uis_host| |done].
    apply add_uis_appended, end_calls_no_append.
Qed.
End loop_lemmas.

Section run_lemmas.
Context `{Host store}.
Implicit Types (w : World store) (p : Plugin store) (lp : Loop store)
  (s : Suspended) (l : Listener) (t : Task) (ts : list Task).

(** The clicks among the events. *)
Definition is_aclick (e : Event) : bool :=
  match e with FromHost a => is_click a | Resume _ => false end.

Lemma clicks_hosts_cons e events :
  clicks (hosts (e :: events))
  = (if is_aclick e then 1 else 0) + clicks (hosts events).
Proof. destruct e as [a|i]; simpl; [apply clicks_cons|done]. Qed.

Lemma astep_ainv init n lp e lp' :
  astep lp e lp' → ainv init n lp →
  ainv init (n + (if is_aclick e then 1 else 0)) lp'.
Proof.
  destruct 1 as [lp a p' Ha Hs|lp l Hc|lp i t Hi]; simpl.
  - rewrite Ha. intros (k & Hinv & Hf & Hn). exists k.
    apply (step_inv init k) in Hs; [|done]. rewrite Ha, Nat.add_0_r in Hs.
    split_and!; [done..|simpl; lia].
  - rewrite Nat.add_1_r. by apply click_ainv.
  - rewrite Nat.add_0_r. by apply resume_ainv.
Qed.

Lemma asteps_ainv init n lp events lp' :
  asteps lp events lp' → ainv init n lp →
  ainv init (n + clicks (hosts events)) lp'.
Proof.
  intros Hs. revert n. induction Hs as [lp|lp e lp' events lp'' Hs _ IH];
    intros n Hinv; [by rewrite Nat.add_0_r|].
  rewrite clicks_hosts_cons, Nat.add_assoc. eauto using astep_ainv.
Qed.

Lemma loaded_ainv cfg w :
  appended w = [] → ainv (annotations (host w)) 0 (mkLoop (loaded cfg w) []).
Proof. intros Hw. exists 0. split_and!; [by apply loaded_inv|done..]. Qed.

Lemma astep_ids lp e lp' :
  astep lp e lp' → ui_built (world (plugin lp)) →
  NoDup (saved (plugin lp)).*1 → NoDup (saved (plugin lp')).*1.
Proof.
  destruct 1 as [lp a p' Ha Hs|lp l Hc|lp i [s l|l] Hi]; intros Hb.
  - by apply (step_ids _ _ _ Hs).
  - destruct (click_run l lp) as (ls & ps & ->).
    unfold saved. simpl. by rewrite add_uis_host.
  - rewrite resumeTask_save. apply resumed_ids.
  - rewrite resumeTask_apply. unfold saved. simpl. by rewrite add_uis_host.
Qed.

Lemma aexec_astep e lp lp' : aexec e lp = Some lp' ↔ astep lp e lp'.
Proof.
  split.
  - destruct e as [a|i]; simpl.
    + destruct a; try (intros Hs%bind_Some; destruct Hs as (p' & Hs%exec_step & ?);
        simplify_eq; by constructor).
      case_decide; [|done]. intros [= <-]. by constructor.
    + intros (t & Hi & [= <-])%bind_Some. by constructor.
  - destruct 1 as [lp a p' Ha Hs%exec_step|lp l Hc|lp i t Hi]; simpl.
    + destruct a; try done; by rewrite Hs.
    + by rewrite decide_True.
    + by rewrite Hi.
Qed.

Lemma arun_cons e events lp :
  arun (e :: events) lp = aexec e lp ≫= arun events.
Proof.
  unfold arun. simpl. destruct (aexec e lp) as [lp'|]; [done|].
  simpl. by induction events.
Qed.

Lemma arun_asteps events lp lp' :
  arun events lp = Some lp' → asteps lp events lp'.
Proof.
  revert lp. induction events as [|e events IH]; intros lp.
  - intros [= ->]. constructor.
  - rewrite arun_cons. destruct (aexec e lp) as [lp1|] eqn:He; [|done].
    apply aexec_astep in He. eauto using asteps.
Qed.

Lemma asteps_app lp events1 lp' events2 lp'' :
  asteps lp events1 lp' → asteps lp' events2 lp'' →
  asteps lp (events1 ++ events2) lp''.
Proof. induction 1; simpl; eauto using asteps. Qed.
End run_lemmas.

Section eventually_lemmas.
Context {S : Type} (step : S → (S → Prop) → Prop).

Lemma eventually_weaken (P Q : S → Prop) s :
  eventually step P s → (∀ s', P s' → Q s') → eventually step Q s.
Proof. induction 1; eauto using @eventually. Qed.

Lemma eventually_trans (P Q : S → Prop) s :
  eventually step P s → (∀ s', P s' → eventually step Q s') →
  eventually step Q s.
Proof. induction 1; eauto using @eventually. Qed.
End eventually_lemmas.

Section drain_lemmas.
Context `{Host store}.
Implicit Types (w : World store) (p : Plugin store) (lp : Loop store)
  (s : Suspended) (l : Listener) (t : Task) (ts : list Task).

(** The turns the suspended listeners still need. *)
Definition turns_left ts : nat := sum_list_with turns ts.

(** A turn is one turn less to go, and the calls the listeners owe
    are made or still owed. *)
Lemma resumeTask_progress i t lp :
  tasks lp !! i = Some t →
  S (turns_left (tasks (resumeTask i t lp))) = turns_left (tasks lp)
  ∧ ui (world (plugin (resumeTask i t lp))) ++ owed (tasks (resumeTask i t lp))
    ≡ₚ ui (world (plugin lp)) ++ owed (tasks lp).
Proof.
  intros (ts1 & ts2 & Hts & Hdel & Hins)%lookup_middle.
  destruct t as [s l|l];
    [rewrite resumeTask_save, Hins|rewrite resumeTask_apply, Hdel];
    rewrite Hts; unfold turns_left, owed; cbn [plugin tasks world set_world];
    rewrite !sum_list_with_app, !bind_app; simpl.
  - rewrite resumed_ui. split; [lia|done].
  - rewrite add_uis_ui. split; [lia|].
    rewrite <- app_assoc. f_equiv. apply Permutation_app_swap_app.
Qed.

(** A listener is its first half followed by the task it starts. *)
Lemma runListener_split l :
  runListener l ≡ clickStart l ≫= from_option runTask (mret tt).
Proof.
  intros w. destruct l as [reader key c popup|reader txt key c|];
    unfold runListener, clickStart; [| |done]; m_simpl.
  all: rewrite (apply_split _ _ _ _ _), run_bind.
  all: edestruct applyStart_run as (ls & ps & ->).
  all: destruct (suspended _ _ _ _) as [s|]; simpl; [|done].
  all: by rewrite run_bind.
Qed.

Lemma runListener_started l w :
  ∃ w1, clickStart l w = (Ok (started l w), w1)
        ∧ runListener l w = from_option runTask (mret tt) (started l w) w1.
Proof.
  destruct (clickStart_run l w) as (ls & ps & Hc). eexists. split; [done|].
  by rewrite (runListener_split l w), run_bind, Hc.
Qed.

(** A task that is alone drains in its turns. *)
Lemma task_drains p t :
  ∃ events,
    asteps (mkLoop p [t]) events
      (mkLoop (set_world (runTask t (world p)).2 p) [])
    ∧ hosts events = [].
Proof.
  rewrite runTask_run. destruct t as [s l|l]; simpl.
  - exists [Resume 0; Resume 0]. split; [|done].
    eapply asteps_cons; [by apply (astep_resume _ 0 (AwaitSave s l))|].
    rewrite resumeTask_save.
    eapply asteps_cons; [by apply (astep_resume _ 0 (AwaitApply l))|].
    rewrite resumeTask_apply. apply asteps_nil.
  - exists [Resume 0]. split; [|done].
    eapply asteps_cons; [by apply (astep_resume _ 0 (AwaitApply l))|].
    rewrite resumeTask_apply. apply asteps_nil.
Qed.

(** A click of the plugin of file [Hooks] is a click of the loop
    followed by the turns of its task. *)
Lemma click_drains p l :
  clickable (world p) l →
  ∃ events,
    asteps (mkLoop p []) (FromHost (Click l) :: events)
      (mkLoop (set_world (runListener l (world p)).2 p) [])
    ∧ hosts events = [].
Proof.
  intros Hc. destruct (runListener_started l (world p)) as (w1 & Hs & ->).
  pose proof (astep_click (mkLoop p []) l Hc) as Hstep.
  unfold click in Hstep. cbn [plugin tasks] in Hstep. rewrite Hs in Hstep.
  destruct (started l (world p)) as [t|]; simpl in *.
  - destruct (task_drains (set_world w1 p) t) as (events & Hd & Hh).
    exists events. split; [|done]. by eapply asteps_cons.
  - exists []. split; [|done]. eapply asteps_cons; [done|apply asteps_nil].
Qed.

End drain_lemmas.

Section ids_lemmas.
Context `{Host store}.

Lemma asteps_ids init n (lp : Loop store) events lp' :
  asteps lp events lp' → ainv init n lp →
  NoDup (saved (plugin lp)).*1 → NoDup (saved (plugin lp')).*1.
Proof.
  intros Hs. revert n. induction Hs as [|lp e lp1 events lp2 Hs _ IH];
    intros n Hinv; [done|].
  intros Hn. eapply IH; [by eapply astep_ainv|].
  destruct Hinv as (k & [Hb _] & _). by eapply astep_ids.
Qed.

(** The text of a suspended call is the text it was called with. *)
Lemma suspended_text reader txt c (w : World store) s :
  suspended reader txt c w = Some s →
  AnnotationItem.annotationText (s_annotationItem s) = txt.
Proof.
  intros (r & i & it & st & _ & _ & _ & Ha & _)%suspended_inv.
  unfold annotation_for in Ha. simplify_option_eq. by rewrite <- Ha.
Qed.

Lemma click_wf (lp : Loop store) l :
  ui_built (world (plugin lp)) → clickable (world (plugin lp)) l →
  wf_loop lp → wf_loop (click l lp).
Proof.
  intros Hb Hc (Hw & Hf & Hs).
  destruct (clickable_inv _ _ Hb Hc) as (reader & key & c & popup & _ & ->).
  destruct (click_run (PopupClick reader key c popup) lp) as (ls & ps & ->).
  split_and!; [done| |done]. cbn [tasks]. rewrite in_flight_app.
  apply Forall_app. split; [done|]. simpl.
  destruct (suspended _ _ _ _) as [s|] eqn:Hsus; simpl; [|done].
  apply Forall_singleton. unfold text_ok.
  rewrite (suspended_text _ _ _ _ _ Hsus). apply Hw.
Qed.

Lemma resume_wf (lp : Loop store) i t :
  tasks lp !! i = Some t → wf_loop lp → wf_loop (resumeTask i t lp).
Proof.
  intros (ts1 & ts2 & Hts & Hdel & Hins)%lookup_middle (Hw & Hf & Hs).
  destruct t as [s l|l];
    [rewrite resumeTask_save, Hins|rewrite resumeTask_apply, Hdel];
    rewrite Hts, in_flight_app in Hf; simpl in Hf;
    apply Forall_app in Hf as [Hf1 Hf2]; unfold wf_loop, saved;
    cbn [plugin tasks world set_world]; rewrite in_flight_app.
  - apply Forall_cons in Hf2 as [Ha Hf2].
    rewrite resumed_capture, resumed_annotations.
    split_and!; [done|by apply Forall_app|].
    apply Forall_app. split; [done|].
    destruct (saveTx _ _) as [e|[id s']]; [done|]. by apply Forall_singleton.
  - rewrite add_uis_capture, add_uis_host.
    split_and!; [done|by apply Forall_app|done].
Qed.

Lemma astep_wf (lp : Loop store) e lp' :
  astep lp e lp' → ui_built (world (plugin lp)) → wf_loop lp → wf_loop lp'.
Proof.
  destruct 1 as [lp a p' Ha Hs|lp l Hc|lp i t Hi]; intros Hb;
    [|by apply click_wf|by apply resume_wf].
  intros (Hw & Hf & Hsv). destruct (step_capture _ _ _ Hs Ha) as [Hh Hc].
  unfold wf_loop, saved in *. cbn [plugin tasks]. rewrite Hh. auto.
Qed.

Lemma asteps_wf init n (lp : Loop store) events lp' :
  asteps lp events lp' → ainv init n lp → wf_loop lp → wf_loop lp'.
Proof.
  intros Hs. revert n. induction Hs as [|lp e lp1 events lp2 Hs _ IH];
    intros n Hinv; [done|].
  intros Hw. eapply IH; [by eapply astep_ainv|].
  destruct Hinv as (k & [Hb _] & _). by eapply astep_wf.
Qed.

(** The suspended call of a click on a popup button. *)
Lemma clickStart_suspended reader key c popup w s l :
  (clickStart (PopupClick reader key c popup) w).1 = Ok (Some (AwaitSave s l)) →
  suspended (Some reader) (Capture.selectedText (semanticColors w)) c w
  = Some s.
Proof.
  destruct (clickStart_run (PopupClick reader key c popup) w)
    as (ls & ps & ->). simpl.
  destruct (suspended _ _ _ _); simpl; intros; by simplify_eq.
Qed.
End ids_lemmas.

(** ** Examples *)

(** The button "insight" of the popup of [event1]. *)
Definition button1 : Listener :=
  PopupClick reader1 "insight" insight (Some 7%Z).

(** The loop at its start, and with the popup of [event1] open. *)
Definition loop0 : Loop MapStore := mkLoop (loaded config0 world1) [].
Definition opened : Loop MapStore :=
  default loop0
    (arun [FromHost (Startup 1); FromHost (SelectionPopup event1)] loop0).

(** The annotation of a click on [button1] in that popup. *)
Definition annotation1 : AnnotationItem.t :=
  annotationItem_of pdf (Some "first selection") insight
    (Position.mk (Some 4%Z) (Some [rect_a])) [rect_a] (Some "5").
Definition suspended1 : Suspended :=
  mkSuspended reader1 annotation1 (Some "first selection") insight.

(** A click, and a second selection before the save completes. *)
Definition overtaken : Loop MapStore :=
  default loop0
    (arun [FromHost (Click button1); FromHost (SelectionPopup event2)] opened).

(** Two clicks on the button before the first save completes, then
    the turns of the two listeners. *)
Definition double_click : list Event :=
  [FromHost (Startup 1); FromHost (SelectionPopup event1);
   FromHost (Click button1); FromHost (Click button1);
   Resume 1; Resume 0; Resume 0; Resume 0].
Definition doubled : Loop MapStore :=
  default loop0 (arun double_click loop0).

(** ** Properties *)

Section loop_properties.
Context `{Host store}.
Implicit Types (w : World store) (p : Plugin store) (lp : Loop store).

(** C14 (a run of the plugin is a run of the loop).  Every run of the
    transition system of file [Hooks], in which a click runs its
    listener to the end, is a run of the event loop with the same
    actions of the host, in which the listener of every click is
    resumed to its end before the next action; no listener is left
    suspended. *)
Theorem atomic_runs_on_loop p (actions : list Action) p' :
  steps p actions p' →
  ∃ events, asteps (mkLoop p []) events (mkLoop p' [])
            ∧ hosts events = actions.
Proof.
  induction 1 as [p|p a p' actions p'' Hs _ (events & IH & Hh)];
    [exists []; split; [apply asteps_nil|done]|].
  destruct (is_click a) eqn:Ha.
  - destruct Hs; try done. destruct (click_drains p l) as (es & Hd & He); [done|].
    exists (FromHost (Click l) :: es ++ events). split.
    + by apply (asteps_app _ (_ :: _) _ _ _ Hd).
    + simpl. unfold hosts in *. by rewrite omap_app, He, Hh.
  - exists (FromHost a :: events). split; [|by rewrite <- Hh].
    eapply asteps_cons; [|done]. by apply (astep_host (mkLoop p [])).
Qed.

(** C11 (the annotation is fixed at the click).  When a click on a
    popup button suspends at the save, the annotation that the save
    adds once it completes is the one built at the click, whatever
    the world has become in between: its text is the text the cache
    held at the click, and its position is the one the first source
    of the reader gave at the click. *)
Theorem resume_saves_click_time reader key c popup w s l w2 id a :
  (clickStart (PopupClick reader key c popup) w).1 = Ok (Some (AwaitSave s l)) →
  annotations (host (resume (AwaitSave s l) w2).2)
  = annotations (host w2) ++ [(id, a)] →
  a = s_annotationItem s
  ∧ AnnotationItem.annotationText a = Capture.selectedText (semanticColors w)
  ∧ ∃ st, first_source (Reader._internalReader reader) (semanticColors w)
          = Some st
          ∧ position st = Some (AnnotationItem.annotationPosition a).
Proof.
  intros (r & i & it & st & [[= <-] _]%active_reader_Some & _ & Hsrc & Ha & _)
    %clickStart_suspended%suspended_inv.
  simpl. rewrite run_bind, applyResume_run. simpl.
  rewrite resumed_annotations. intros Heq%app_inv_head.
  destruct (saveTx _ _) as [e|[id' s']]; simplify_eq.
  unfold annotation_for in Ha. simplify_option_eq. rewrite <- Ha. eauto.
Qed.

(** C12 (the invariants hold with saves in flight).  In every state
    the event loop reaches from the start of the plugin, the store
    holds the annotations it held at the start followed by highlights
    of categories of the registry; the saves in flight are highlights
    of the registry too; the added annotations and the saves in
    flight together are at most as many as the clicks; and the
    identifiers of the annotations stay distinct. *)
Theorem loop_annotations_registry cfg w (events : list Event) lp :
  appended w = [] → asteps (mkLoop (loaded cfg w) []) events lp →
  ∃ added, saved (plugin lp) = annotations (host w) ++ added
           ∧ Forall (λ ia, registry_highlight ia.2) added
           ∧ Forall registry_highlight (in_flight (tasks lp))
           ∧ length added + length (in_flight (tasks lp))
             ≤ clicks (hosts events)
           ∧ (NoDup (annotations (host w)).*1 → NoDup (saved (plugin lp)).*1).
Proof.
  intros Hw Hs. pose proof (loaded_ainv cfg w Hw) as Hinv.
  destruct (asteps_ainv _ _ _ _ _ Hs Hinv)
    as (k & (_ & added & ? & ? & ?) & ? & ?).
  exists added. split_and!; [done..|lia|].
  exact (asteps_ids _ _ _ _ _ Hs Hinv).
Qed.

(** C16 (the cache and the texts stay well formed).  When the plugin
    starts with a cache whose text, if any, is not empty and whose
    pending annotation, if any, has a position, and with a store
    that has no annotation with an empty text, then in every state
    the event loop reaches the cache is of that form, and neither
    the store nor a save in flight has an annotation whose text is
    the empty string. *)
Theorem loop_wellformed cfg w (events : list Event) lp :
  appended w = [] → wf_capture (semanticColors w) →
  Forall (λ ia, text_ok ia.2) (annotations (host w)) →
  asteps (mkLoop (loaded cfg w) []) events lp → wf_loop lp.
Proof.
  intros Hw Hc Ha Hs.
  eapply asteps_wf; [done|by apply loaded_ainv|]. by split_and!.
Qed.

(** C38 (a second click while the save is in flight).  The listener
    of a popup button hides the popup in its second half only: up to
    its [await] the user interface has received [stopPropagation()]
    and nothing else, so the popup is still shown when the listener
    is suspended at the save, and its buttons can be clicked.  A
    second click in that state suspends with the same annotation,
    and when the host completes both saves the store holds the
    annotation twice. *)
Theorem second_click_in_flight reader key c (popup : Z) w s :
  let l := PopupClick reader key c (Some popup) in
  (clickStart l w).1 = Ok (Some (AwaitSave s l)) →
  let w1 := (clickStart l w).2 in
  ui w1 = ui w ++ [StopPropagation]
  ∧ (clickable w l → clickable w1 l)
  ∧ (clickStart l w1).1 = Ok (Some (AwaitSave s l))
  ∧ (∀ w3, ui (resume (AwaitApply l) w3).2 = ui w3 ++ [HidePopup popup])
  ∧ ∀ w2 id1 s1 id2 s2,
      saveTx (s_annotationItem s) (host w2) = inr (id1, s1) →
      saveTx (s_annotationItem s) s1 = inr (id2, s2) →
      annotations
        (host (resume (AwaitSave s l) (resume (AwaitSave s l) w2).2).2)
      = annotations (host w2)
        ++ [(id1, s_annotationItem s); (id2, s_annotationItem s)].
Proof.
  intros l Hs%clickStart_suspended.
  destruct (clickStart_run l w) as (ls & ps & ->). subst l. cbn [snd].
  set (w1 := output ls ps _).
  assert (appended w1 = appended w) as Happ.
  { unfold appended. simpl. by rewrite omap_app, app_nil_r. }
  split_and!; [done|unfold clickable; by rewrite Happ| |done|].
  - destruct (clickStart_run (PopupClick reader key c (Some popup)) w1)
      as (ls' & ps' & ->). subst w1. simpl.
    by rewrite (suspended_ext _ _ _ _ w), Hs.
  - intros w2 id1 s1 id2 s2 H1 H2. simpl.
    rewrite !run_bind, !applyResume_run. simpl.
    rewrite resumed_annotations, resumed_host, H1, H2.
    by rewrite (saveTx_annotations _ _ _ _ H1), <- app_assoc.
Qed.

(** C13 (suspended listeners finish).  From any state of the event
    loop, when the host goes on completing suspended listeners, in
    whatever order, after finitely many turns none is left, and the
    calls into the user interface are those made before followed, in
    some order, by the calls the listeners owed: every popup whose
    button was clicked is hidden and every prompt confirmed, also
    when the save failed. *)
Theorem listeners_finish lp :
  eventually completes
    (λ lp', tasks lp' = []
            ∧ ui (world (plugin lp'))
              ≡ₚ ui (world (plugin lp)) ++ owed (tasks lp)) lp.
Proof.
  remember (turns_left (tasks lp)) as n eqn:Hn. revert lp Hn.
  induction n as [n IH] using lt_wf_ind. intros lp ->.
  destruct (tasks lp) as [|t ts] eqn:Hts.
  { apply eventually_done. by rewrite Hts, app_nil_r. }
  rewrite <- Hts in IH |- *.
  apply (eventually_step _ _ _
           (λ lp', ∃ i t, tasks lp !! i = Some t ∧ lp' = resumeTask i t lp)).
  { split; [by rewrite Hts|eauto]. }
  intros lp' (i & t' & Hi & ->).
  destruct (resumeTask_progress i t' lp Hi) as [Hturns Hui].
  eapply eventually_weaken; [eapply IH; [|done]; lia|].
  intros lp'' [Hd Hp]. split; [done|]. by rewrite Hp, Hui.
Qed.
End loop_properties.

(** Two clicks on a button before the first save completes: both
    saves are in flight with the same annotation, and when the
    listeners have finished the store holds that annotation twice. *)
Example double_click_two_saves :
  (∃ lp, arun (take 4 double_click) loop0 = Some lp
         ∧ in_flight (tasks lp) = [annotation1; annotation1])
  ∧ ∃ lp, arun double_click loop0 = Some lp
          ∧ tasks lp = []
          ∧ saved (plugin lp) = [(11%Z, annotation1); (12%Z, annotation1)].
Proof. split; eexists; by vm_compute. Qed.

(** With the save of [overtaken] in flight, what the listener owes is
    to hide the popup of the click. *)
Lemma overtaken_owed : owed (tasks overtaken) = [HidePopup 7%Z].
Proof. by vm_compute. Qed.

Lemma listeners_finish_witness :
  eventually completes
    (λ lp', tasks lp' = []
            ∧ ui (world (plugin lp'))
              ≡ₚ ui (world (plugin overtaken)) ++ owed (tasks overtaken))
    overtaken.
Proof. exact (listeners_finish overtaken). Defined.

Lemma second_click_in_flight_witness :
  let w1 := (clickStart button1 (world (plugin opened))).2 in
  ui w1 = ui (world (plugin opened)) ++ [StopPropagation]
  ∧ (clickable (world (plugin opened)) button1 → clickable w1 button1)
  ∧ (clickStart button1 w1).1 = Ok (Some (AwaitSave suspended1 button1))
  ∧ (∀ w3, ui (resume (AwaitApply button1) w3).2 = ui w3 ++ [HidePopup 7%Z])
  ∧ ∀ w2 id1 s1 id2 s2,
      saveTx annotation1 (host w2) = inr (id1, s1) →
      saveTx annotation1 s1 = inr (id2, s2) →
      annotations
        (host (resume (AwaitSave suspended1 button1)
                 (resume (AwaitSave suspended1 button1) w2).2).2)
      = annotations (host w2) ++ [(id1, annotation1); (id2, annotation1)].
Proof.
  refine (second_click_in_flight reader1 "insight" insight 7%Z
            (world (plugin opened)) suspended1 _); by vm_compute.
Defined.

Lemma atomic_runs_on_loop_witness :
  ∃ events, asteps loop0 events (mkLoop after_session [])
            ∧ hosts events = session.
Proof. exact (atomic_runs_on_loop _ _ _ session_steps). Defined.

Lemma resume_saves_click_time_witness :
  annotation1 = s_annotationItem suspended1
  ∧ AnnotationItem.annotationText annotation1
    = Capture.selectedText (semanticColors (world (plugin opened)))
  ∧ ∃ st, first_source (Reader._internalReader reader1)
            (semanticColors (world (plugin opened))) = Some st
          ∧ position st
            = Some (AnnotationItem.annotationPosition annotation1).
Proof.
  refine (resume_saves_click_time reader1 "insight" insight (Some 7%Z)
            (world (plugin opened)) suspended1 button1
            (world (plugin overtaken)) 11%Z annotation1 _ _); by vm_compute.
Defined.

Lemma double_click_steps : asteps loop0 double_click doubled.
Proof. apply arun_asteps. by vm_compute. Qed.

Lemma loop_wellformed_witness : wf_loop doubled.
Proof.
  apply (loop_wellformed config0 world1 double_click doubled eq_refl);
    [by split|constructor|apply double_click_steps].
Defined.

Lemma loop_annotations_registry_witness :
  ∃ added,
    saved (plugin doubled) = [] ++ added
    ∧ Forall (λ ia, registry_highlight ia.2) added
    ∧ Forall registry_highlight (in_flight (tasks doubled))
    ∧ length added + length (in_flight (tasks doubled))
      ≤ clicks (hosts double_click)
    ∧ (NoDup (@nil Z) → NoDup (saved (plugin doubled)).*1).
Proof.
  exact (loop_annotations_registry config0 world1 double_click doubled
           eq_refl double_click_steps).
Defined.
